(** * AQI analysis pipeline: a shallow embedding of [main.py]

    The development follows the Python source function by function:
    [calculate_distance], [AQIDataFetcher.fetch_aqi_data],
    [AQIMapVisualizer.get_aqi_level], [AQIMapVisualizer.create_map],
    [AQIMapVisualizer.create_data_report] and [main]; then the start-up
    code of main.py ([setup_packages] among its imports) and the two
    project scripts, setup_github.py and github_setup.py.

    Python values are an inductive type [pyval]; a Python [float] is an
    IEEE 754 binary64 number ([spec_float] at precision 53); exceptions are
    an explicit [outcome]; [print] and file writes act on an explicit
    [world].  What the interpreter and the third-party libraries supply and
    the repository does not define (the decimal parser behind [float(str)],
    libm, [round], folium's location check) is gathered in the class
    [Platform].  The theorems hold for every platform (the symmetry of the
    distance, for every platform that obeys [LibmLaws]); the closed
    examples are evaluated on [reference_platform]. *)

From Stdlib Require Import ZArith QArith Qpower Lia Lqa Bool Ascii String.
From Stdlib Require Import Sorted Permutation.
From Stdlib Require Import Floats.SpecFloat.
From stdpp Require Import base option list gmap strings.

Local Open Scope Z_scope.
Local Set Warnings "-register-all".

(** ** IEEE 754 binary64 *)

Module F64.

Definition prec : Z := 53.
Definition emax : Z := 1024.

Definition t : Type := spec_float.

Definition nan : t := S754_nan.
Definition opp : t -> t := SFopp.
Definition add : t -> t -> t := SFadd prec emax.
Definition sub : t -> t -> t := SFsub prec emax.
Definition mul : t -> t -> t := SFmul prec emax.
Definition div : t -> t -> t := SFdiv prec emax.
Definition sqrt : t -> t := SFsqrt prec emax.
Definition leb : t -> t -> bool := SFleb.
Definition ltb : t -> t -> bool := SFltb.

Definition is_nan (x : t) : bool :=
  match x with S754_nan => true | _ => false end.

Definition is_inf (x : t) : bool :=
  match x with S754_infinity _ => true | _ => false end.

Definition is_finite (x : t) : bool :=
  match x with S754_zero _ | S754_finite _ _ _ => true | _ => false end.

Definition is_zero (x : t) : bool :=
  match x with S754_zero _ => true | _ => false end.

(** The binary64 number nearest to an integer (ties to even); an infinity
    when the integer is out of range. *)
Definition of_Z (z : Z) : t := binary_normalize prec emax z 0 false.

(** The binary64 number nearest to the fraction [n / d]. *)
Definition of_ratio (n : Z) (d : positive) : t :=
  match n with
  | Z0 => S754_zero false
  | Zpos p =>
      let '(mz, ez, lz) := SFdiv_core_binary prec emax (Zpos p) 0 (Zpos d) 0 in
      binary_round_aux prec emax false mz ez lz
  | Zneg p =>
      let '(mz, ez, lz) := SFdiv_core_binary prec emax (Zpos p) 0 (Zpos d) 0 in
      binary_round_aux prec emax true mz ez lz
  end.

(** The value of the decimal literal [m * 10 ^ e10], as Python reads a
    float literal: [of_decimal 250478 (-4)] is [25.0478]. *)
Definition of_decimal (m e10 : Z) : t :=
  match e10 with
  | Zneg k => of_ratio m (Pos.pow 10 k)
  | _ => of_Z (m * 10 ^ e10)
  end.

(** The exact rational value of a finite number. *)
Definition to_Q (x : t) : option Q :=
  match x with
  | S754_zero _ => Some 0%Q
  | S754_finite s m e => Some (inject_Z (cond_Zopp s (Zpos m)) * 2 ^ e)%Q
  | _ => None
  end.

(** Exact comparison of an integer with a float, as Python's mixed
    [int]/[float] comparison: [None] when the float is a NaN. *)
Definition Zcompare (x : Z) (f : t) : option comparison :=
  match f with
  | S754_nan => None
  | S754_infinity s => Some (if s then Gt else Lt)
  | S754_zero _ => Some (x ?= 0)
  | S754_finite s m e =>
      let v := cond_Zopp s (Zpos m) in
      Some (if 0 <=? e then x ?= v * 2 ^ e else x * 2 ^ (- e) ?= v)
  end.

End F64.

Definition pyfloat : Type := F64.t.

(** ** Python values, exceptions and results *)

(** The values [json.loads] produces, which are the values every function
    of the program receives. *)
Inductive pyval : Type :=
| PNone
| PBool (b : bool)
| PInt (z : Z)
| PFloat (f : pyfloat)
| PStr (s : string)
| PList (l : list pyval)
| PDict (d : gmap string pyval).

(** A station record: one JSON object of the API's answer. *)
Definition record : Type := gmap string pyval.

(** The exception classes the program can meet. *)
Inductive exn : Type :=
| ValueError
| TypeError
| KeyError
| IndexError
| AttributeError
| OverflowError
| RequestException
| JSONDecodeError
| FileExistsError
| FileNotFoundError
| NotADirectoryError.

Inductive outcome (A : Type) : Type :=
| Ret (a : A)
| Raise (e : exn).

Arguments Ret {A} a.
Arguments Raise {A} e.

#[global] Instance outcome_ret : MRet outcome := fun A a => Ret a.

#[global] Instance outcome_bind : MBind outcome :=
  fun A B f m => match m with Ret a => f a | Raise e => Raise e end.

#[global] Instance outcome_fmap : FMap outcome :=
  fun A B f m => match m with Ret a => Ret (f a) | Raise e => Raise e end.

#[global] Instance exn_eq_dec : EqDecision exn.
Proof. solve_decision. Defined.

#[global] Instance outcome_eq_dec {A : Type} `{EqDecision A} : EqDecision (outcome A).
Proof. solve_decision. Defined.

(** Python's truth value ([bool(v)], tested by [if], [and], [not]). *)
Definition truthy (v : pyval) : bool :=
  match v with
  | PNone => false
  | PBool b => b
  | PInt z => negb (z =? 0)
  | PFloat f => negb (F64.is_zero f)
  | PStr s => negb (String.eqb s "")
  | PList l => match l with [] => false | _ => true end
  | PDict d => negb (Nat.eqb (size d) 0)
  end.

(** [d.get(key)] and [d.get(key, default)]. *)
Definition dict_get (d : record) (key : string) : pyval :=
  default PNone (d !! key).

Definition dict_get_default (d : record) (key : string) (dflt : pyval) : pyval :=
  default dflt (d !! key).

(** [d[key]] *)
Definition dict_getitem (d : record) (key : string) : outcome pyval :=
  match d !! key with
  | Some v => Ret v
  | None => Raise KeyError
  end.

(** The length of a [str]: its code points.  A string is held as its
    UTF-8 bytes, and a code point is one byte that is not a continuation
    byte (10xxxxxx) with the continuation bytes that follow it. *)
Definition is_continuation_byte (c : ascii) : bool :=
  let n := N_of_ascii c in (128 <=? n)%N && (n <? 192)%N.

Fixpoint str_len (s : string) : nat :=
  match s with
  | EmptyString => 0%nat
  | String c rest => ((if is_continuation_byte c then 0 else 1) + str_len rest)%nat
  end.

(** [len(v)] *)
Definition py_len (v : pyval) : outcome nat :=
  match v with
  | PStr s => Ret (str_len s)
  | PList l => Ret (length l)
  | PDict d => Ret (size d)
  | _ => Raise TypeError
  end.

(** ** What the interpreter and the libraries supply *)

Class Platform : Type := {
  (** [float(s)] on a string: the parsed number, or [None] where Python
      raises [ValueError]. *)
  float_of_str : string -> option pyfloat;
  (** [math.sin], [math.cos], [math.asin] (they raise [ValueError] outside
      their domain). *)
  math_sin : pyfloat -> outcome pyfloat;
  math_cos : pyfloat -> outcome pyfloat;
  math_asin : pyfloat -> outcome pyfloat;
  (** [x ** 2] on a float. *)
  float_pow2 : pyfloat -> outcome pyfloat;
  (** [round(x, 2)] on a float. *)
  py_round2 : pyfloat -> pyfloat;
  (** The check folium makes of a marker's location (recent versions
      raise [ValueError] on a NaN). *)
  folium_validate_location : pyfloat -> pyfloat -> outcome unit;
  (** The truth value of [pd.notna(l)] for a list [l] (an element-wise
      array, whose truth value numpy decides). *)
  pd_notna_list : list pyval -> outcome bool
}.

(** What the distance symmetry needs of a platform.  C's [sin] is an odd
    function; CPython's [float_pow] raises the absolute value of a negative
    base to an even power; and [math.cos] signals an error by [ValueError]
    only. *)
Class LibmLaws (P : Platform) : Prop := {
  math_sin_odd : forall x, math_sin (F64.opp x) = F64.opp <$> math_sin x;
  float_pow2_even : forall x, float_pow2 (F64.opp x) = float_pow2 x;
  math_cos_raises : forall x e, math_cos x = Raise e -> e = ValueError
}.

Section Program.

Context `{Platform}.

(** [float(v)] *)
Definition py_float (v : pyval) : outcome pyfloat :=
  match v with
  | PNone => Raise TypeError
  | PBool b => Ret (F64.of_Z (if b then 1 else 0))
  | PInt z =>
      let f := F64.of_Z z in
      if F64.is_inf f then Raise OverflowError else Ret f
  | PFloat f => Ret f
  | PStr s =>
      match float_of_str s with
      | Some f => Ret f
      | None => Raise ValueError
      end
  | PList _ | PDict _ => Raise TypeError
  end.

(** *** SeverityClassifier: [AQIMapVisualizer.get_aqi_level] *)

(** [AQI_LEVELS]: (min, max, label, colour). *)
Definition AQI_LEVELS : list (Z * Z * string * string) :=
  [ (0, 50, "良好", "#2ecc71");
    (51, 100, "普通", "#ffd700");
    (101, 500, "不健康", "#ff4444") ].

(** [aqi_val] is the float [float(aqi)], or the integer [0]. *)
Inductive pynum : Type :=
| NInt (z : Z)
| NFloat (f : pyfloat).

(** [lo <= v] and [v <= hi] for an integer bound. *)
Definition int_le_num (lo : Z) (v : pynum) : bool :=
  match v with
  | NInt z => lo <=? z
  | NFloat f =>
      match F64.Zcompare lo f with
      | Some (Lt | Eq) => true
      | _ => false
      end
  end.

Definition num_le_int (v : pynum) (hi : Z) : bool :=
  match v with
  | NInt z => z <=? hi
  | NFloat f =>
      match F64.Zcompare hi f with
      | Some (Gt | Eq) => true
      | _ => false
      end
  end.

Definition level_unknown : string * string := ("未知", "#95a5a6").
Definition level_hazardous : string * string := ("危害", "#4b0082").

(** The [for] loop over the bands: the first band that holds the value. *)
Fixpoint first_band (levels : list (Z * Z * string * string)) (aqi_val : pynum)
  : option (string * string) :=
  match levels with
  | [] => None
  | (min_val, max_val, level, color) :: rest =>
      if int_le_num min_val aqi_val && num_le_int aqi_val max_val
      then Some (level, color)
      else first_band rest aqi_val
  end.

Definition get_aqi_level (aqi : pyval) : outcome (string * string) :=
  match (if truthy aqi then NFloat <$> py_float aqi else Ret (NInt 0)) with
  | Raise (ValueError | TypeError) => Ret level_unknown
  | Raise e => Raise e
  | Ret aqi_val => Ret (default level_hazardous (first_band AQI_LEVELS aqi_val))
  end.

(** *** DistanceCalculator: [calculate_distance] *)

(** [math.pi / 180], the factor of [math.radians]. *)
Definition deg_to_rad : pyfloat :=
  F64.div (F64.of_decimal 314159265358979323846 (-20)) (F64.of_Z 180).

Definition math_radians (x : pyfloat) : pyfloat := F64.mul x deg_to_rad.

(** [math.sqrt]: a NaN result on a number is a domain error. *)
Definition math_sqrt (x : pyfloat) : outcome pyfloat :=
  let r := F64.sqrt x in
  if F64.is_nan r && negb (F64.is_nan x) then Raise ValueError else Ret r.

Definition calculate_distance (lat1 lon1 lat2 lon2 : pyfloat) : outcome pyfloat :=
  let R := F64.of_Z 6371 in
  let two := F64.of_Z 2 in
  let lat1_rad := math_radians lat1 in
  let lat2_rad := math_radians lat2 in
  let delta_lat := math_radians (F64.sub lat2 lat1) in
  let delta_lon := math_radians (F64.sub lon2 lon1) in
  sin_dlat ← math_sin (F64.div delta_lat two);
  sq_dlat ← float_pow2 sin_dlat;
  cos_lat1 ← math_cos lat1_rad;
  cos_lat2 ← math_cos lat2_rad;
  sin_dlon ← math_sin (F64.div delta_lon two);
  sq_dlon ← float_pow2 sin_dlon;
  let a := F64.add sq_dlat (F64.mul (F64.mul cos_lat1 cos_lat2) sq_dlon) in
  root ← math_sqrt a;
  angle ← math_asin root;
  let c := F64.mul two angle in
  let distance := F64.mul R c in
  Ret (py_round2 distance).

(** ** The world: standard output and the files written *)

(** One constructor per [print] of the program. *)
Inductive message : Type :=
| MsgFetching
| MsgApiError (msg : pyval)
| MsgInvalidFormat
| MsgFetched (n : nat)
| MsgRequestFailed (e : exn)
| MsgUnparsable
| MsgNoValidRecords
| MsgCreatingMap (n : nat)
| MsgSkipInvalid (site : pyval) (e : exn)
| MsgMapSaved (path : string)
| MsgReportSaved (path : string)
| MsgNearest (site : pyval) (distance : pyval)
| MsgReportFailed (e : exn)
| MsgBanner
| MsgTitle
| MsgMissingKey
| MsgMissingKeyHint
| MsgNoData
| MsgDone
| MsgMapLocation (path : string).

(** The detail panel of a marker: the values the f-string interpolates. *)
Record popup : Type := {
  popup_site_name : pyval;
  popup_county : pyval;
  popup_color : string;
  popup_aqi : pyval;
  popup_level : string;
  popup_max_width : Z
}.

(** A [folium.CircleMarker]. *)
Record marker : Type := {
  marker_location : pyfloat * pyfloat;
  marker_radius : Z;
  marker_popup : popup;
  marker_color : string;
  marker_fill : bool;
  marker_fillColor : string;
  marker_fillOpacity : pyfloat;
  marker_weight : Z;
  marker_tooltip : pyval * pyval
}.

(** A [folium.Map] with what was added to it. *)
Record folium_map : Type := {
  map_location : pyfloat * Z;
  map_zoom_start : Z;
  map_tiles : string;
  map_markers : list marker;
  map_legend : bool
}.

(** The tabular report: the header and the rows, in order. *)
Record report : Type := {
  report_columns : list string;
  report_rows : list record
}.

Inductive artifact : Type :=
| MapDoc (m : folium_map)
| CsvDoc (r : report).

Record world : Type := {
  stdout : list message;
  files : gmap string artifact;
  dirs : gset string
}.

Definition print (m : message) (w : world) : world :=
  {| stdout := stdout w ++ [m]; files := files w; dirs := dirs w |}.

(** A document written at a path ([m.save], [to_csv]): what the world
    holds once the write has succeeded.  Whether the path can be opened
    for writing is not decided here: the statements on what the program
    raises say what they assume of the path. *)
Definition write_file (path : string) (a : artifact) (w : world) : world :=
  {| stdout := stdout w; files := <[path := a]> (files w); dirs := dirs w |}.

Definition mkdir (path : string) (w : world) : world :=
  {| stdout := stdout w; files := files w; dirs := {[path]} ∪ dirs w |}.

(** *** Paths: [pathlib.Path] on POSIX *)

Definition is_slash (c : ascii) : bool := Ascii.eqb c "/"%char.

(** The text between the slashes. *)
Fixpoint split_slash (s : string) (cur : string) : list string :=
  match s with
  | EmptyString => [cur]
  | String c rest =>
      if is_slash c then cur :: split_slash rest EmptyString
      else split_slash rest (cur +:+ String c EmptyString)
  end.

(** The parts of a path: empty components and "." are dropped. *)
Definition path_parts (s : string) : list string :=
  List.filter (fun part => negb (String.eqb part EmptyString || String.eqb part "."))
    (split_slash s EmptyString).

(** The root of a path: "/" for a leading slash, "//" for exactly two. *)
Definition path_root (s : string) : string :=
  match s with
  | String c1 rest1 =>
      if is_slash c1 then
        match rest1 with
        | String c2 rest2 =>
            if is_slash c2 then
              match rest2 with
              | String c3 _ => if is_slash c3 then "/" else "//"
              | EmptyString => "//"
              end
            else "/"
        | EmptyString => "/"
        end
      else EmptyString
  | EmptyString => EmptyString
  end.

(** [str] of the path with this root and these parts. *)
Definition path_str (root : string) (parts : list string) : string :=
  match root, parts with
  | EmptyString, [] => "."
  | _, _ => root +:+ String.concat "/" parts
  end.

(** [str(Path(s))] *)
Definition Path (s : string) : string := path_str (path_root s) (path_parts s).

(** [str(output_dir / output_file)], for [output_dir] a path: a file name
    with a root replaces the directory. *)
Definition path_join (dir file : string) : string :=
  if String.eqb (path_root file) EmptyString
  then path_str (path_root dir) (path_parts dir ++ path_parts file)
  else Path file.

(** The directories above a path, the nearest to the root first. *)
Definition path_ancestors (path : string) : list string :=
  (fun n => path_str (path_root path) (take n (path_parts path)))
    <$> seq 1 (length (path_parts path) - 1).

(** [path.is_dir()]: a directory of the world, or a path without parts
    (the working directory, a root). *)
Definition is_dir (w : world) (path : string) : bool :=
  bool_decide (path ∈ dirs w) || bool_decide (path_parts path = []).

(** A regular file of the world. *)
Definition is_file (w : world) (path : string) : bool :=
  bool_decide (is_Some (files w !! path)).

(** The system walks down to the place of a new entry: the first ancestor
    that is not a directory ends the call, a regular file by
    [NotADirectoryError] and a missing one by [FileNotFoundError]. *)
Fixpoint walk (w : world) (ancestors : list string) : outcome unit :=
  match ancestors with
  | [] => Ret tt
  | a :: rest =>
      if is_dir w a then walk w rest
      else if is_file w a then Raise NotADirectoryError
      else Raise FileNotFoundError
  end.

(** [path.mkdir(exist_ok=True)]: a directory that exists is left as it
    is; a regular file at the path is [FileExistsError]. *)
Definition Path_mkdir (path : string) (w : world) : outcome unit * world :=
  match walk w (path_ancestors path) with
  | Raise e => (Raise e, w)
  | Ret _ =>
      if is_dir w path then (Ret tt, w)
      else if is_file w path then (Raise FileExistsError, w)
      else (Ret tt, mkdir path w)
  end.

(** *** StationDataSource: [AQIDataFetcher] *)

Record AQIDataFetcher : Type := { api_key : string }.

Definition BASE_URL : string := "https://data.moenv.gov.tw/api/v2/aqx_p_432".

Record request : Type := {
  req_url : string;
  req_api_key : string;
  req_limit : Z;
  req_sort : string;
  req_order : string;
  req_timeout : Z
}.

(** What [session.get] returns: the status code and what [response.json()]
    yields (on a body that is not JSON it raises [JSONDecodeError], which
    recent versions of requests make a [RequestException] as well). *)
Record response : Type := {
  status_code : Z;
  json : outcome pyval
}.

(** The remote side: [session.get] raises or returns a response. *)
Definition network : Type := request -> outcome response.

(** [response.raise_for_status()] *)
Definition raise_for_status (r : response) : outcome unit :=
  if (400 <=? status_code r) && (status_code r <? 600)
  then Raise RequestException else Ret tt.

(** [session.get(self.BASE_URL, params=params, timeout=10)]: the request. *)
Definition fetch_request (self : AQIDataFetcher) (limit : Z) : request :=
  {| req_url := BASE_URL; req_api_key := api_key self; req_limit := limit;
     req_sort := "ImportDate"; req_order := "desc"; req_timeout := 10 |}.

(** The body of the [try] of [fetch_aqi_data] after the first [print]: the
    value returned and what was printed on the way. *)
Definition fetch_body (self : AQIDataFetcher) (limit : Z) (net : network) (w : world)
  : outcome (option pyval) * world :=
  match (resp ← net (fetch_request self limit); _ ← raise_for_status resp; json resp) with
  | Raise e => (Raise e, w)
  | Ret data =>
      let decoded :=
        match data with
        | PList _ => inl data
        | PDict d =>
            if truthy (dict_get d "success")
            then inl (dict_get_default d "records" (PList []))
            else inr (MsgApiError (dict_get_default d "message" (PStr "未知錯誤")))
        | _ => inr MsgInvalidFormat
        end in
      match decoded with
      | inr msg => (Ret None, print msg w)
      | inl records =>
          match py_len records with
          | Raise e => (Raise e, w)
          | Ret n => (Ret (Some records), print (MsgFetched n) w)
          end
      end
  end.

Definition fetch_aqi_data (self : AQIDataFetcher) (limit : Z) (net : network) (w : world)
  : outcome (option pyval) * world :=
  match fetch_body self limit net (print MsgFetching w) with
  | (Raise RequestException, w') => (Ret None, print (MsgRequestFailed RequestException) w')
  | (Raise JSONDecodeError, w') => (Ret None, print MsgUnparsable w')
  | res => res
  end.

(** *** MapRenderer: [AQIMapVisualizer.create_map] *)

Record AQIMapVisualizer : Type := { output_dir : string }.

(** [AQIMapVisualizer(output_dir)]: the constructor keeps the path and
    makes the directory. *)
Definition AQIMapVisualizer_init (dir : string) (w : world)
  : outcome AQIMapVisualizer * world :=
  let dir := Path dir in
  match Path_mkdir dir w with
  | (Raise e, w) => (Raise e, w)
  | (Ret _, w) => (Ret {| output_dir := dir |}, w)
  end.

(** The condition of the comprehension that builds [valid_records]. *)
Definition is_valid_record (r : record) : bool :=
  truthy (dict_get r "latitude") && truthy (dict_get r "longitude")
  && truthy (dict_get r "sitename").

(** The body of the [try] in the marker loop, up to [add_to(m)]. *)
Definition make_marker (r : record) : outcome marker :=
  lat_v ← dict_getitem r "latitude";
  lat ← py_float lat_v;
  lon_v ← dict_getitem r "longitude";
  lon ← py_float lon_v;
  let site_name := dict_get_default r "sitename" (PStr "未知測站") in
  let county := dict_get_default r "county" (PStr "") in
  let aqi := dict_get_default r "aqi" (PStr "N/A") in
  '(level, color) ← get_aqi_level aqi;
  _ ← folium_validate_location lat lon;
  Ret {| marker_location := (lat, lon);
         marker_radius := 10;
         marker_popup :=
           {| popup_site_name := site_name; popup_county := county;
              popup_color := color; popup_aqi := aqi; popup_level := level;
              popup_max_width := 200 |};
         marker_color := color;
         marker_fill := true;
         marker_fillColor := color;
         marker_fillOpacity := F64.of_decimal 8 (-1);
         marker_weight := 2;
         marker_tooltip := (site_name, aqi) |}.

(** The marker loop: markers accumulate on the map; [ValueError] and
    [TypeError] skip the record, any other exception leaves the loop. *)
Fixpoint add_markers (valid_records : list record) (placed : list marker) (w : world)
  : outcome (list marker) * world :=
  match valid_records with
  | [] => (Ret placed, w)
  | r :: rest =>
      match make_marker r with
      | Ret mk => add_markers rest (placed ++ [mk]) w
      | Raise ((ValueError | TypeError) as e) =>
          add_markers rest placed
            (print (MsgSkipInvalid (dict_get_default r "SiteName" (PStr "Unknown")) e) w)
      | Raise e => (Raise e, w)
      end
  end.

(** [folium.Map(location=[23.5, 121], zoom_start=7, tiles='OpenStreetMap')]
    with the markers and the legend added to it. *)
Definition folium_Map (placed : list marker) : folium_map :=
  {| map_location := (F64.of_decimal 235 (-1), 121);
     map_zoom_start := 7;
     map_tiles := "OpenStreetMap";
     map_markers := placed;
     map_legend := true |}.

Definition create_map (self : AQIMapVisualizer) (records : list record)
    (output_file : string) (w : world) : outcome (option string) * world :=
  let valid_records := List.filter is_valid_record records in
  match valid_records with
  | [] => (Ret None, print MsgNoValidRecords w)
  | _ =>
      let w := print (MsgCreatingMap (length valid_records)) w in
      match add_markers valid_records [] w with
      | (Raise e, w) => (Raise e, w)
      | (Ret placed, w) =>
          let m := folium_Map placed in
          let output_path := path_join (output_dir self) output_file in
          let w := write_file output_path (MapDoc m) w in
          (Ret (Some output_path), print (MsgMapSaved output_path) w)
      end
  end.

(** *** ReportBuilder: [AQIMapVisualizer.create_data_report] *)

Definition distance_column : string := "距台北車站(公里)".

Definition taipei_station_lat : pyfloat := F64.of_decimal 250478 (-4).
Definition taipei_station_lon : pyfloat := F64.of_decimal 1215170 (-4).

(** A [pandas.DataFrame] built from a list of dicts: the column labels
    are the keys that occur, a key a row lacks reads as NaN. *)
Record DataFrame : Type := {
  df_columns : gset string;
  df_rows : list record
}.

Definition pd_DataFrame (records : list record) : DataFrame :=
  {| df_columns := ⋃ (dom <$> records); df_rows := records |}.

(** [row[key]] on a row of the frame. *)
Definition row_getitem (df : DataFrame) (row : record) (key : string) : outcome pyval :=
  if bool_decide (key ∈ df_columns df)
  then Ret (default (PFloat F64.nan) (row !! key))
  else Raise KeyError.

(** The truth value of [pd.notna(v)]. *)
Definition pd_notna (v : pyval) : outcome bool :=
  match v with
  | PNone => Ret false
  | PFloat f => Ret (negb (F64.is_nan f))
  | PList l => pd_notna_list l
  | _ => Ret true
  end.

(** [pd.notna(row['latitude']) and pd.notna(row['longitude'])] *)
Definition both_notna (df : DataFrame) (row : record) : outcome bool :=
  lat_v ← row_getitem df row "latitude";
  lat_ok ← pd_notna lat_v;
  if (lat_ok : bool)
  then lon_v ← row_getitem df row "longitude"; pd_notna lon_v
  else Ret false.

(** The [lambda row: ...] given to [df.apply]. *)
Definition distance_of_row (df : DataFrame) (row : record) : outcome pyval :=
  ok ← both_notna df row;
  if (ok : bool) then
    lat_v ← row_getitem df row "latitude";
    lat ← py_float lat_v;
    lon_v ← row_getitem df row "longitude";
    lon ← py_float lon_v;
    d ← calculate_distance lat lon taipei_station_lat taipei_station_lon;
    Ret (PFloat d)
  else Ret PNone.

(** [df.apply(f, axis=1)]: the rows in order, the first exception ends it. *)
Fixpoint df_apply (f : record -> outcome pyval) (rows : list record)
  : outcome (list pyval) :=
  match rows with
  | [] => Ret []
  | row :: rest =>
      v ← f row;
      vs ← df_apply f rest;
      Ret (v :: vs)
  end.

(** [df[key] = values] *)
Definition df_setitem (df : DataFrame) (key : string) (values : list pyval) : DataFrame :=
  {| df_columns := {[key]} ∪ df_columns df;
     df_rows := zip_with (fun row v => <[key := v]> row) (df_rows df) values |}.

Definition report_column_order : list string :=
  ["sitename"; "county"; "aqi"; "pollutant"; "status"; "latitude"; "longitude";
   distance_column; "publishtime"].

(** [df[available_columns]] *)
Definition df_select (df : DataFrame) (columns : list string) : DataFrame :=
  {| df_columns := list_to_set columns;
     df_rows := (fun row => filter (fun kv => kv.1 ∈ columns) row) <$> df_rows df |}.

(** A cell pandas counts as missing: [None] or NaN. *)
Definition pd_isna_cell (v : pyval) : bool :=
  match v with
  | PNone => true
  | PFloat f => F64.is_nan f
  | _ => false
  end.

(** The sort key of a row: its distance, unless missing. *)
Definition row_distance (row : record) : option pyfloat :=
  match row !! distance_column with
  | Some (PFloat f) => if F64.is_nan f then None else Some f
  | _ => None
  end.

Definition distance_le (a b : record) : bool :=
  match row_distance a, row_distance b with
  | Some x, Some y => F64.leb x y
  | _, _ => false
  end.

Fixpoint insert_sorted (row : record) (sorted : list record) : list record :=
  match sorted with
  | [] => [row]
  | r :: rest =>
      if distance_le row r then row :: sorted else r :: insert_sorted row rest
  end.

Definition argsort (rows : list record) : list record :=
  foldr insert_sorted [] rows.

(** [df.sort_values(distance_column)]: ascending, missing values last
    (pandas sorts the rows that have a value and appends the others). *)
Definition sort_values (df : DataFrame) : DataFrame :=
  let has_value row := bool_decide (is_Some (row_distance row)) in
  {| df_columns := df_columns df;
     df_rows := argsort (List.filter has_value (df_rows df))
                ++ List.filter (fun row => negb (has_value row)) (df_rows df) |}.

(** The frame [df_output] that is written: everything from
    [pd.DataFrame(records)] to [sort_values].  On a frame without rows
    (an empty list) or without columns (records that have no key) [apply]
    does not call the row function: it returns a copy of the frame, which
    pandas 2 refuses to assign to a column ([ValueError]). *)
Definition build_report (records : list record) : outcome report :=
  let df := pd_DataFrame records in
  if bool_decide (df_rows df = [] \/ df_columns df = ∅) then Raise ValueError
  else
    distances ← df_apply (distance_of_row df) (df_rows df);
    let df := df_setitem df distance_column distances in
    let available_columns :=
      List.filter (fun col => bool_decide (col ∈ df_columns df)) report_column_order in
    let df_output := sort_values (df_select df available_columns) in
    Ret {| report_columns := available_columns; report_rows := df_rows df_output |}.

(** [df_output.iloc[0][key]] *)
Definition first_row_item (rep : report) (key : string) : outcome pyval :=
  match report_rows rep with
  | [] => Raise IndexError
  | row :: _ =>
      if bool_decide (key ∈ report_columns rep)
      then Ret (default (PFloat F64.nan) (row !! key))
      else Raise KeyError
  end.

Definition create_data_report (self : AQIMapVisualizer) (records : list record)
    (output_file : string) (w : world) : outcome unit * world :=
  match build_report records with
  | Raise e => (Ret tt, print (MsgReportFailed e) w)
  | Ret df_output =>
      let output_path := path_join (output_dir self) output_file in
      let w := write_file output_path (CsvDoc df_output) w in
      let w := print (MsgReportSaved output_path) w in
      match (site ← first_row_item df_output "sitename";
             dist ← first_row_item df_output distance_column;
             Ret (site, dist)) with
      | Ret (site, dist) => (Ret tt, print (MsgNearest site dist) w)
      | Raise e => (Ret tt, print (MsgReportFailed e) w)
      end
  end.

(** *** Pipeline: [main] *)

(** Iterating [records] and calling [r.get] on each element: what the
    first comprehension of [create_map] needs of its argument. *)
Definition as_records (v : pyval) : outcome (list record) :=
  match v with
  | PList l =>
      mapM (M := outcome)
        (fun x => match x with PDict d => Ret d | _ => Raise AttributeError end) l
  | PDict _ | PStr _ => Raise AttributeError
  | _ => Raise TypeError
  end.

(** [main()]: [env_key] is [os.getenv('MOENV_API_KEY')] after
    [load_dotenv()]. *)
Definition main (env_key : option string) (net : network) (w : world)
  : outcome unit * world :=
  let w := print MsgBanner w in
  let w := print MsgTitle w in
  let w := print MsgBanner w in
  match env_key with
  | None | Some "" =>
      (Ret tt, print MsgMissingKeyHint (print MsgMissingKey w))
  | Some key =>
      let fetcher := {| api_key := key |} in
      match fetch_aqi_data fetcher 1000 net w with
      | (Raise e, w) => (Raise e, w)
      | (Ret fetched, w) =>
          let records := default PNone fetched in
          if negb (truthy records) then (Ret tt, print MsgNoData w)
          else
            match AQIMapVisualizer_init "outputs" w with
            | (Raise e, w) => (Raise e, w)
            | (Ret visualizer, w) =>
                match as_records records with
                | Raise e => (Raise e, w)
                | Ret rs =>
                    match create_map visualizer rs "aqi_map.html" w with
                    | (Raise e, w) => (Raise e, w)
                    | (Ret map_file, w) =>
                        let '(_, w) :=
                          create_data_report visualizer rs "aqi_report.csv" w in
                        let w := print MsgBanner w in
                        let w := print MsgDone w in
                        let w := match map_file with
                                 | Some path => print (MsgMapLocation path) w
                                 | None => w
                                 end in
                        (Ret tt, print MsgBanner w)
                    end
                end
            end
      end
  end.

End Program.

(** ** Start-up: the imports of main.py and [setup_packages] *)

Module Startup.

(** What the start-up code raises: a module that does not import, and a
    [pip install] that exits with a non-zero status. *)
Inductive startup_exn : Type :=
| ImportError (module_name : string)
| CalledProcessError (package_name : string).

Inductive completion : Type :=
| Completed
| Raised (e : startup_exn).

(** One constructor per [print] of [setup_packages]. *)
Inductive startup_message : Type :=
| MsgInstalled (package_name : string)
| MsgInstalling (package_name : string)
| MsgInstallDone (package_name : string).

(** The interpreter's environment: the modules that import, the
    packages [pip install] was run for, and the lines printed. *)
Record env : Type := {
  importable : gset string;
  pip_calls : list string;
  printed : list startup_message
}.

Definition say (m : startup_message) (st : env) : env :=
  {| importable := importable st; pip_calls := pip_calls st;
     printed := printed st ++ [m] |}.

(** [required_packages]: module name, package name (a dict, iterated
    in insertion order). *)
Definition required_packages : list (string * string) :=
  [("requests", "requests"); ("dotenv", "python-dotenv");
   ("folium", "folium"); ("pandas", "pandas")].

Section Pip.

(** [pip install package -q] run from a set of importable modules: the
    modules that import afterwards, or [None] when pip exits with a
    non-zero status. *)
Variable pip_install : string -> gset string -> option (gset string).

(** [subprocess.check_call([sys.executable, '-m', 'pip', 'install',
    package_name, '-q'])] *)
Definition check_call_pip (package_name : string) (st : env) : completion * env :=
  let st := {| importable := importable st;
               pip_calls := pip_calls st ++ [package_name];
               printed := printed st |} in
  match pip_install package_name (importable st) with
  | Some modules =>
      (Completed,
       {| importable := modules; pip_calls := pip_calls st; printed := printed st |})
  | None => (Raised (CalledProcessError package_name), st)
  end.

(** The body of the loop of [setup_packages]: [__import__] succeeds, or
    raises [ImportError] and the package is installed. *)
Definition ensure_package (module_name package_name : string) (st : env)
  : completion * env :=
  if bool_decide (module_name ∈ importable st)
  then (Completed, say (MsgInstalled package_name) st)
  else
    match check_call_pip package_name (say (MsgInstalling package_name) st) with
    | (Completed, st) => (Completed, say (MsgInstallDone package_name) st)
    | (Raised e, st) => (Raised e, st)
    end.

Fixpoint setup_loop (packages : list (string * string)) (st : env) : completion * env :=
  match packages with
  | [] => (Completed, st)
  | (module_name, package_name) :: rest =>
      match ensure_package module_name package_name st with
      | (Completed, st) => setup_loop rest st
      | (Raised e, st) => (Raised e, st)
      end
  end.

Definition setup_packages (st : env) : completion * env :=
  setup_loop required_packages st.

(** [import module_name] *)
Definition import_module (module_name : string) (st : env) : completion :=
  if bool_decide (module_name ∈ importable st) then Completed
  else Raised (ImportError module_name).

(** What running main.py does before [main()]: [import requests] and
    [from dotenv import load_dotenv], the call of [setup_packages], then
    [import folium] and [import pandas]. *)
Definition load_main (st : env) : completion * env :=
  match import_module "requests" st with
  | Raised e => (Raised e, st)
  | Completed =>
      match import_module "dotenv" st with
      | Raised e => (Raised e, st)
      | Completed =>
          match setup_packages st with
          | (Raised e, st) => (Raised e, st)
          | (Completed, st) =>
              match import_module "folium" st with
              | Raised e => (Raised e, st)
              | Completed => (import_module "pandas" st, st)
              end
          end
      end
  end.

End Pip.

(** A [pip] that installs what it is asked for: it exits with status 0,
    the package's module imports afterwards, and so does every module
    that imported before. *)
Definition pip_installs (pip_install : string -> gset string -> option (gset string))
  : Prop :=
  forall module_name package_name modules,
    (module_name, package_name) ∈ required_packages ->
    exists modules',
      pip_install package_name modules = Some modules' /\
      module_name ∈ modules' /\ modules ⊆ modules'.

End Startup.

(** ** The project scripts: setup_github.py and github_setup.py *)

(** An entry of the project directory: a file with its text, or a
    directory.  The scripts work in the project directory (setup_github.py
    in [Path.cwd()], github_setup.py in the absolute path it changes to),
    and its entries go by their names. *)
Inductive entry : Type :=
| File (text : string)
| Directory.

(** The newline, and [s * n]. *)
Definition nl : string := String (ascii_of_nat 10) EmptyString.

Fixpoint repeat_str (s : string) (n : nat) : string :=
  match n with
  | O => EmptyString
  | S k => s +:+ repeat_str s k
  end.

(** *** setup_github.py *)

Module SetupGithub.

Record host : Type := {
  entries : gmap string entry;
  stdout : list string
}.

Definition print (s : string) (h : host) : host :=
  {| entries := entries h; stdout := stdout h ++ [s] |}.

(** [path.exists()] and [path.write_text(text)] *)
Definition path_exists (name : string) (h : host) : bool :=
  bool_decide (is_Some (entries h !! name)).

Definition write_text (name text : string) (h : host) : host :=
  {| entries := <[name := File text]> (entries h); stdout := stdout h |}.

Definition gitignore_content : string :=
"# Python
__pycache__/
*.py[cod]
*$py.class
*.so
.Python
env/
venv/
*.egg-info/
dist/
build/

# IDE
.vscode/
.idea/
*.swp
*.swo

# Environment
.env
.env.local

# Outputs
outputs/*.html
outputs/

# Data
data/
*.log
".

Definition readme_content : string :=
"# AQI 分析系統

台灣環境部空氣品質指數（AQI）數據取得與視覺化分析系統。

## 功能特性

- **即時數據取得**：串接環境部 API 獲取全台 AQI 數據
- **地圖視覺化**：使用 Folium 在地圖上標示所有測站位置
- **分色顯示**：AQI 0-50 綠色、51-100 黃色、101+ 紅色
- **距離計算**：計算每個測站到台北車站的距離
- **數據分析**：生成 CSV 報告（含距離資訊、自動排序）

## 快速開始

### 環境設置

```bash
conda create -n aqi_env python=3.12
conda activate aqi_env
pip install -r requirements.txt
```

### 使用

```bash
python main.py
```

輸出文件：
- `outputs/aqi_map.html` - 互動式地圖
- `outputs/aqi_report.csv` - 數據報告（按距台北車站排序）

## 項目結構

```
.
├── main.py              # 主程式
├── requirements.txt     # 依賴列表
├── .env                 # API 密鑰配置
├── README.md
└── outputs/             # 輸出目錄
    ├── aqi_map.html     # 互動式地圖
    └── aqi_report.csv   # 數據報告
```

## 配置

在 `.env` 文件中設置環境部 API Key：
```
MOENV_API_KEY=your_api_key_here
```

## 技術棧

- Python 3.12
- Folium - 地圖可視化
- Pandas - 數據處理
- Requests - HTTP 請求
- Python-dotenv - 環境變數管理

## 作者

Ben
".

Definition req_content : string :=
"requests>=2.31.0
python-dotenv>=1.0.0
folium>=0.14.0
pandas>=2.0.0
".

Definition create_project_files (h : host) : host :=
  let h :=
    if path_exists ".gitignore" h then h
    else print "✓ .gitignore 已創建" (write_text ".gitignore" gitignore_content h) in
  let h :=
    if path_exists "README.md" h then h
    else print "✓ README.md 已創建" (write_text "README.md" readme_content h) in
  if path_exists "requirements.txt" h then h
  else print "✓ requirements.txt 已創建" (write_text "requirements.txt" req_content h).

(** The lines of [print_setup_instructions], one for each [print]. *)
Definition setup_instructions : list string :=
  [
   (nl +:+ repeat_str "=" 75);
   "GitHub 倉庫初始化和推送說明";
   (repeat_str "=" 75);
   (nl +:+ "📝 步驟 1：安裝必要工具");
   (repeat_str "-" 75);
   "□ Git：https://git-scm.com/download/win";
   "□ GitHub CLI（可選但推薦）：https://cli.github.com/";
   (nl +:+ "📁 步驟 2：初始化本地 Git 倉庫");
   (repeat_str "-" 75);
   "在項目目錄（本終端中）運行以下命令：";
   EmptyString;
   "  git init";
   "  git config user.email 'your_email@example.com'";
   "  git config user.name 'Ben'";
   "  git add .";
   "  git commit -m 'Initial commit: AQI analysis system'";
   EmptyString;
   "🚀 步驟 3：推送到 GitHub";
   (repeat_str "-" 75);
   (nl +:+ "方式 A：使用 GitHub CLI（推薦）");
   "  a) 首先登入 GitHub：";
   "     gh auth login";
   EmptyString;
   "  b) 創建並推送倉庫：";
   "     gh repo create aqi-analysis --public --source=. --remote=origin --push";
   EmptyString;
   (nl +:+ "方式 B：網頁 + Git 命令");
   "  a) 訪問：https://github.com/new";
   "  b) 填寫信息：";
   "     • Repository name：aqi-analysis";
   "     • Description：Taiwan AQI Analysis System";
   "     • Public（選擇公開）";
   "  c) 建立倉庫後，運行：";
   "     git branch -M main";
   "     git remote add origin https://github.com/YOUR_USERNAME/aqi-analysis.git";
   "     git push -u origin main";
   EmptyString;
   "  💡 提示：將 YOUR_USERNAME 更換為您的 GitHub 用戶名";
   (nl +:+ repeat_str "=" 75);
   "完成步驟後，您的代碼將備份到：";
   "https://github.com/YOUR_USERNAME/aqi-analysis";
   (repeat_str "=" 75);
   EmptyString
  ].

Definition print_setup_instructions (h : host) : host :=
  foldl (fun h s => print s h) h setup_instructions.

(** The script: the block under [if __name__ == '__main__']. *)
Definition script (h : host) : host :=
  let h := print (repeat_str "=" 75) h in
  let h := print "GitHub 倉庫初始化" h in
  let h := print (repeat_str "=" 75) h in
  print_setup_instructions (create_project_files h).

End SetupGithub.

(** *** github_setup.py *)

Module GithubSetup.

(** What [subprocess.run(..., check=True)] raises: [CalledProcessError]
    on a non-zero exit status, [FileNotFoundError] when there is no
    program of that name. *)
Inductive git_exn : Type :=
| CalledProcessError (argv : list string) (returncode : Z)
| FileNotFoundError.

Inductive result (A : Type) : Type :=
| Returned (a : A)
| Raised (e : git_exn).

Arguments Returned {A} a.
Arguments Raised {A} e.

(** A line of output: a text, or one of the two lines that render an
    exception. *)
Inductive line : Type :=
| Text (s : string)
| AddFailed (e : git_exn)
| CommitFailed (e : git_exn).

(** The project directory, the output, and the commands given to
    [subprocess.run].  The directory is the one [repo_path] names: the
    script passes the absolute path of its own directory, [os.chdir]
    enters it, and [repo_dir / name] is the entry [name] of it. *)
Record host : Type := {
  entries : gmap string entry;
  stdout : list line;
  commands : list (list string)
}.

Definition print (l : line) (h : host) : host :=
  {| entries := entries h; stdout := stdout h ++ [l]; commands := commands h |}.

Definition path_exists (name : string) (h : host) : bool :=
  bool_decide (is_Some (entries h !! name)).

Definition write_text (name text : string) (h : host) : host :=
  {| entries := <[name := File text]> (entries h); stdout := stdout h;
     commands := commands h |}.

(** How a process ends: its exit status and its output, or no program. *)
Inductive process : Type :=
| Exit (returncode : Z) (output : string)
| NotFound.

Definition git_init : list string := ["git"; "init"].
Definition git_config_email : list string :=
  ["git"; "config"; "user.email"; "ben@example.com"].
Definition git_config_name : list string := ["git"; "config"; "user.name"; "Ben"].
Definition git_add : list string := ["git"; "add"; "."].
Definition git_status : list string := ["git"; "status"; "--porcelain"].
Definition git_commit : list string :=
  ["git"; "commit"; "-m"; "Initial commit: AQI analysis system"].

Definition gitignore_content : string :=
"# Python
__pycache__/
*.py[cod]
*$py.class
*.so
.Python
env/
venv/
*.egg-info/
dist/
build/

# IDE
.vscode/
.idea/
*.swp
*.swo

# Environment
.env
.env.local

# Data
outputs/
data/
*.log
".

Definition readme_content : string :=
"# AQI 分析系統

台灣環境部空氣品質指數（AQI）數據取得與視覺化分析系統。

## 功能特性

- **即時數據取得**：串接環境部 API (aqx_p_432) 獲取全台 AQI 數據
- **地圖視覺化**：使用 Folium 在地圖上標示所有測站位置
- **分色顯示**：
  - 🟢 AQI 0-50：綠色（良好）
  - 🟡 AQI 51-100：黃色（普通）
  - 🔴 AQI 101+：紅色（不健康）
- **距離計算**：計算每個測站到台北車站的距離
- **數據分析**：生成 CSV 報告含距離、AQI 值等信息

## 使用方式

### 環境設置

```bash
# 創建 conda 環境
conda create -n aqi_env python=3.12

# 啟動環境
conda activate aqi_env

# 安裝依賴
pip install requests python-dotenv folium pandas
```

### 配置 API

在 `.env` 檔案中設置環境部 API Key：

```
MOENV_API_KEY=your_api_key_here
```

### 運行程式

```bash
python main.py
```

## 輸出文件

- `outputs/aqi_map.html` - 互動式地圖
- `outputs/aqi_report.csv` - 包含距離信息的數據報告

## 項目結構

```
.
├── main.py                  # 主程式
├── github_setup.py          # GitHub 初始化腳本
├── .env                     # 環境變數設置
├── .gitignore              # Git 忽略文件
├── README.md               # 項目說明
├── data/                   # 數據目錄
└── outputs/                # 輸出目錄
    ├── aqi_map.html        # 地圖文件
    └── aqi_report.csv      # 報告文件
```

## 技術棧

- Python 3.12
- Folium - 地圖可視化
- Pandas - 數據處理
- Requests - HTTP 請求
- Python-dotenv - 環境變數管理

## API 文檔

- [環境部開放資料平台](https://data.moenv.gov.tw/)
- API 端點：`https://data.moenv.gov.tw/api/v2/aqx_p_432`

## 許可證

MIT

## 作者

Ben
".

Section Git.

(** The git program, run in the project directory: how it ends and the
    directory it leaves. *)
Variable git : list string -> gmap string entry -> process * gmap string entry.

(** [str.strip] *)
Variable str_strip : string -> string.

(** [subprocess.run(argv, check=True, capture_output=True)]: the output. *)
Definition subprocess_run (argv : list string) (h : host) : result string * host :=
  let '(p, d) := git argv (entries h) in
  let h := {| entries := d; stdout := stdout h; commands := commands h ++ [argv] |} in
  match p with
  | Exit 0 output => (Returned output, h)
  | Exit returncode _ => (Raised (CalledProcessError argv returncode), h)
  | NotFound => (Raised FileNotFoundError, h)
  end.

(** The [try] that sets the user: a [CalledProcessError] is passed over. *)
Definition configure_user (h : host) : result unit * host :=
  match subprocess_run git_config_email h with
  | (Raised (CalledProcessError _ _), h) => (Returned tt, h)
  | (Raised e, h) => (Raised e, h)
  | (Returned _, h) =>
      match subprocess_run git_config_name h with
      | (Raised (CalledProcessError _ _), h) => (Returned tt, h)
      | (Raised e, h) => (Raised e, h)
      | (Returned _, h) => (Returned tt, print (Text "✓ Git 用户信息已配置") h)
      end
  end.

(** The [if] on the .git directory. *)
Definition init_repo (h : host) : result unit * host :=
  if path_exists ".git" h then (Returned tt, print (Text "✓ Git 倉庫已存在") h)
  else
    let h := print (Text "⏳ 初始化 Git 倉庫...") h in
    match subprocess_run git_init h with
    | (Raised e, h) => (Raised e, h)
    | (Returned _, h) => configure_user (print (Text "✓ Git 倉庫已初始化") h)
    end.

(** .gitignore and README.md, each written when it does not exist. *)
Definition write_defaults (h : host) : host :=
  let h :=
    if path_exists ".gitignore" h then h
    else print (Text "✓ .gitignore 已創建") (write_text ".gitignore" gitignore_content h) in
  if path_exists "README.md" h then h
  else print (Text "✓ README.md 已創建") (write_text "README.md" readme_content h).

(** [git add .]: whether the function goes on. *)
Definition stage (h : host) : result bool * host :=
  let h := print (Text "⏳ 正在添加文件到 Git...") h in
  match subprocess_run git_add h with
  | (Returned _, h) => (Returned true, print (Text "✓ 文件已添加") h)
  | (Raised (CalledProcessError argv returncode), h) =>
      (Returned false, print (AddFailed (CalledProcessError argv returncode)) h)
  | (Raised e, h) => (Raised e, h)
  end.

(** The [try] around [git status] and [git commit]. *)
Definition commit_changes (h : host) : result unit * host :=
  match subprocess_run git_status h with
  | (Raised (CalledProcessError argv returncode), h) =>
      (Returned tt, print (CommitFailed (CalledProcessError argv returncode)) h)
  | (Raised e, h) => (Raised e, h)
  | (Returned output, h) =>
      if negb (String.eqb (str_strip output) EmptyString) then
        let h := print (Text "⏳ 正在提交更改...") h in
        match subprocess_run git_commit h with
        | (Returned _, h) => (Returned tt, print (Text "✓ 更改已提交") h)
        | (Raised (CalledProcessError argv returncode), h) =>
            (Returned tt, print (CommitFailed (CalledProcessError argv returncode)) h)
        | (Raised e, h) => (Raised e, h)
        end
      else (Returned tt, print (Text "✓ 沒有新的更改") h)
  end.

(** The lines that tell how to push, one for each [print]. *)
Definition push_instructions (repo_name : string) : list string :=
  [
   (nl +:+ repeat_str "=" 60);
   "GitHub 倉庫推送說明";
   (repeat_str "=" 60);
   (nl +:+ "1. 在 GitHub 上創建新倉庫: " +:+ repo_name);
   "   網址: https://github.com/new";
   ("   倉庫名: " +:+ repo_name);
   "   描述: Taiwan AQI Analysis System";
   "   設置為 Public（公開）";
   (nl +:+ "2. 配置遠端倉庫並推送：");
   ("   git remote add origin https://github.com/YOUR_USERNAME/" +:+ repo_name +:+ ".git");
   "   git branch -M main";
   "   git push -u origin main";
   (nl +:+ "3. 使用 GitHub CLI：");
   "   gh repo create aqi-analysis --public --source=. --remote=origin --push";
   (nl +:+ repeat_str "=" 60)
  ].

(** [setup_git_repo(repo_path, repo_name)] for a [repo_path] that is the
    absolute path of a directory that exists, as the script gives it: [h]
    holds that directory, which [os.chdir] enters once the title is
    printed. *)
Definition setup_git_repo (repo_name : string) (h : host) : result bool * host :=
  let h := print (Text (repeat_str "=" 60)) h in
  let h := print (Text "GitHub 倉庫初始化和推送") h in
  let h := print (Text (repeat_str "=" 60)) h in
  match init_repo h with
  | (Raised e, h) => (Raised e, h)
  | (Returned _, h) =>
      match stage (write_defaults h) with
      | (Raised e, h) => (Raised e, h)
      | (Returned false, h) => (Returned false, h)
      | (Returned true, h) =>
          match commit_changes h with
          | (Raised e, h) => (Raised e, h)
          | (Returned _, h) =>
              (Returned true,
               foldl (fun h s => print (Text s) h) h (push_instructions repo_name))
          end
      end
  end.

End Git.

(** The commands the function can give, in the order it gives them. *)
Definition git_commands : list (list string) :=
  [git_init; git_config_email; git_config_name; git_add; git_status; git_commit].

(** git is not installed: some command finds no program. *)
Definition git_missing (git : list string -> gmap string entry -> process * gmap string entry)
  : Prop :=
  exists argv d, (git argv d).1 = NotFound.

End GithubSetup.

(** ** Vocabulary of the statements *)

(** The rational [q] lies in none of the bands [0,50], [51,100], [101,500]. *)
Definition outside_bands (q : Q) : Prop :=
  (q < 0 \/ (50 < q /\ q < 51) \/ (100 < q /\ q < 101) \/ 500 < q)%Q.

(** The tier of the band that holds an integer between 0 and 500. *)
Definition band_of_int (z : Z) : string * string :=
  if z <=? 50 then ("良好", "#2ecc71")
  else if z <=? 100 then ("普通", "#ffd700")
  else ("不健康", "#ff4444").

(** A record with no latitude, no station name, or a longitude [float()]
    does not convert. *)
Definition unrenderable `{Platform} (r : record) : Prop :=
  dict_get r "latitude" = PNone \/ dict_get r "sitename" = PNone \/
  (forall f : pyfloat, py_float (dict_get r "longitude") <> Ret f).

Definition distance_leq (a b : record) : Prop := distance_le a b = true.

(** Rows in non-decreasing order of distance, the rows without a distance
    after all the others. *)
Definition rows_sorted_nulls_last (rows : list record) : Prop :=
  forall (i j : nat) (ri rj : record),
    (i < j)%nat -> rows !! i = Some ri -> rows !! j = Some rj ->
    match row_distance ri, row_distance rj with
    | Some di, Some dj => F64.leb di dj = true
    | None, Some _ => False
    | _, None => True
    end.

(** A row of the report: the record with its distance, cut down to the
    columns of the report. *)
Definition output_row (columns : list string) (row : record) (distance : pyval) : record :=
  filter (fun kv => kv.1 ∈ columns) (<[distance_column := distance]> row).

(** The world after the three lines [main] prints first. *)
Definition banner (w : world) : world :=
  print MsgBanner (print MsgTitle (print MsgBanner w)).

(** The marker the loop of [create_map] adds for a record, and the line
    it prints when it skips the record. *)
Definition marker_of `{Platform} (r : record) : option marker :=
  match make_marker r with
  | Ret mk => Some mk
  | Raise _ => None
  end.

Definition skip_message `{Platform} (r : record) : option message :=
  match make_marker r with
  | Raise ((ValueError | TypeError) as e) =>
      Some (MsgSkipInvalid (dict_get_default r "SiteName" (PStr "Unknown")) e)
  | _ => None
  end.

(** The five tiers [get_aqi_level] returns. *)
Definition all_tiers : list (string * string) :=
  [("良好", "#2ecc71"); ("普通", "#ffd700"); ("不健康", "#ff4444");
   level_hazardous; level_unknown].





(** What a step of the program may do to the world: print, and write
    the files [paths]. *)
Definition extends_within (paths : list string) (w w' : world) : Prop :=
  stdout w `prefix_of` stdout w' /\
  dirs w' = dirs w /\
  forall p, p ∉ paths -> files w' !! p = files w !! p.

(** The files [create_project_files] provides. *)
Definition project_files : gmap string entry :=
  list_to_map [(".gitignore", File SetupGithub.gitignore_content);
               ("README.md", File SetupGithub.readme_content);
               ("requirements.txt", File SetupGithub.req_content)].

(** The lines [create_project_files] prints, each with the name of the
    file it announces. *)
Definition creation_lines : list (string * string) :=
  [(".gitignore", "✓ .gitignore 已創建"); ("README.md", "✓ README.md 已創建");
   ("requirements.txt", "✓ requirements.txt 已創建")].

(** ** A reference platform

    A concrete [Platform] on which the program can be evaluated: the ASCII
    part of Python's float grammar with correct rounding, polynomial
    versions of the libm functions behind the checks CPython's [math]
    makes of their results, CPython's [x ** 2] and [round(x, 2)], and the
    NaN check of folium. *)

Module Ref.

Definition code (c : ascii) : Z := Z.of_nat (nat_of_ascii c).

(** The ASCII characters [str.isspace] accepts. *)
Definition is_space (c : ascii) : bool :=
  (code c =? 32) || ((9 <=? code c) && (code c <=? 13))
  || ((28 <=? code c) && (code c <=? 31)).

Definition is_digit (c : ascii) : bool := (48 <=? code c) && (code c <=? 57).

Definition lower (c : ascii) : ascii :=
  if (65 <=? code c) && (code c <=? 90)
  then ascii_of_nat (nat_of_ascii c + 32) else c.

Fixpoint drop_spaces (l : list ascii) : list ascii :=
  match l with
  | c :: l' => if is_space c then drop_spaces l' else l
  | [] => []
  end.

Definition strip (l : list ascii) : list ascii :=
  rev (drop_spaces (rev (drop_spaces l))).

(** [digitpart ::= digit (["_"] digit)*], continuing the number [acc] of
    [n] digits read so far: the number, the digits read and the rest. *)
Fixpoint digitpart (acc n : Z) (l : list ascii) : Z * Z * list ascii :=
  match l with
  | c :: l' =>
      if is_digit c then digitpart (10 * acc + (code c - 48)) (n + 1) l'
      else if (code c =? 95) && (0 <? n) then
        match l' with
        | c' :: _ => if is_digit c' then digitpart acc n l' else (acc, n, l)
        | [] => (acc, n, l)
        end
      else (acc, n, l)
  | [] => (acc, n, l)
  end.

Definition parse_sign (l : list ascii) : bool * list ascii :=
  match l with
  | c :: l' =>
      if code c =? 43 then (false, l')
      else if code c =? 45 then (true, l')
      else (false, l)
  | [] => (false, l)
  end.

(** [exponent ::= ("e" | "E") [sign] digitpart], or nothing. *)
Definition parse_exponent (l : list ascii) : option Z :=
  match l with
  | [] => Some 0
  | c :: l' =>
      if code (lower c) =? 101 then
        let '(neg, l'') := parse_sign l' in
        let '(v, n, rest) := digitpart 0 0 l'' in
        match rest with
        | [] => if 0 <? n then Some (if neg then - v else v) else None
        | _ => None
        end
      else None
  end.

Definition parse_number (neg : bool) (l : list ascii) : option pyfloat :=
  let '(int_part, n_int, l1) := digitpart 0 0 l in
  let '(m, n_frac, l2) :=
    match l1 with
    | c :: l1' => if code c =? 46 then digitpart int_part 0 l1' else (int_part, 0, l1)
    | [] => (int_part, 0, l1)
    end in
  if 0 <? n_int + n_frac then
    match parse_exponent l2 with
    | Some e =>
        Some (if m =? 0 then S754_zero neg
              else F64.of_decimal (if neg then - m else m) (e - n_frac))
    | None => None
    end
  else None.

Definition float_of_str (s : string) : option pyfloat :=
  let '(neg, body) := parse_sign (strip (list_ascii_of_string s)) in
  let word := string_of_list_ascii (lower <$> body) in
  if String.eqb word "inf" || String.eqb word "infinity" then Some (S754_infinity neg)
  else if String.eqb word "nan" then Some F64.nan
  else parse_number neg body.

(** The check [math] makes of a libm result: a NaN from a number, or an
    infinity from a finite number, is a [ValueError]. *)
Definition math_1 (f : pyfloat -> pyfloat) (x : pyfloat) : outcome pyfloat :=
  let r := f x in
  if F64.is_nan r && negb (F64.is_nan x) then Raise ValueError
  else if F64.is_inf r && F64.is_finite x then Raise ValueError
  else Ret r.

(** [c0 + y * (c1 + y * (c2 + ...))] *)
Definition horner (coeffs : list pyfloat) (y : pyfloat) : pyfloat :=
  foldr (fun c acc => F64.add c (F64.mul y acc)) (S754_zero false) coeffs.

Fixpoint factorial (n : nat) : positive :=
  match n with
  | O => 1%positive
  | S k => (Pos.of_succ_nat k * factorial k)%positive
  end.

(** The Taylor coefficients of [sin x / x] and [cos x] in [x * x]. *)
Definition sin_coeffs : list pyfloat :=
  (fun k => F64.of_ratio (if Nat.even k then 1 else -1) (factorial (2 * k + 1)))
    <$> seq 0 12.

Definition cos_coeffs : list pyfloat :=
  (fun k => F64.of_ratio (if Nat.even k then 1 else -1) (factorial (2 * k)))
    <$> seq 0 12.

(** The Taylor coefficients of [asin y / y] in [y * y]:
    [(2k)! / (4^k (k!)^2 (2k+1))]. *)
Definition asin_coeffs : list pyfloat :=
  (fun k => F64.of_ratio (Zpos (factorial (2 * k)))
              (Nat.iter k (Pos.mul 4) 1 * factorial k * factorial k
               * Pos.of_succ_nat (2 * k))%positive)
    <$> seq 0 30.

Definition libm_sin (x : pyfloat) : pyfloat :=
  if F64.is_inf x then F64.nan else F64.mul x (horner sin_coeffs (F64.mul x x)).

Definition libm_cos (x : pyfloat) : pyfloat :=
  if F64.is_inf x then F64.nan else horner cos_coeffs (F64.mul x x).

Definition half_pi : pyfloat := F64.of_decimal 15707963267948966 (-16).

Definition asin_series (y : pyfloat) : pyfloat :=
  F64.mul y (horner asin_coeffs (F64.mul y y)).

(** [asin] on [0 <= y]: the series up to one half, and
    [pi/2 - 2 asin (sqrt ((1 - y) / 2))] above; a NaN above one. *)
Definition asin_pos (y : pyfloat) : pyfloat :=
  if F64.leb y (F64.of_decimal 5 (-1)) then asin_series y
  else if F64.leb y (F64.of_Z 1) then
    F64.sub half_pi
      (F64.mul (F64.of_Z 2)
         (asin_series (F64.sqrt (F64.div (F64.sub (F64.of_Z 1) y) (F64.of_Z 2)))))
  else F64.nan.

Definition libm_asin (y : pyfloat) : pyfloat :=
  match y with
  | S754_nan | S754_zero _ => y
  | S754_infinity _ => F64.nan
  | S754_finite s _ _ =>
      let r := asin_pos (SFabs y) in if s then F64.opp r else r
  end.

(** CPython's [float_pow] at the exponent 2: the special cases, then the
    platform's [pow] on the absolute value; an infinite result is an
    [OverflowError]. *)
Definition float_pow2 (x : pyfloat) : outcome pyfloat :=
  match x with
  | S754_nan => Ret x
  | S754_infinity _ => Ret (S754_infinity false)
  | S754_zero _ => Ret (S754_zero false)
  | S754_finite _ _ _ =>
      let iv := SFabs x in
      let ix := F64.mul iv iv in
      if F64.is_inf ix then Raise OverflowError else Ret ix
  end.

(** [n / d] rounded to the nearest integer, ties to even. *)
Definition div_half_even (n : Z) (d : Z) : Z :=
  let q := n / d in
  match 2 * (n mod d) ?= d with
  | Lt => q
  | Gt => q + 1
  | Eq => if Z.even q then q else q + 1
  end.

(** [round(x, 2)]: the exact value rounded to two decimals (ties to
    even), then the nearest float. *)
Definition py_round2 (x : pyfloat) : pyfloat :=
  match x with
  | S754_finite s m e =>
      let hundredths :=
        if 0 <=? e then Zpos m * 2 ^ e * 100
        else div_half_even (Zpos m * 100) (2 ^ (- e)) in
      if hundredths =? 0 then S754_zero s
      else F64.of_ratio (cond_Zopp s hundredths) 100
  | _ => x
  end.

Definition folium_validate_location (lat lon : pyfloat) : outcome unit :=
  if F64.is_nan lat || F64.is_nan lon then Raise ValueError else Ret tt.

(** A one-element array has the truth value of its element; numpy
    refuses the others. *)
Definition pd_notna_list (l : list pyval) : outcome bool :=
  match l with
  | [v] => Ret (negb (pd_isna_cell v))
  | _ => Raise ValueError
  end.

End Ref.

Definition reference_platform : Platform := {|
  float_of_str := Ref.float_of_str;
  math_sin := Ref.math_1 Ref.libm_sin;
  math_cos := Ref.math_1 Ref.libm_cos;
  math_asin := Ref.math_1 Ref.libm_asin;
  float_pow2 := Ref.float_pow2;
  py_round2 := Ref.py_round2;
  folium_validate_location := Ref.folium_validate_location;
  pd_notna_list := Ref.pd_notna_list
|}.

(** ** Sample data

    The stations of the specification's end-to-end scenario, and records
    with a defect each. *)

Module Samples.

Definition station_a : record :=
  list_to_map [("sitename", PStr "Station A"); ("county", PStr "Taipei");
               ("aqi", PStr "42"); ("latitude", PStr "25.0330");
               ("longitude", PStr "121.5654")].

Definition station_b : record :=
  list_to_map [("sitename", PStr "Station B"); ("county", PStr "Kaohsiung");
               ("aqi", PStr "120"); ("latitude", PStr "22.6273");
               ("longitude", PStr "120.3014")].

(** A station on the equator: its latitude is the number 0. *)
Definition station_equator : record :=
  list_to_map [("sitename", PStr "Equator"); ("aqi", PStr "10");
               ("latitude", PInt 0); ("longitude", PStr "121.5")].

(** A longitude that is not a number. *)
Definition station_bad_lon : record :=
  list_to_map [("sitename", PStr "Broken"); ("aqi", PStr "10");
               ("latitude", PStr "24.0"); ("longitude", PStr "abc")].

(** No coordinates at all. *)
Definition station_no_coords : record :=
  list_to_map [("sitename", PStr "Nowhere"); ("aqi", PStr "10");
               ("latitude", PNone); ("longitude", PNone)].

Definition visualizer : AQIMapVisualizer := {| output_dir := "outputs" |}.

Definition fetcher : AQIDataFetcher := {| api_key := "secret" |}.

(** The server answers 200 with the given JSON value. *)
Definition answers (data : pyval) : network :=
  fun _ => Ret {| status_code := 200; json := Ret data |}.

(** [{"success": true, "records": null}] *)
Definition null_records_envelope : pyval :=
  PDict (list_to_map [("success", PBool true); ("records", PNone)]).

(** [{"success": false, "message": "x"}] *)
Definition failure_envelope : pyval :=
  PDict (list_to_map [("success", PBool false); ("message", PStr "x")]).

Definition empty_world : world := {| stdout := []; files := ∅; dirs := ∅ |}.

(** A working directory in which outputs is a regular file. *)
Definition blocked_world : world :=
  {| stdout := []; files := {["outputs" := MapDoc (folium_Map [])]}; dirs := ∅ |}.

(** The markers of the map, and the rows of the report, written at a path. *)
Definition markers_written (w : world) (path : string) : list marker :=
  match files w !! path with
  | Some (MapDoc m) => map_markers m
  | _ => []
  end.

Definition rows_written (w : world) (path : string) : list record :=
  match files w !! path with
  | Some (CsvDoc rep) => report_rows rep
  | _ => []
  end.

(** A run of [main] on the reference platform: the server answers with
    Station B and Station A. *)
Definition scenario_run : outcome unit * world :=
  @main reference_platform (Some "secret")
    (answers (PList [PDict station_b; PDict station_a])) empty_world.


(** A longitude that is not a number, after a latitude that is an
    integer too large for a float. *)
Definition station_huge_bad_lon : record :=
  list_to_map [("sitename", PStr "Broken"); ("aqi", PStr "10");
               ("latitude", PInt (10 ^ 400)); ("longitude", PStr "abc")].


(** The keys of an answer that spells them with capitals. *)
Definition station_capitals : record :=
  list_to_map [("SiteName", PStr "Station A"); ("AQI", PStr "42");
               ("Latitude", PStr "25.0330"); ("Longitude", PStr "121.5654")].

(** A station without an index. *)
Definition station_no_aqi : record :=
  list_to_map [("sitename", PStr "Silent"); ("latitude", PStr "24.0");
               ("longitude", PStr "121.0")].

(** A pip that installs every required module at once. *)
Definition pip_all (package_name : string) (modules : gset string)
  : option (gset string) :=
  Some (modules ∪ list_to_set Startup.required_packages.*1).

(** An interpreter with requests and python-dotenv installed. *)
Definition fresh_env : Startup.env :=
  {| Startup.importable := {["requests"; "dotenv"]};
     Startup.pip_calls := []; Startup.printed := [] |}.

(** A git that stages, reports a change, and fails at everything else. *)
Definition git_failing_commit (argv : list string) (d : gmap string entry)
  : GithubSetup.process * gmap string entry :=
  if bool_decide (argv = GithubSetup.git_add) then (GithubSetup.Exit 0 EmptyString, d)
  else if bool_decide (argv = GithubSetup.git_status)
       then (GithubSetup.Exit 0 " M main.py", d)
       else (GithubSetup.Exit 1 EmptyString, d).

(** [str.strip] on ASCII text. *)
Definition ascii_strip (s : string) : string :=
  string_of_list_ascii (Ref.strip (list_ascii_of_string s)).

(** A project directory that is a repository already. *)
Definition repository : GithubSetup.host :=
  {| GithubSetup.entries := {[".git" := Directory]};
     GithubSetup.stdout := []; GithubSetup.commands := [] |}.

End Samples.

(** * Proofs *)

(** ** Facts about binary64 *)

Module F64Facts.

Lemma Qpower_2_nonneg (e : Z) : 0 <= e -> (2 ^ e == inject_Z (2 ^ e))%Q.
Proof. intros He. symmetry. apply (Zpower_Qpower 2 e He). Qed.

Lemma Qpower_2_neg (e : Z) : e < 0 -> (2 ^ e == / inject_Z (2 ^ (- e)))%Q.
Proof.
  intros He.
  replace e with (- (- e)) at 1 by lia.
  rewrite Qpower_opp. apply Qinv_comp. apply Qpower_2_nonneg. lia.
Qed.

Lemma Qcompare_inject_Z (a b : Z) : (inject_Z a ?= inject_Z b)%Q = (a ?= b).
Proof. unfold Qcompare. simpl. now rewrite !Z.mul_1_r. Qed.

(** [F64.Zcompare] compares the integer with the exact value of the float. *)
Lemma Zcompare_spec (x : Z) (f : F64.t) (q : Q) :
  F64.to_Q f = Some q -> F64.Zcompare x f = Some (inject_Z x ?= q)%Q.
Proof.
  destruct f as [s|s| |s m e]; simpl; try discriminate.
  - intros [= <-]. f_equal. symmetry. apply (Qcompare_inject_Z x 0).
  - intros [= <-]. f_equal.
    set (v := cond_Zopp s (Z.pos m)).
    destruct (Z.leb_spec 0 e) as [He|He].
    + rewrite (Qpower_2_nonneg e He), <- inject_Z_mult.
      now rewrite Qcompare_inject_Z.
    + rewrite (Qpower_2_neg e He).
      assert (Hp : 0 < 2 ^ (- e)) by (apply Z.pow_pos_nonneg; lia).
      unfold Qcompare, Qmult, Qinv, inject_Z. simpl.
      destruct (2 ^ (- e)) as [|p|p] eqn:E; try lia. simpl.
      rewrite !Z.mul_1_r. reflexivity.
Qed.

Lemma opp_involutive (x : F64.t) : F64.opp (F64.opp x) = x.
Proof. destruct x; simpl; now rewrite ?negb_involutive. Qed.

Lemma is_nan_opp (x : F64.t) : F64.is_nan (F64.opp x) = F64.is_nan x.
Proof. now destruct x. Qed.

Lemma is_inf_opp (x : F64.t) : F64.is_inf (F64.opp x) = F64.is_inf x.
Proof. now destruct x. Qed.

Lemma is_finite_opp (x : F64.t) : F64.is_finite (F64.opp x) = F64.is_finite x.
Proof. now destruct x. Qed.

(** Rounding to nearest is symmetric: the sign passes through. *)
Lemma binary_round_aux_opp (s : bool) (m e : Z) (l : location) :
  binary_round_aux F64.prec F64.emax (negb s) m e l
  = F64.opp (binary_round_aux F64.prec F64.emax s m e l).
Proof.
  unfold binary_round_aux.
  destruct (shr_fexp F64.prec F64.emax m e l) as [mrs' e'].
  destruct (shr_fexp F64.prec F64.emax _ e' loc_Exact) as [mrs'' e''].
  destruct (shr_m mrs'') as [|p|p]; simpl; try reflexivity.
  now destruct (e'' <=? F64.emax - F64.prec).
Qed.

Lemma negb_xorb (a b : bool) : xorb (negb a) b = negb (xorb a b).
Proof. now destruct a, b. Qed.

Lemma mul_opp_l (x y : F64.t) : F64.mul (F64.opp x) y = F64.opp (F64.mul x y).
Proof.
  unfold F64.mul, F64.opp.
  destruct x as [sx|sx| |sx mx ex], y as [sy|sy| |sy my ey]; simpl;
    rewrite ?negb_xorb; try reflexivity.
  apply binary_round_aux_opp.
Qed.

Lemma mul_comm (x y : F64.t) : F64.mul x y = F64.mul y x.
Proof.
  unfold F64.mul.
  destruct x as [sx|sx| |sx mx ex], y as [sy|sy| |sy my ey]; simpl;
    rewrite ?(xorb_comm sx sy); try reflexivity.
  now rewrite Pos.mul_comm, Z.add_comm.
Qed.

Lemma mul_opp_opp (x : F64.t) : F64.mul (F64.opp x) (F64.opp x) = F64.mul x x.
Proof. now rewrite mul_opp_l, (mul_comm x), mul_opp_l, opp_involutive. Qed.

Lemma div_opp_l (x y : F64.t) : F64.div (F64.opp x) y = F64.opp (F64.div x y).
Proof.
  unfold F64.div, F64.opp.
  destruct x as [sx|sx| |sx mx ex], y as [sy|sy| |sy my ey]; simpl;
    rewrite ?negb_xorb; try reflexivity.
  destruct (SFdiv_core_binary F64.prec F64.emax (Z.pos mx) ex (Z.pos my) ey)
    as [[mz ez] lz].
  apply binary_round_aux_opp.
Qed.

Lemma binary_normalize_opp (z e : Z) :
  z <> 0 ->
  binary_normalize F64.prec F64.emax (- z) e false
  = F64.opp (binary_normalize F64.prec F64.emax z e false).
Proof.
  intros Hz. destruct z as [|p|p]; [easy| |]; simpl; unfold binary_round;
    destruct (shl_align p e _) as [mz ez].
  - apply (binary_round_aux_opp false).
  - apply (binary_round_aux_opp true).
Qed.

(** Swapping the operands of a subtraction negates the difference, or
    leaves it as it is (the zero of two equal terms, a NaN). *)
Lemma sub_swap (x y : F64.t) :
  F64.sub y x = F64.opp (F64.sub x y) \/ F64.sub y x = F64.sub x y.
Proof.
  unfold F64.sub.
  destruct x as [sx|sx| |sx mx ex], y as [sy|sy| |sy my ey]; simpl;
    try (destruct sx, sy; simpl; auto; fail);
    try (left; simpl; now rewrite ?negb_involutive);
    try (right; reflexivity).
  rewrite (Z.min_comm ey ex).
  set (a := cond_Zopp sx (Z.pos (shl_align mx ex (Z.min ex ey)).1)).
  set (b := cond_Zopp sy (Z.pos (shl_align my ey (Z.min ex ey)).1)).
  destruct (Z.eq_dec (a - b) 0) as [E|E].
  - right. replace (b - a) with 0 by lia. now rewrite E.
  - left. replace (b - a) with (- (a - b)) by lia.
    now apply binary_normalize_opp.
Qed.

Lemma compare_cont_eq (p q : positive) :
  PosDef.Pos.compare_cont Eq p q = (p ?= q)%positive.
Proof. reflexivity. Qed.

Ltac order_cases :=
  repeat (rewrite ?compare_cont_eq in *; simpl in *;
          match goal with
          | |- context [Z.compare ?a ?b] => destruct (Z.compare_spec a b); subst
          | |- context [Pos.compare ?a ?b] => destruct (Pos.compare_spec a b); subst
          | H : context [Z.compare ?a ?b] |- _ => destruct (Z.compare_spec a b); subst
          | H : context [Pos.compare ?a ?b] |- _ => destruct (Pos.compare_spec a b); subst
          end);
  simpl in *; try discriminate; try reflexivity; try lia.

(** [<=] on floats is transitive. *)
Lemma leb_trans (x y z : F64.t) :
  F64.leb x y = true -> F64.leb y z = true -> F64.leb x z = true.
Proof.
  unfold F64.leb, SFleb, SFcompare.
  destruct x as [sx|sx| |sx mx ex], y as [sy|sy| |sy my ey], z as [sz|sz| |sz mz ez];
    try destruct sx; try destruct sy; try destruct sz;
    try discriminate; try reflexivity;
    intros Hxy Hyz; order_cases.
Qed.

(** Two floats that are not NaN are comparable. *)
Lemma leb_total (x y : F64.t) :
  F64.is_nan x = false -> F64.is_nan y = false ->
  F64.leb x y = true \/ F64.leb y x = true.
Proof.
  unfold F64.leb, SFleb, SFcompare.
  destruct x as [sx|sx| |sx mx ex], y as [sy|sy| |sy my ey];
    try destruct sx; try destruct sy; try discriminate; intros _ _;
    auto; order_cases; auto.
Qed.

End F64Facts.

(** ** The float of an integer *)

Module OfZFacts.

Lemma digits2_pos_bounds (p : positive) :
  2 ^ (Zpos (digits2_pos p) - 1) <= Zpos p < 2 ^ Zpos (digits2_pos p).
Proof.
  induction p as [p IH|p IH|]; cbn [digits2_pos].
  - rewrite Pos2Z.inj_succ.
    replace (Z.succ (Zpos (digits2_pos p)) - 1) with (Z.succ (Zpos (digits2_pos p) - 1))
      by lia.
    rewrite !Z.pow_succ_r by lia. lia.
  - rewrite Pos2Z.inj_succ.
    replace (Z.succ (Zpos (digits2_pos p)) - 1) with (Z.succ (Zpos (digits2_pos p) - 1))
      by lia.
    rewrite !Z.pow_succ_r by lia. lia.
  - cbn. lia.
Qed.

Lemma digits2_pos_unique (p : positive) (k : Z) :
  2 ^ (k - 1) <= Zpos p < 2 ^ k -> Zpos (digits2_pos p) = k.
Proof.
  intros [Hlo Hhi]. pose proof (digits2_pos_bounds p) as [Hlo' Hhi'].
  set (d := Zpos (digits2_pos p)) in *.
  assert (Hd : 1 <= d) by (subst d; lia).
  destruct (Z.lt_trichotomy d k) as [Hlt|[Heq|Hgt]]; [|exact Heq|].
  - exfalso. assert (2 ^ d <= 2 ^ (k - 1)) by (apply Z.pow_le_mono_r; lia). lia.
  - exfalso. destruct (Z.le_gt_cases 0 k) as [Hk|Hk].
    + assert (2 ^ k <= 2 ^ (d - 1)) by (apply Z.pow_le_mono_r; lia). lia.
    + rewrite (Z.pow_neg_r 2 k) in Hhi by lia. lia.
Qed.

Lemma digits2_pos_iter_xO (p k : positive) :
  digits2_pos (Pos.iter xO p k) = (digits2_pos p + k)%positive.
Proof.
  induction k as [|k IH] using Pos.peano_ind.
  - cbn. lia.
  - rewrite Pos.iter_succ. cbn [digits2_pos]. rewrite IH. lia.
Qed.

(** One step of [shr] takes a digit off a mantissa of two digits or more. *)
Lemma shr_1_digits (mrs : shr_record) (q : positive) :
  shr_m mrs = Zpos q -> 1 < Zpos (digits2_pos q) ->
  exists q', shr_m (shr_1 mrs) = Zpos q' /\
             Zpos (digits2_pos q') = Zpos (digits2_pos q) - 1.
Proof.
  destruct mrs as [m r s]. cbn [shr_m]. intros -> Hd.
  destruct q as [q|q|]; cbn [shr_1 shr_m digits2_pos] in *.
  - exists q. split; [reflexivity|]. lia.
  - exists q. split; [reflexivity|]. lia.
  - lia.
Qed.

Lemma iter_shr_1_digits (n : positive) :
  forall (mrs : shr_record) (q : positive),
    shr_m mrs = Zpos q -> Zpos n < Zpos (digits2_pos q) ->
    exists q', shr_m (SpecFloat.iter_pos shr_1 n mrs) = Zpos q' /\
               Zpos (digits2_pos q') = Zpos (digits2_pos q) - Zpos n.
Proof.
  induction n as [n IH|n IH|]; intros mrs q Hm Hd; cbn [SpecFloat.iter_pos].
  - destruct (shr_1_digits mrs q Hm ltac:(lia)) as (q1 & Hm1 & Hd1).
    destruct (IH _ q1 Hm1 ltac:(lia)) as (q2 & Hm2 & Hd2).
    destruct (IH _ q2 Hm2 ltac:(lia)) as (q3 & Hm3 & Hd3).
    exists q3. split; [exact Hm3|]. lia.
  - destruct (IH _ q Hm ltac:(lia)) as (q2 & Hm2 & Hd2).
    destruct (IH _ q2 Hm2 ltac:(lia)) as (q3 & Hm3 & Hd3).
    exists q3. split; [exact Hm3|]. lia.
  - destruct (shr_1_digits mrs q Hm ltac:(lia)) as (q1 & Hm1 & Hd1).
    exists q1. split; [exact Hm1|]. lia.
Qed.

Lemma fexp_normal (d : Z) :
  -1021 <= d -> fexp F64.prec F64.emax d = d - 53.
Proof. intros Hd. unfold fexp, emin, F64.prec, F64.emax. lia. Qed.

(** Rounding a mantissa of 53 digits gives 53 or 54 digits. *)
Lemma round_nearest_even_digits (q : positive) (l : location) :
  Zpos (digits2_pos q) = 53 ->
  exists q', round_nearest_even (Zpos q) l = Zpos q' /\
             (Zpos (digits2_pos q') = 53 \/ Zpos (digits2_pos q') = 54).
Proof.
  intros Hd. pose proof (digits2_pos_bounds q) as Hb. rewrite Hd in Hb.
  assert (Hsucc : Zpos (digits2_pos (q + 1)) = 53 \/ Zpos (digits2_pos (q + 1)) = 54).
  { destruct (Z.lt_ge_cases (Zpos (q + 1)) (2 ^ 53)) as [Hlt|Hge].
    - left. apply digits2_pos_unique. lia.
    - right. apply digits2_pos_unique.
      change (2 ^ (54 - 1)) with (2 ^ 53). change (2 ^ 54) with (2 * 2 ^ 53). lia. }
  destruct l as [|[| |]]; cbn [round_nearest_even].
  - exists q. auto.
  - destruct (Z.even (Zpos q)); [exists q; auto|]. exists (q + 1)%positive. auto.
  - exists q. auto.
  - exists (q + 1)%positive. auto.
Qed.

(** [binary_round_aux] on an exact mantissa of 53 digits or more, in the
    normal range: an infinity, or a number with a mantissa of 53 digits
    whose exponent is not below the one the digits call for. *)
Lemma binary_round_aux_normal (s : bool) (mz : positive) (ez : Z) :
  53 <= Zpos (digits2_pos mz) ->
  -1074 <= Zpos (digits2_pos mz) + ez - 53 ->
  (binary_round_aux F64.prec F64.emax s (Zpos mz) ez loc_Exact = S754_infinity s /\
   971 <= Zpos (digits2_pos mz) + ez - 53) \/
  exists m e,
    binary_round_aux F64.prec F64.emax s (Zpos mz) ez loc_Exact = S754_finite s m e /\
    Zpos (digits2_pos m) = 53 /\ Zpos (digits2_pos mz) + ez - 53 <= e.
Proof.
  intros Hd He. set (dz := Zpos (digits2_pos mz)) in *.
  unfold binary_round_aux, shr_fexp. cbn [Zdigits2 shr_record_of_loc].
  fold dz. rewrite (fexp_normal (dz + ez)) by lia.
  (* the first shift *)
  assert (Hfirst : exists mrs' q,
            shr {| shr_m := Zpos mz; shr_r := false; shr_s := false |} ez (dz + ez - 53 - ez)
            = (mrs', dz + ez - 53) /\
            shr_m mrs' = Zpos q /\ Zpos (digits2_pos q) = 53).
  { destruct (dz + ez - 53 - ez) as [|n|n] eqn:Hn; cbn [shr].
    - eexists _, mz. split; [f_equal; lia|]. split; [reflexivity|]. fold dz. lia.
    - destruct (iter_shr_1_digits n {| shr_m := Zpos mz; shr_r := false; shr_s := false |}
                  mz eq_refl) as (q & Hq & Hdq); [fold dz; lia|].
      eexists _, q. split; [f_equal; lia|]. split; [exact Hq|]. fold dz in Hdq. lia.
    - lia. }
  destruct Hfirst as (mrs' & q & -> & Hq & Hdq). rewrite Hq.
  destruct (round_nearest_even_digits q (loc_of_shr_record mrs') Hdq)
    as (q' & -> & Hdq').
  cbn [Zdigits2]. set (e' := dz + ez - 53) in *.
  destruct Hdq' as [Hdq'|Hdq']; rewrite Hdq'.
  - rewrite (fexp_normal (53 + e')) by lia.
    replace (53 + e' - 53 - e') with 0 by lia. cbn [shr shr_m].
    destruct (Z.leb_spec e' (F64.emax - F64.prec)) as [Hle|Hgt];
      [right|left; split; [reflexivity|unfold F64.emax, F64.prec in Hgt; lia]].
    exists q', e'. split; [reflexivity|]. split; [exact Hdq'|lia].
  - rewrite (fexp_normal (54 + e')) by lia.
    replace (54 + e' - 53 - e') with 1 by lia. cbn [shr SpecFloat.iter_pos].
    destruct (shr_1_digits {| shr_m := Zpos q'; shr_r := false; shr_s := false |} q'
                eq_refl ltac:(lia)) as (q'' & -> & Hdq'').
    destruct (Z.leb_spec (e' + 1) (F64.emax - F64.prec)) as [Hle|Hgt];
      [right|left; split; [reflexivity|unfold F64.emax, F64.prec in Hgt; lia]].
    exists q'', (e' + 1). split; [reflexivity|]. split; [lia|lia].
Qed.

(** The float of a positive integer: an infinity, or a positive number
    with a full mantissa. *)
Lemma of_Z_pos (p : positive) :
  (F64.of_Z (Zpos p) = S754_infinity false /\ 2 ^ 1023 <= Zpos p) \/
  exists m e,
    F64.of_Z (Zpos p) = S754_finite false m e /\
    2 ^ 52 <= Zpos m /\ Zpos (digits2_pos p) - 53 <= e.
Proof.
  unfold F64.of_Z. cbn [binary_normalize]. unfold binary_round.
  set (d := Zpos (digits2_pos p)).
  rewrite Z.add_0_r. rewrite (fexp_normal d) by (subst d; lia).
  assert (Hnormal : forall mz ez,
            53 <= Zpos (digits2_pos mz) ->
            Zpos (digits2_pos mz) + ez - 53 = d - 53 ->
            (binary_round_aux F64.prec F64.emax false (Zpos mz) ez loc_Exact
             = S754_infinity false /\ 2 ^ 1023 <= Zpos p) \/
            exists m e,
              binary_round_aux F64.prec F64.emax false (Zpos mz) ez loc_Exact
              = S754_finite false m e /\
              2 ^ 52 <= Zpos m /\ d - 53 <= e).
  { intros mz ez Hd He.
    destruct (binary_round_aux_normal false mz ez Hd ltac:(subst d; lia))
      as [[Hinf Hbig]|(m & e & Hfin & Hdm & Hle)]; [left|right].
    { split; [exact Hinf|]. pose proof (digits2_pos_bounds p) as [Hlo _]. fold d in Hlo.
      assert (2 ^ 1023 <= 2 ^ (d - 1)) by (apply Z.pow_le_mono_r; lia). lia. }
    exists m, e. split; [exact Hfin|]. split; [|lia].
    pose proof (digits2_pos_bounds m) as Hb. rewrite Hdm in Hb.
    change (53 - 1) with 52 in Hb. lia. }
  unfold shl_align. destruct (d - 53 - 0) as [|n|n] eqn:Hn.
  - apply Hnormal; fold d; lia.
  - apply Hnormal; fold d; lia.
  - apply Hnormal; rewrite digits2_pos_iter_xO, Pos2Z.inj_add; fold d; lia.
Qed.

(** The float of a negative integer is the opposite of the float of its
    absolute value. *)
Lemma of_Z_neg (p : positive) :
  F64.of_Z (Zneg p) = F64.opp (F64.of_Z (Zpos p)).
Proof.
  unfold F64.of_Z. change (Zneg p) with (- Zpos p).
  now apply F64Facts.binary_normalize_opp.
Qed.

(** An integer whose float is an infinity has 1024 bits or more. *)
Lemma of_Z_inf (z : Z) :
  F64.is_inf (F64.of_Z z) = true -> 2 ^ 1023 <= Z.abs z.
Proof.
  destruct z as [|p|p].
  - discriminate.
  - destruct (of_Z_pos p) as [[_ Hbig]|(m & e & -> & _)]; [now intros _|discriminate].
  - rewrite of_Z_neg.
    destruct (of_Z_pos p) as [[_ Hbig]|(m & e & -> & _)]; [now intros _|discriminate].
Qed.

(** Against the float of an integer of ten bits or more, every bound of
    the band table is smaller. *)
Lemma Zcompare_of_Z_large (p : positive) (x : Z) :
  512 <= Zpos p -> x <= 500 ->
  F64.is_inf (F64.of_Z (Zpos p)) = false ->
  F64.Zcompare x (F64.of_Z (Zpos p)) = Some Lt.
Proof.
  intros Hp Hx.
  destruct (of_Z_pos p) as [[-> _]|(m & e & -> & Hm & He)]; [discriminate|intros _].
  assert (Hd : 10 <= Zpos (digits2_pos p)).
  { pose proof (digits2_pos_bounds p) as [_ Hhi].
    destruct (Z.lt_ge_cases (Zpos (digits2_pos p)) 10) as [Hlt|Hge]; [|exact Hge].
    assert (2 ^ Zpos (digits2_pos p) <= 2 ^ 9) by (apply Z.pow_le_mono_r; lia).
    change (2 ^ 9) with 512 in *. lia. }
  cbn [F64.Zcompare cond_Zopp]. f_equal.
  change (2 ^ 52) with 4503599627370496 in Hm.
  destruct (Z.leb_spec 0 e) as [He0|He0]; apply Z.compare_lt_iff.
  - assert (1 <= 2 ^ e) by (apply (Z.pow_le_mono_r 2 0 e); lia). nia.
  - assert (Hpow : 2 ^ (- e) <= 2 ^ 43) by (apply Z.pow_le_mono_r; lia).
    assert (0 < 2 ^ (- e)) by (apply Z.pow_pos_nonneg; lia).
    change (2 ^ 43) with 8796093022208 in Hpow. nia.
Qed.

(** Against the float of a negative integer, every bound that is not
    negative is greater. *)
Lemma Zcompare_of_Z_neg (p : positive) (x : Z) :
  0 <= x ->
  F64.is_inf (F64.of_Z (Zneg p)) = false ->
  F64.Zcompare x (F64.of_Z (Zneg p)) = Some Gt.
Proof.
  intros Hx. rewrite of_Z_neg.
  destruct (of_Z_pos p) as [[-> _]|(m & e & -> & Hm & He)]; [discriminate|intros _].
  cbn [F64.opp SFopp negb F64.Zcompare cond_Zopp]. f_equal.
  destruct (Z.leb_spec 0 e) as [He0|He0]; apply Z.compare_gt_iff.
  - assert (0 < 2 ^ e) by (apply Z.pow_pos_nonneg; lia). nia.
  - assert (0 < 2 ^ (- e)) by (apply Z.pow_pos_nonneg; lia). nia.
Qed.

End OfZFacts.

(** ** The reference platform obeys the libm laws *)

Module RefFacts.

Lemma libm_sin_odd (x : pyfloat) : Ref.libm_sin (F64.opp x) = F64.opp (Ref.libm_sin x).
Proof.
  unfold Ref.libm_sin. rewrite F64Facts.is_inf_opp.
  destruct (F64.is_inf x); [reflexivity|].
  now rewrite F64Facts.mul_opp_opp, F64Facts.mul_opp_l.
Qed.

Lemma math_1_raises (f : pyfloat -> pyfloat) (x : pyfloat) (e : exn) :
  Ref.math_1 f x = Raise e -> e = ValueError.
Proof.
  unfold Ref.math_1.
  repeat match goal with |- context [if ?b then _ else _] => destruct b end;
    congruence.
Qed.

Lemma reference_libm_laws : LibmLaws reference_platform.
Proof.
  split.
  - intros x. cbn [math_sin reference_platform]. unfold Ref.math_1.
    rewrite libm_sin_odd, !F64Facts.is_nan_opp, F64Facts.is_inf_opp,
      F64Facts.is_finite_opp.
    repeat match goal with |- context [if ?b then _ else _] => destruct b end;
      reflexivity.
  - intros x. now destruct x.
  - intros x e. apply math_1_raises.
Qed.

(** The reference platform reproduces the distances CPython computes for
    the two stations of the end-to-end scenario: 5.15 km and 296.18 km. *)
Example scenario_distances :
  @calculate_distance reference_platform
    (F64.of_decimal 250330 (-4)) (F64.of_decimal 1215654 (-4))
    taipei_station_lat taipei_station_lon = Ret (F64.of_decimal 515 (-2)) /\
  @calculate_distance reference_platform
    (F64.of_decimal 226273 (-4)) (F64.of_decimal 1203014 (-4))
    taipei_station_lat taipei_station_lon = Ret (F64.of_decimal 29618 (-2)).
Proof. split; vm_compute; reflexivity. Qed.

End RefFacts.

(** ** SeverityClassifier *)

Section Classifier.

Context `{Platform}.

Lemma get_aqi_level_small_nat (n : nat) :
  (n <= 500)%nat ->
  get_aqi_level (PInt (Z.of_nat n)) = Ret (band_of_int (Z.of_nat n)).
Proof.
  intros Hn.
  assert (Hall : forallb (fun k => bool_decide
                   (get_aqi_level (PInt (Z.of_nat k)) = Ret (band_of_int (Z.of_nat k))))
                   (seq 0 501) = true) by (vm_compute; reflexivity).
  rewrite forallb_forall in Hall.
  specialize (Hall n). rewrite bool_decide_eq_true in Hall.
  apply Hall, in_seq. lia.
Qed.

(** The band search on a float, by the exact value of the float. *)
Lemma first_band_float (f : pyfloat) (q : Q) :
  F64.to_Q f = Some q ->
  ((0 <= q /\ q <= 50)%Q ->
     first_band AQI_LEVELS (NFloat f) = Some ("良好", "#2ecc71")) /\
  ((51 <= q /\ q <= 100)%Q ->
     first_band AQI_LEVELS (NFloat f) = Some ("普通", "#ffd700")) /\
  ((101 <= q /\ q <= 500)%Q ->
     first_band AQI_LEVELS (NFloat f) = Some ("不健康", "#ff4444")) /\
  (first_band AQI_LEVELS (NFloat f) = None <-> outside_bands q).
Proof.
  intros Hq. unfold outside_bands, AQI_LEVELS, first_band, int_le_num, num_le_int.
  rewrite !(F64Facts.Zcompare_spec _ f q Hq).
  repeat match goal with
         | |- context [Qcompare (inject_Z ?a) q] =>
             destruct (Qcompare_spec (inject_Z a) q); simpl
         end;
    unfold inject_Z in *; repeat split; intros Hx;
    first [ reflexivity | discriminate | lra | exfalso; lra ].
Qed.

Lemma first_band_not_unknown (v : pynum) :
  default level_hazardous (first_band AQI_LEVELS v) <> level_unknown.
Proof.
  unfold AQI_LEVELS, first_band.
  repeat match goal with
         | |- context [if ?b then _ else _] => destruct b
         end; simpl; discriminate.
Qed.

Lemma first_band_not_hazardous (v : pynum) (tier : string * string) :
  first_band AQI_LEVELS v = Some tier -> tier <> level_hazardous.
Proof.
  unfold AQI_LEVELS, first_band.
  repeat match goal with
         | |- context [if ?b then _ else _] => destruct b
         end; intros [= <-]; discriminate.
Qed.

Lemma get_aqi_level_finite (s : bool) (m : positive) (e : Z) :
  get_aqi_level (PFloat (S754_finite s m e))
  = Ret (default level_hazardous (first_band AQI_LEVELS (NFloat (S754_finite s m e)))).
Proof. reflexivity. Qed.

Lemma get_aqi_level_int (z : Z) :
  z <> 0 ->
  get_aqi_level (PInt z)
  = if F64.is_inf (F64.of_Z z) then Raise OverflowError
    else Ret (default level_hazardous (first_band AQI_LEVELS (NFloat (F64.of_Z z)))).
Proof.
  intros Hz. unfold get_aqi_level. cbn [truthy py_float].
  replace (z =? 0) with false by (symmetry; now apply Z.eqb_neq). cbn [negb].
  now destruct (F64.is_inf (F64.of_Z z)).
Qed.

Lemma first_band_above (f : pyfloat) :
  (forall x, x <= 500 -> F64.Zcompare x f = Some Lt) ->
  first_band AQI_LEVELS (NFloat f) = None.
Proof.
  intros Hlt. unfold AQI_LEVELS. cbn [first_band int_le_num num_le_int].
  rewrite !Hlt by lia. reflexivity.
Qed.

Lemma first_band_below (f : pyfloat) :
  (forall x, 0 <= x -> F64.Zcompare x f = Some Gt) ->
  first_band AQI_LEVELS (NFloat f) = None.
Proof.
  intros Hgt. unfold AQI_LEVELS. cbn [first_band int_le_num num_le_int].
  rewrite !Hgt by lia. reflexivity.
Qed.

Lemma get_aqi_level_just_above (z : Z) :
  500 < z < 512 -> get_aqi_level (PInt z) = Ret level_hazardous.
Proof.
  intros Hz.
  assert (Hall : forallb (fun k => bool_decide
                   (get_aqi_level (PInt (501 + Z.of_nat k)) = Ret level_hazardous))
                   (seq 0 11) = true) by (vm_compute; reflexivity).
  rewrite forallb_forall in Hall.
  specialize (Hall (Z.to_nat (z - 501)) ltac:(apply in_seq; lia)).
  apply bool_decide_eq_true in Hall.
  replace (501 + Z.of_nat (Z.to_nat (z - 501))) with z in Hall by lia. exact Hall.
Qed.

(** An integer outside 0..500 gets the catch-all, unless [float()]
    overflows on it. *)
Lemma get_aqi_level_int_outside (z : Z) :
  z < 0 \/ 500 < z ->
  get_aqi_level (PInt z)
  = if F64.is_inf (F64.of_Z z) then Raise OverflowError else Ret level_hazardous.
Proof.
  intros Hz. rewrite get_aqi_level_int by lia.
  destruct (F64.is_inf (F64.of_Z z)) eqn:Hinf; [reflexivity|].
  destruct z as [|p|p]; [lia| |].
  - destruct (Z.lt_ge_cases (Zpos p) 512) as [Hsmall|Hlarge].
    + rewrite <- (get_aqi_level_just_above (Zpos p)) by lia.
      rewrite get_aqi_level_int by lia. now rewrite Hinf.
    + rewrite first_band_above; [reflexivity|].
      intros x Hx. now apply OfZFacts.Zcompare_of_Z_large.
  - rewrite first_band_below; [reflexivity|].
    intros x Hx. now apply OfZFacts.Zcompare_of_Z_neg.
Qed.

Lemma band_of_int_not_hazardous (z : Z) : band_of_int z <> level_hazardous.
Proof. unfold band_of_int. repeat destruct (_ <=? _); discriminate. Qed.

(** The integers, in full. *)
Lemma get_aqi_level_integers (z : Z) :
  (get_aqi_level (PInt z) = Ret level_hazardous <->
   (z < 0 \/ 500 < z) /\ F64.is_inf (F64.of_Z z) = false) /\
  (get_aqi_level (PInt z) = Raise OverflowError <-> F64.is_inf (F64.of_Z z) = true) /\
  (F64.is_inf (F64.of_Z z) = true -> 2 ^ 1023 <= Z.abs z).
Proof.
  split; [|split; [|apply OfZFacts.of_Z_inf]].
  - destruct (Z.lt_ge_cases z 0) as [Hneg|Hnn];
      [|destruct (Z.lt_ge_cases 500 z) as [Hbig|Hsmall]].
    + rewrite get_aqi_level_int_outside by lia.
      destruct (F64.is_inf (F64.of_Z z)); split; try discriminate; try (intros [_ ?]; discriminate).
      * intros _. split; [lia|reflexivity].
      * reflexivity.
    + rewrite get_aqi_level_int_outside by lia.
      destruct (F64.is_inf (F64.of_Z z)); split; try discriminate; try (intros [_ ?]; discriminate).
      * intros _. split; [lia|reflexivity].
      * reflexivity.
    + rewrite <- (Z2Nat.id z) at 1 by lia. rewrite get_aqi_level_small_nat by lia.
      split; [|intros [? _]; lia].
      intros [= Hb]. now destruct (band_of_int_not_hazardous (Z.of_nat (Z.to_nat z))).
  - destruct (Z.eq_dec z 0) as [->|Hz].
    + split; discriminate.
    + rewrite get_aqi_level_int by exact Hz.
      destruct (F64.is_inf (F64.of_Z z)); split; try reflexivity; discriminate.
Qed.

(** C1 (as amended): a missing value and the empty string are falsy, are
    classified as the number 0 and get the tier '良好' (good); -5 converts to
    a number, matches no band and gets the catch-all '危害' (hazardous).  The
    tier '未知' (unknown) is returned exactly for a truthy input that
    [float()] rejects with [ValueError] or [TypeError], and it differs from
    the four numeric tiers. *)
Theorem get_aqi_level_unknown_iff :
  get_aqi_level PNone = Ret ("良好", "#2ecc71") /\
  get_aqi_level (PStr "") = Ret ("良好", "#2ecc71") /\
  get_aqi_level (PInt (-5)) = Ret ("危害", "#4b0082") /\
  (forall v : pyval,
     get_aqi_level v = Ret ("未知", "#95a5a6") <->
     truthy v = true /\
     (py_float v = Raise ValueError \/ py_float v = Raise TypeError)) /\
  ~ In ("未知", "#95a5a6")
       [("良好", "#2ecc71"); ("普通", "#ffd700"); ("不健康", "#ff4444");
        ("危害", "#4b0082")].
Proof.
  split; [reflexivity|]. split; [reflexivity|]. split; [vm_compute; reflexivity|].
  split.
  - intros v. unfold get_aqi_level.
    destruct (truthy v) eqn:Ht.
    + destruct (py_float v) as [f|e] eqn:Hf; simpl.
      * split.
        -- intros [= Hx]. destruct (first_band_not_unknown (NFloat f) Hx).
        -- intros [_ [?|?]]; discriminate.
      * destruct e; split; try (intros [_ [?|?]]; discriminate);
          try discriminate; auto.
    + simpl. split; [discriminate|]. intros [? _]; discriminate.
  - simpl. intros [?|[?|[?|[?|[]]]]]; discriminate.
Qed.

(** C2 (as amended): every integer from 0 to 500 gets the tier of the one
    band that holds it; a float whose value lies in a band gets that band's
    tier; and the catch-all '危害' (hazardous) is returned for a float
    exactly when its value lies in none of the bands [0,50], [51,100],
    [101,500] (above 500, below 0, or between two bands) or it is a NaN or
    an infinity.  For an integer it is returned exactly when the integer
    is below 0 or above 500 and [float()] converts it; an integer
    [float()] does not convert (its float would be an infinity, which
    takes 2 ^ 1023 or more in magnitude) raises [OverflowError].  [True]
    and [False] count as 1 and 0. *)
Theorem get_aqi_level_bands :
  (forall z : Z, 0 <= z <= 500 ->
     get_aqi_level (PInt z) = Ret (band_of_int z)) /\
  (forall (f : pyfloat) (q : Q), F64.to_Q f = Some q ->
     ((0 <= q /\ q <= 50)%Q -> get_aqi_level (PFloat f) = Ret ("良好", "#2ecc71")) /\
     ((51 <= q /\ q <= 100)%Q -> get_aqi_level (PFloat f) = Ret ("普通", "#ffd700")) /\
     ((101 <= q /\ q <= 500)%Q ->
        get_aqi_level (PFloat f) = Ret ("不健康", "#ff4444")) /\
     (get_aqi_level (PFloat f) = Ret ("危害", "#4b0082") <-> outside_bands q)) /\
  (forall f : pyfloat, F64.to_Q f = None ->
     get_aqi_level (PFloat f) = Ret ("危害", "#4b0082")) /\
  (forall z : Z,
     (get_aqi_level (PInt z) = Ret ("危害", "#4b0082") <->
      (z < 0 \/ 500 < z) /\ F64.is_inf (F64.of_Z z) = false) /\
     (get_aqi_level (PInt z) = Raise OverflowError <->
      F64.is_inf (F64.of_Z z) = true) /\
     (F64.is_inf (F64.of_Z z) = true -> 2 ^ 1023 <= Z.abs z)) /\
  (forall b : bool, get_aqi_level (PBool b) = Ret ("良好", "#2ecc71")).
Proof.
  split; [|split; [|split; [|split]]];
    [| | |exact get_aqi_level_integers|intros [|]; vm_compute; reflexivity].
  - intros z Hz. rewrite <- (Z2Nat.id z) by lia.
    apply get_aqi_level_small_nat. lia.
  - intros f q Hq.
    destruct f as [s|s| |s m e]; try discriminate.
    + injection Hq as <-. unfold outside_bands.
      repeat split; try reflexivity; try discriminate; try (intros; exfalso; lra).
    + rewrite get_aqi_level_finite.
      destruct (first_band_float _ q Hq) as (Hgood & Hmod & Hbad & Hnone).
      repeat split.
      * intros Hb. now rewrite (Hgood Hb).
      * intros Hb. now rewrite (Hmod Hb).
      * intros Hb. now rewrite (Hbad Hb).
      * destruct (first_band AQI_LEVELS (NFloat (S754_finite s m e))) as [tier|] eqn:Hb.
        -- intros [= ->]. now destruct (first_band_not_hazardous _ _ Hb).
        -- intros _. now apply Hnone.
      * intros Hout. now rewrite (proj2 Hnone Hout).
  - intros f Hf. destruct f as [s|s| |s m e]; try discriminate.
    + destruct s; reflexivity.
    + reflexivity.
Qed.

(** C4: at the band boundaries the classifier returns 良好 (good) for 50,
    普通 (moderate) for 51 and 100, 不健康 (unhealthy) for 101 and 500, and
    危害 (hazardous) for 501. *)
Theorem get_aqi_level_boundaries :
  get_aqi_level (PInt 50) = Ret ("良好", "#2ecc71") /\
  get_aqi_level (PInt 51) = Ret ("普通", "#ffd700") /\
  get_aqi_level (PInt 100) = Ret ("普通", "#ffd700") /\
  get_aqi_level (PInt 101) = Ret ("不健康", "#ff4444") /\
  get_aqi_level (PInt 500) = Ret ("不健康", "#ff4444") /\
  get_aqi_level (PInt 501) = Ret ("危害", "#4b0082").
Proof. repeat split; vm_compute; reflexivity. Qed.

End Classifier.

(** C1, as the claim states it, fails: [None], the empty string and -5
    are not classified as '未知' (unknown). *)
Lemma get_aqi_level_missing_is_good :
  @get_aqi_level reference_platform PNone = Ret ("良好", "#2ecc71") /\
  @get_aqi_level reference_platform (PStr "") = Ret ("良好", "#2ecc71") /\
  @get_aqi_level reference_platform (PInt (-5)) = Ret ("危害", "#4b0082") /\
  @get_aqi_level reference_platform PNone <> Ret ("未知", "#95a5a6").
Proof. repeat split; try (vm_compute; reflexivity). discriminate. Qed.

(** C2, as the claim states it, fails: 50.5 lies between 0 and 500 and is
    classified as '危害' (hazardous). *)
Lemma get_aqi_level_gap_is_hazardous :
  F64.leb (F64.of_Z 0) (F64.of_decimal 505 (-1)) = true /\
  F64.leb (F64.of_decimal 505 (-1)) (F64.of_Z 500) = true /\
  @get_aqi_level reference_platform (PFloat (F64.of_decimal 505 (-1)))
  = Ret ("危害", "#4b0082").
Proof. repeat split; vm_compute; reflexivity. Qed.

(** C2 at the integer 42 and at the float 50.5. *)
Lemma get_aqi_level_bands_witness :
  (0 <= 42 <= 500 /\
   @get_aqi_level reference_platform (PInt 42) = Ret ("良好", "#2ecc71")) /\
  (exists q : Q,
     F64.to_Q (F64.of_decimal 505 (-1)) = Some q /\ (q == 101 # 2)%Q /\
     (@get_aqi_level reference_platform (PFloat (F64.of_decimal 505 (-1)))
      = Ret ("危害", "#4b0082") <-> outside_bands q)).
Proof.
  split.
  - split; [lia|].
    exact (proj1 (@get_aqi_level_bands reference_platform) 42 ltac:(lia)).
  - eexists. split; [reflexivity|]. split; [vm_compute; reflexivity|].
    apply (proj1 (proj2 (@get_aqi_level_bands reference_platform))). reflexivity.
Defined.

(** The integers outside the bands: -3 is classified as '危害'
    (hazardous), and 10 ^ 400 is not classified at all. *)
Example get_aqi_level_integers_outside :
  @get_aqi_level reference_platform (PInt (-3)) = Ret ("危害", "#4b0082") /\
  @get_aqi_level reference_platform (PInt (10 ^ 400)) = Raise OverflowError.
Proof. split; vm_compute; reflexivity. Qed.

(** ** DistanceCalculator *)

Section Distance.

Context `{P : Platform} {L : LibmLaws P}.

Lemma half_sine_sq_swap {A} (a b : pyfloat) (k : pyfloat -> outcome A) :
  (s ← math_sin (F64.div (math_radians (F64.sub a b)) (F64.of_Z 2));
   p ← float_pow2 s; k p)
  = (s ← math_sin (F64.div (math_radians (F64.sub b a)) (F64.of_Z 2));
     p ← float_pow2 s; k p).
Proof.
  destruct (F64Facts.sub_swap b a) as [E|E]; rewrite E; [|reflexivity].
  unfold math_radians.
  rewrite F64Facts.mul_opp_l, F64Facts.div_opp_l, math_sin_odd.
  destruct (math_sin _) as [s|e]; [|reflexivity].
  cbn [fmap outcome_fmap mbind outcome_bind].
  now rewrite float_pow2_even.
Qed.

Lemma cos_pair_swap {A} (x y : pyfloat) (k : pyfloat -> outcome A) :
  (c1 ← math_cos x; c2 ← math_cos y; k (F64.mul c1 c2))
  = (c2 ← math_cos y; c1 ← math_cos x; k (F64.mul c2 c1)).
Proof.
  destruct (math_cos x) as [c1|e1] eqn:E1, (math_cos y) as [c2|e2] eqn:E2;
    cbn [mbind outcome_bind]; rewrite ?E1, ?E2; cbn [mbind outcome_bind].
  - now rewrite F64Facts.mul_comm.
  - reflexivity.
  - reflexivity.
  - now rewrite (math_cos_raises _ _ E1), (math_cos_raises _ _ E2).
Qed.

(** C8: [calculate_distance] is symmetric: with the two points swapped it
    returns the same float, or raises the same exception.  It holds for
    all floats, on every platform whose libm obeys [LibmLaws]. *)
Theorem calculate_distance_symmetric (lat1 lon1 lat2 lon2 : pyfloat) :
  calculate_distance lat1 lon1 lat2 lon2 = calculate_distance lat2 lon2 lat1 lon1.
Proof.
  unfold calculate_distance. cbv zeta.
  rewrite (half_sine_sq_swap lat1 lat2).
  destruct (math_sin (F64.div (math_radians (F64.sub lat2 lat1)) _)) as [s|e];
    [|reflexivity].
  cbn [mbind outcome_bind].
  destruct (float_pow2 s) as [p|e]; [|reflexivity].
  cbn [mbind outcome_bind].
  set (k := fun c : pyfloat =>
    sin_dlon ← math_sin (F64.div (math_radians (F64.sub lon2 lon1)) (F64.of_Z 2));
    sq_dlon ← float_pow2 sin_dlon;
    root ← math_sqrt (F64.add p (F64.mul c sq_dlon));
    angle ← math_asin root;
    Ret (py_round2 (F64.mul (F64.of_Z 6371) (F64.mul (F64.of_Z 2) angle)))).
  transitivity (c1 ← math_cos (math_radians lat1);
                c2 ← math_cos (math_radians lat2); k (F64.mul c1 c2));
    [reflexivity|].
  rewrite cos_pair_swap. unfold k.
  destruct (math_cos (math_radians lat2)) as [c2|e]; [|reflexivity].
  cbn [mbind outcome_bind].
  destruct (math_cos (math_radians lat1)) as [c1|e]; [|reflexivity].
  cbn [mbind outcome_bind].
  apply (half_sine_sq_swap lon2 lon1).
Qed.

End Distance.

(** C8 on the reference platform, at the two stations of the scenario. *)
Lemma calculate_distance_symmetric_witness :
  LibmLaws reference_platform /\
  @calculate_distance reference_platform
     (F64.of_decimal 250330 (-4)) (F64.of_decimal 1215654 (-4))
     (F64.of_decimal 226273 (-4)) (F64.of_decimal 1203014 (-4))
  = @calculate_distance reference_platform
     (F64.of_decimal 226273 (-4)) (F64.of_decimal 1203014 (-4))
     (F64.of_decimal 250330 (-4)) (F64.of_decimal 1215654 (-4)).
Proof.
  split; [exact RefFacts.reference_libm_laws|].
  exact (@calculate_distance_symmetric reference_platform RefFacts.reference_libm_laws
           _ _ _ _).
Defined.

(** ** MapRenderer *)

Section MapRenderer.

Context `{Platform}.

(** A record the filter rejects leaves no trace: not in the markers, not
    in the count, not in the output. *)
Lemma create_map_drop_invalid self pre r post out w :
  is_valid_record r = false ->
  create_map self (pre ++ r :: post) out w = create_map self (pre ++ post) out w.
Proof.
  intros Hr. unfold create_map.
  rewrite !List.filter_app. simpl. now rewrite Hr.
Qed.

Lemma add_markers_fst_indep rs placed w w' :
  (add_markers rs placed w).1 = (add_markers rs placed w').1.
Proof.
  revert placed w w'. induction rs as [|r rs IH]; intros placed w w'; simpl.
  - reflexivity.
  - destruct (make_marker r) as [mk|e]; [apply IH|].
    destruct e; try reflexivity; apply IH.
Qed.

Lemma add_markers_files rs placed w :
  files (add_markers rs placed w).2 = files w.
Proof.
  revert placed w. induction rs as [|r rs IH]; intros placed w; simpl.
  - reflexivity.
  - destruct (make_marker r) as [mk|e]; [apply IH|].
    destruct e; try reflexivity; now rewrite IH.
Qed.

(** A record whose marker cannot be built either ends the loop or leaves
    the markers as they are without it. *)
Lemma add_markers_skip before r after placed w :
  (forall mk, make_marker r <> Ret mk) ->
  forall ms, (add_markers (before ++ r :: after) placed w).1 = Ret ms ->
  (add_markers (before ++ after) placed w).1 = Ret ms.
Proof.
  intros Hr. revert placed w.
  induction before as [|b before IH]; intros placed w ms; simpl.
  - destruct (make_marker r) as [mk|e]; [now destruct (Hr mk)|].
    destruct e; try discriminate; intros <-; apply add_markers_fst_indep.
  - destruct (make_marker b) as [mk|e]; [apply IH|].
    destruct e; try discriminate; apply IH.
Qed.

Lemma unrenderable_invalid_or_bad_longitude r :
  unrenderable r ->
  is_valid_record r = false \/
  (forall f : pyfloat, py_float (dict_get r "longitude") <> Ret f).
Proof.
  unfold unrenderable, is_valid_record.
  intros [-> | [-> | Hlon]]; [left; reflexivity | left | right; exact Hlon].
  now rewrite andb_false_r.
Qed.

Lemma make_marker_bad_longitude r :
  (forall f : pyfloat, py_float (dict_get r "longitude") <> Ret f) ->
  forall mk, make_marker r <> Ret mk.
Proof.
  unfold make_marker, dict_get, dict_getitem. intros Hlon mk.
  destruct (r !! "latitude") as [lat|]; [|discriminate].
  cbn [mbind outcome_bind].
  destruct (py_float lat) as [flat|e]; [|discriminate].
  cbn [mbind outcome_bind].
  destruct (r !! "longitude") as [lon|] eqn:Hl; [|discriminate].
  cbn [mbind outcome_bind default] in *.
  destruct (py_float lon) as [flon|e] eqn:Hfl; [|discriminate].
  destruct (Hlon flon). exact Hfl.
Qed.

(** What [create_map] has done when it returns a path. *)
Lemma create_map_returns_path self records out w path w' :
  create_map self records out w = (Ret (Some path), w') ->
  exists placed,
    path = path_join (output_dir self) out /\
    (forall w0,
       (add_markers (List.filter is_valid_record records) [] w0).1 = Ret placed) /\
    files w' = <[path := MapDoc (folium_Map placed)]> (files w).
Proof.
  unfold create_map.
  destruct (List.filter is_valid_record records) as [|v vs] eqn:Hf; [discriminate|].
  set (w1 := print _ w).
  destruct (add_markers (v :: vs) [] w1) as [[placed|e] w2] eqn:Ha; [|discriminate].
  intros [= <- <-]. exists placed. split; [reflexivity|].
  split.
  - intros w0. rewrite (add_markers_fst_indep _ _ w0 w1). now rewrite Ha.
  - cbn. f_equal. replace w2 with (add_markers (v :: vs) [] w1).2 by now rewrite Ha.
    now rewrite add_markers_files.
Qed.

Lemma create_map_renders self records out w placed :
  List.filter is_valid_record records <> [] ->
  (forall w0,
     (add_markers (List.filter is_valid_record records) [] w0).1 = Ret placed) ->
  exists w2,
    create_map self records out w
    = (Ret (Some (path_join (output_dir self) out)), w2) /\
    files w2
    = <[path_join (output_dir self) out := MapDoc (folium_Map placed)]> (files w).
Proof.
  intros Hne Hadd. unfold create_map.
  destruct (List.filter is_valid_record records) as [|v vs] eqn:Hf; [done|].
  set (w1 := print _ w).
  pose proof (Hadd w1) as Ha.
  pose proof (add_markers_files (v :: vs) [] w1) as Hfiles.
  destruct (add_markers (v :: vs) [] w1) as [res w2]. simpl in Ha, Hfiles. subst res.
  eexists. split; [reflexivity|]. cbn. now rewrite Hfiles.
Qed.

(** X26: whenever [create_map] returns a path for records that include
    one with no latitude, no station name, or a longitude [float()] does
    not convert, the map document written is the very one it writes for
    the other records (or it has no marker at all, when no other record is
    valid): the record has contributed no marker. *)
Theorem create_map_skips_unrenderable self pre r post out w path w' :
  unrenderable r ->
  create_map self (pre ++ r :: post) out w = (Ret (Some path), w') ->
  exists m : folium_map,
    files w' !! path = Some (MapDoc m) /\
    ((List.filter is_valid_record (pre ++ post) = [] /\ map_markers m = []) \/
     (exists w2, create_map self (pre ++ post) out w = (Ret (Some path), w2) /\
                 files w2 !! path = Some (MapDoc m))).
Proof.
  intros Hr Hrun.
  destruct (unrenderable_invalid_or_bad_longitude r Hr) as [Hv|Hlon].
  - rewrite (create_map_drop_invalid _ _ _ _ _ _ Hv) in Hrun.
    destruct (create_map_returns_path _ _ _ _ _ _ Hrun) as (placed & _ & _ & Hfiles).
    exists (folium_Map placed). split; [rewrite Hfiles; apply lookup_insert_eq|].
    right. exists w'. split; [exact Hrun|]. rewrite Hfiles; apply lookup_insert_eq.
  - destruct (is_valid_record r) eqn:Hv;
      [|rewrite (create_map_drop_invalid _ _ _ _ _ _ Hv) in Hrun].
    + destruct (create_map_returns_path _ _ _ _ _ _ Hrun)
        as (placed & Hpath & Hadd & Hfiles).
      exists (folium_Map placed). split; [rewrite Hfiles; apply lookup_insert_eq|].
      assert (Hrest : forall w0,
        (add_markers (List.filter is_valid_record (pre ++ post)) [] w0).1 = Ret placed).
      { intros w0. specialize (Hadd w0).
        rewrite List.filter_app in Hadd. simpl in Hadd. rewrite Hv in Hadd.
        rewrite List.filter_app.
        apply (add_markers_skip _ r); [|exact Hadd].
        now apply make_marker_bad_longitude. }
      destruct (List.filter is_valid_record (pre ++ post)) as [|v vs] eqn:Hf.
      * left. split; [reflexivity|]. specialize (Hrest w). simpl in Hrest.
        now injection Hrest as <-.
      * right.
        destruct (create_map_renders self (pre ++ post) out w placed)
          as (w2 & Hrun2 & Hfiles2); [now rewrite Hf..|].
        exists w2. subst path. split; [exact Hrun2|].
        rewrite Hfiles2. apply lookup_insert_eq.
    + destruct (create_map_returns_path _ _ _ _ _ _ Hrun) as (placed & _ & _ & Hfiles).
      exists (folium_Map placed). split; [rewrite Hfiles; apply lookup_insert_eq|].
      right. exists w'. split; [exact Hrun|]. rewrite Hfiles; apply lookup_insert_eq.
Qed.

(** C9: a record whose latitude or longitude is falsy (the number 0, the
    empty string) fails the validity filter, parsable or not, and
    [create_map] behaves as if the record were not in its input. *)
Theorem create_map_excludes_falsy_coordinates self pre r post out w :
  truthy (dict_get r "latitude") = false \/ truthy (dict_get r "longitude") = false ->
  is_valid_record r = false /\
  create_map self (pre ++ r :: post) out w = create_map self (pre ++ post) out w.
Proof.
  intros Hfalsy.
  assert (Hv : is_valid_record r = false).
  { unfold is_valid_record. destruct Hfalsy as [-> | ->]; [reflexivity|].
    now rewrite andb_false_r. }
  split; [exact Hv|]. now apply create_map_drop_invalid.
Qed.

End MapRenderer.

(** C7: the defect.  A record whose longitude is not a number is not
    skipped when its latitude is an integer too large for a float: the
    record passes the validity filter, [float(latitude)] raises
    [OverflowError], the loop catches [ValueError] and [TypeError] only,
    and [create_map] raises.  No map is written, though Station A, the
    other record, gives a map with its marker when it is alone. *)
Lemma create_map_unrenderable_aborts :
  @unrenderable reference_platform Samples.station_huge_bad_lon /\
  is_valid_record Samples.station_huge_bad_lon = true /\
  (@create_map reference_platform Samples.visualizer
     [Samples.station_a; Samples.station_huge_bad_lon] "aqi_map.html"
     Samples.empty_world).1 = Raise OverflowError /\
  files (@create_map reference_platform Samples.visualizer
           [Samples.station_a; Samples.station_huge_bad_lon] "aqi_map.html"
           Samples.empty_world).2 = ∅ /\
  (@create_map reference_platform Samples.visualizer
     [Samples.station_a] "aqi_map.html" Samples.empty_world).1
  = Ret (Some "outputs/aqi_map.html") /\
  length (Samples.markers_written
            (@create_map reference_platform Samples.visualizer
               [Samples.station_a] "aqi_map.html" Samples.empty_world).2
            "outputs/aqi_map.html") = 1%nat.
Proof.
  split; [right; right; intros f; vm_compute; discriminate|].
  repeat split; vm_compute; reflexivity.
Qed.

(** X26 at three records, the second with the longitude 'abc': the map
    has the two markers of the others. *)
Lemma create_map_skips_unrenderable_witness :
  @unrenderable reference_platform Samples.station_bad_lon /\
  exists (w' : world) (m : folium_map),
    @create_map reference_platform Samples.visualizer
      [Samples.station_a; Samples.station_bad_lon; Samples.station_b]
      "aqi_map.html" Samples.empty_world
    = (Ret (Some "outputs/aqi_map.html"), w') /\
    files w' !! "outputs/aqi_map.html" = Some (MapDoc m) /\
    length (map_markers m) = 2%nat /\
    exists w2,
      @create_map reference_platform Samples.visualizer
        [Samples.station_a; Samples.station_b] "aqi_map.html" Samples.empty_world
      = (Ret (Some "outputs/aqi_map.html"), w2) /\
      files w2 !! "outputs/aqi_map.html" = Some (MapDoc m).
Proof.
  assert (Hbad : @unrenderable reference_platform Samples.station_bad_lon).
  { right; right. intros f. vm_compute. discriminate. }
  split; [exact Hbad|].
  eexists.
  destruct (@create_map_skips_unrenderable reference_platform Samples.visualizer
              [Samples.station_a] Samples.station_bad_lon [Samples.station_b]
              "aqi_map.html" Samples.empty_world
              "outputs/aqi_map.html" _ Hbad ltac:(vm_compute; reflexivity))
    as (m & Hm & [[Hnone _]|(w2 & Hrun2 & Hm2)]).
  - apply (f_equal length) in Hnone. vm_compute in Hnone. discriminate.
  - exists m. split; [vm_compute; reflexivity|]. split; [exact Hm|]. split.
    + apply (f_equal (fun a => match a with
                               | Some (MapDoc d) => length (map_markers d)
                               | _ => 0%nat
                               end)) in Hm.
      vm_compute in Hm. symmetry. exact Hm.
    + exists w2. split; [exact Hrun2 | exact Hm2].
Defined.

(** C9 at a station on the equator: its latitude 0 converts to the float
    0.0, and the record is left out all the same. *)
Lemma create_map_excludes_falsy_coordinates_witness :
  truthy (dict_get Samples.station_equator "latitude") = false /\
  @py_float reference_platform (dict_get Samples.station_equator "latitude")
  = Ret (S754_zero false) /\
  is_valid_record Samples.station_equator = false /\
  @create_map reference_platform Samples.visualizer
    [Samples.station_a; Samples.station_equator] "aqi_map.html" Samples.empty_world
  = @create_map reference_platform Samples.visualizer
      [Samples.station_a] "aqi_map.html" Samples.empty_world.
Proof.
  split; [vm_compute; reflexivity|]. split; [vm_compute; reflexivity|].
  exact (@create_map_excludes_falsy_coordinates reference_platform Samples.visualizer
           [Samples.station_a] Samples.station_equator [] "aqi_map.html"
           Samples.empty_world (or_introl eq_refl)).
Defined.

(** ** ReportBuilder *)

Section Sorting.

Lemma row_distance_not_nan (r : record) (d : pyfloat) :
  row_distance r = Some d -> F64.is_nan d = false.
Proof.
  unfold row_distance.
  destruct (r !! distance_column) as [[]|]; try discriminate.
  destruct (F64.is_nan f) eqn:E; [discriminate|]. now intros [= <-].
Qed.

Lemma distance_leq_trans (a b c : record) :
  distance_leq a b -> distance_leq b c -> distance_leq a c.
Proof.
  unfold distance_leq, distance_le.
  destruct (row_distance a), (row_distance b), (row_distance c); try discriminate.
  apply F64Facts.leb_trans.
Qed.

Lemma distance_leq_total (a b : record) :
  is_Some (row_distance a) -> is_Some (row_distance b) ->
  distance_leq a b \/ distance_leq b a.
Proof.
  unfold distance_leq, distance_le. intros [x Hx] [y Hy]. rewrite Hx, Hy.
  apply F64Facts.leb_total; eauto using row_distance_not_nan.
Qed.

Lemma insert_sorted_Forall (P : record -> Prop) (x : record) (l : list record) :
  P x -> Forall P l -> Forall P (insert_sorted x l).
Proof.
  intros Hx. induction 1 as [|y l Hy Hl IH]; simpl.
  - now constructor.
  - destruct (distance_le x y); repeat constructor; auto.
Qed.

Lemma insert_sorted_perm (x : record) (l : list record) :
  insert_sorted x l ≡ₚ x :: l.
Proof.
  induction l as [|y l IH]; simpl; [reflexivity|].
  destruct (distance_le x y); [reflexivity|].
  rewrite IH. apply perm_swap.
Qed.

Lemma argsort_perm (l : list record) : argsort l ≡ₚ l.
Proof.
  induction l as [|x l IH]; simpl; [reflexivity|].
  now rewrite insert_sorted_perm, IH.
Qed.

Lemma insert_sorted_sorted (x : record) (l : list record) :
  is_Some (row_distance x) -> Forall (fun r => is_Some (row_distance r)) l ->
  StronglySorted distance_leq l -> StronglySorted distance_leq (insert_sorted x l).
Proof.
  intros Hx Hl Hs. induction Hs as [|y l Hs IH Hy]; simpl.
  - repeat constructor.
  - inversion_clear Hl as [|? ? Hvy Hvl].
    destruct (distance_le x y) eqn:E.
    + constructor; [now constructor|].
      constructor; [exact E|].
      eapply Forall_impl; [exact Hy|]. intros z Hz.
      now apply (distance_leq_trans x y z).
    + constructor; [now apply IH|].
      apply insert_sorted_Forall; [|exact Hy].
      destruct (distance_leq_total x y Hx Hvy) as [H1|H1]; [|exact H1].
      unfold distance_leq in H1. congruence.
Qed.

Lemma argsort_sorted (l : list record) :
  Forall (fun r => is_Some (row_distance r)) l ->
  StronglySorted distance_leq (argsort l) /\
  Forall (fun r => is_Some (row_distance r)) (argsort l).
Proof.
  induction 1 as [|x l Hx Hl [IHs IHv]]; simpl.
  - split; constructor.
  - split; [now apply insert_sorted_sorted | now apply insert_sorted_Forall].
Qed.

Lemma sorted_then_nulls (valued nulls : list record) :
  StronglySorted distance_leq valued ->
  Forall (fun r => row_distance r = None) nulls ->
  rows_sorted_nulls_last (valued ++ nulls).
Proof.
  intros Hs Hn. induction Hs as [|x l Hs IH Hx]; intros i j ri rj Hij Hi Hj.
  - simpl in *. rewrite Forall_lookup in Hn.
    rewrite (Hn _ _ Hj). now destruct (row_distance ri).
  - destruct j as [|j]; [lia|]. simpl in Hj.
    destruct i as [|i]; simpl in Hi.
    + injection Hi as <-.
      apply lookup_app_Some in Hj as [Hj|[_ Hj]].
      * rewrite Forall_lookup in Hx. specialize (Hx _ _ Hj).
        unfold distance_leq, distance_le in Hx.
        now destruct (row_distance x), (row_distance rj).
      * rewrite Forall_lookup in Hn. rewrite (Hn _ _ Hj).
        now destruct (row_distance x).
    + apply (IH i j); [lia|assumption..].
Qed.

Lemma filter_split_perm {A} (f : A -> bool) (l : list A) :
  List.filter f l ++ List.filter (fun a => negb (f a)) l ≡ₚ l.
Proof.
  induction l as [|a l IH]; simpl; [reflexivity|].
  destruct (f a); simpl.
  - now rewrite IH.
  - rewrite <- Permutation_middle. now rewrite IH.
Qed.

Lemma sort_values_perm (df : DataFrame) : df_rows (sort_values df) ≡ₚ df_rows df.
Proof.
  unfold sort_values; simpl. rewrite argsort_perm. apply filter_split_perm.
Qed.

Lemma sort_values_sorted (df : DataFrame) :
  rows_sorted_nulls_last (df_rows (sort_values df)).
Proof.
  unfold sort_values; simpl. apply sorted_then_nulls.
  - apply argsort_sorted. apply List.Forall_forall. intros r Hr.
    apply List.filter_In in Hr as [_ Hr]. now apply bool_decide_eq_true in Hr.
  - apply List.Forall_forall. intros r Hr.
    apply List.filter_In in Hr as [_ Hr].
    apply negb_true_iff, bool_decide_eq_false in Hr.
    destruct (row_distance r); [|reflexivity]. destruct Hr. eauto.
Qed.

End Sorting.

Section ReportBuilder.

Context `{Platform}.

Lemma df_apply_Ret (f : record -> outcome pyval) rows vs :
  df_apply f rows = Ret vs -> Forall2 (fun row v => f row = Ret v) rows vs.
Proof.
  revert vs. induction rows as [|row rows IH]; intros vs; simpl.
  - intros [= <-]. constructor.
  - destruct (f row) as [v|e] eqn:Hf; [|discriminate]. cbn [mbind outcome_bind].
    destruct (df_apply f rows) as [vs'|e]; [|discriminate]. cbn [mbind outcome_bind].
    intros [= <-]. constructor; auto.
Qed.

Lemma df_apply_raises (f : record -> outcome pyval) rows row e :
  row ∈ rows -> f row = Raise e -> exists e', df_apply f rows = Raise e'.
Proof.
  intros Hin Hf. induction Hin as [row rows|row r rows Hin IH]; simpl.
  - rewrite Hf. eauto.
  - destruct (f r); [|eauto]. cbn [mbind outcome_bind].
    destruct (IH Hf) as [e' ->]. eauto.
Qed.

Lemma build_report_empty_frame records :
  records = [] \/ df_columns (pd_DataFrame records) = ∅ ->
  build_report records = Raise ValueError.
Proof.
  intros Hempty. unfold build_report. now rewrite bool_decide_eq_true_2.
Qed.

Lemma build_report_frame records :
  records <> [] -> df_columns (pd_DataFrame records) <> ∅ ->
  build_report records
  = (let df := pd_DataFrame records in
     distances ← df_apply (distance_of_row df) records;
     let df := df_setitem df distance_column distances in
     let available_columns :=
       List.filter (fun col => bool_decide (col ∈ df_columns df)) report_column_order in
     let df_output := sort_values (df_select df available_columns) in
     Ret {| report_columns := available_columns; report_rows := df_rows df_output |}).
Proof.
  intros Hrows Hcols. unfold build_report.
  rewrite bool_decide_eq_false_2; [reflexivity|].
  now intros [?|?].
Qed.

Lemma build_report_Ret records rep :
  build_report records = Ret rep ->
  exists distances,
    df_apply (distance_of_row (pd_DataFrame records)) records = Ret distances /\
    report_rows rep
    = df_rows (sort_values (df_select
        (df_setitem (pd_DataFrame records) distance_column distances)
        (report_columns rep))).
Proof.
  unfold build_report. destruct (bool_decide _); [discriminate|].
  set (df := pd_DataFrame records).
  change (df_rows df) with records.
  destruct (df_apply (distance_of_row df) records) as [distances|e]; [|discriminate].
  cbn [mbind outcome_bind].
  set (df' := df_setitem df distance_column distances).
  set (available := List.filter _ report_column_order).
  set (sorted := sort_values _).
  intros Heq. exists distances. split; [reflexivity|].
  replace rep with {| report_columns := available; report_rows := df_rows sorted |}
    by congruence.
  reflexivity.
Qed.

Lemma create_data_report_files self records out w :
  files (create_data_report self records out w).2
  = match build_report records with
    | Ret rep => <[path_join (output_dir self) out := CsvDoc rep]> (files w)
    | Raise _ => files w
    end.
Proof.
  unfold create_data_report.
  destruct (build_report records) as [rep|e]; [|reflexivity].
  destruct (_ ≫= _) as [[site dist]|e]; reflexivity.
Qed.

Lemma create_data_report_written self records out w rep :
  files w !! path_join (output_dir self) out = None ->
  files (create_data_report self records out w).2 !! path_join (output_dir self) out
  = Some (CsvDoc rep) ->
  build_report records = Ret rep.
Proof.
  intros Hfresh. rewrite create_data_report_files.
  destruct (build_report records) as [rep'|e].
  - rewrite lookup_insert_eq. now intros [= ->].
  - rewrite Hfresh. discriminate.
Qed.

(** C6: the rows of the report [create_data_report] writes are in
    non-decreasing order of the distance column, and every row without a
    distance comes after all the rows that have one. *)
Theorem create_data_report_sorted self records out w rep :
  files w !! path_join (output_dir self) out = None ->
  files (create_data_report self records out w).2 !! path_join (output_dir self) out
  = Some (CsvDoc rep) ->
  rows_sorted_nulls_last (report_rows rep).
Proof.
  intros Hfresh Hrep.
  destruct (build_report_Ret _ _ (create_data_report_written _ _ _ _ _ Hfresh Hrep))
    as (distances & _ & ->).
  apply sort_values_sorted.
Qed.

Lemma distance_of_row_na_lat df row lat :
  row_getitem df row "latitude" = Ret lat -> pd_notna lat = Ret false ->
  distance_of_row df row = Ret PNone.
Proof.
  intros Hlat Hna. unfold distance_of_row, both_notna.
  rewrite Hlat. cbn [mbind outcome_bind]. rewrite Hna. reflexivity.
Qed.

Lemma distance_of_row_na_lon df row lat lon :
  row_getitem df row "latitude" = Ret lat -> pd_notna lat = Ret true ->
  row_getitem df row "longitude" = Ret lon -> pd_notna lon = Ret false ->
  distance_of_row df row = Ret PNone.
Proof.
  intros Hlat Hok Hlon Hna. unfold distance_of_row, both_notna.
  rewrite Hlat. cbn [mbind outcome_bind]. rewrite Hok. cbn [mbind outcome_bind].
  rewrite Hlon. cbn [mbind outcome_bind]. rewrite Hna. reflexivity.
Qed.

Lemma distance_of_row_present df row lat lon :
  row_getitem df row "latitude" = Ret lat -> pd_notna lat = Ret true ->
  row_getitem df row "longitude" = Ret lon -> pd_notna lon = Ret true ->
  distance_of_row df row
  = (flat ← py_float lat; flon ← py_float lon;
     d ← calculate_distance flat flon taipei_station_lat taipei_station_lon;
     Ret (PFloat d)).
Proof.
  intros Hlat Hok Hlon Hok'. unfold distance_of_row, both_notna.
  rewrite Hlat. cbn [mbind outcome_bind]. rewrite Hok. cbn [mbind outcome_bind].
  rewrite Hlon. cbn [mbind outcome_bind]. rewrite Hok'. cbn [mbind outcome_bind].
  reflexivity.
Qed.

(** X25: the row function of [create_data_report].  For a row whose
    cell [row['latitude']] can be read (the frame has the column: some
    record has the key), the distance is null when the latitude is missing
    ([pd.notna] is false: [None], NaN, or a key this record lacks), and
    likewise for the longitude once the latitude is present; when both are
    present it is [calculate_distance] of [float(latitude)],
    [float(longitude)] and the reference point (25.0478, 121.5170), and a
    coordinate that [float()] does not convert raises there.  A row that
    raises fails the whole report: the exception is caught and reported
    and no file is written.  The rows of a report that is written are the
    records, each with its distance. *)
Theorem create_data_report_distances self records out w :
  let df := pd_DataFrame records in
  let path := path_join (output_dir self) out in
  let w' := (create_data_report self records out w).2 in
  (forall row lat,
     row_getitem df row "latitude" = Ret lat -> pd_notna lat = Ret false ->
     distance_of_row df row = Ret PNone) /\
  (forall row lat lon,
     row_getitem df row "latitude" = Ret lat -> pd_notna lat = Ret true ->
     row_getitem df row "longitude" = Ret lon ->
     (pd_notna lon = Ret false -> distance_of_row df row = Ret PNone) /\
     (pd_notna lon = Ret true ->
        distance_of_row df row
        = (flat ← py_float lat; flon ← py_float lon;
           d ← calculate_distance flat flon taipei_station_lat taipei_station_lon;
           Ret (PFloat d)) /\
        (forall e, py_float lat = Raise e -> distance_of_row df row = Raise e) /\
        (forall flat e, py_float lat = Ret flat -> py_float lon = Raise e ->
           distance_of_row df row = Raise e))) /\
  (forall row e, row ∈ records -> distance_of_row df row = Raise e ->
     files w' = files w /\
     exists e', stdout w' = stdout w ++ [MsgReportFailed e']) /\
  (forall rep, files w !! path = None -> files w' !! path = Some (CsvDoc rep) ->
     exists distances,
       Forall2 (fun row v => distance_of_row df row = Ret v) records distances /\
       report_rows rep ≡ₚ zip_with (output_row (report_columns rep)) records distances).
Proof.
  intros df path w'. split; [|split; [|split]].
  - intros row lat. apply distance_of_row_na_lat.
  - intros row lat lon Hlat Hok Hlon. split; intros Hl.
    + now apply (distance_of_row_na_lon df row lat lon).
    + rewrite (distance_of_row_present df row lat lon Hlat Hok Hlon Hl).
      split; [reflexivity|]. split.
      * now intros e ->.
      * now intros flat e -> ->.
  - intros row e Hin Hrow.
    destruct (df_apply_raises _ _ _ _ Hin Hrow) as [e' He'].
    assert (Hb : exists e'', build_report records = Raise e'').
    { unfold build_report. destruct (bool_decide _); [eauto|].
      change (df_rows (pd_DataFrame records)) with records.
      fold df. rewrite He'. eauto. }
    destruct Hb as [e'' Hb].
    subst w'. unfold create_data_report. rewrite Hb. split; [reflexivity|]. eauto.
  - intros rep Hfresh Hrep.
    destruct (build_report_Ret _ _ (create_data_report_written _ _ _ _ _ Hfresh Hrep))
      as (distances & Happly & Hrows).
    exists distances. split; [now apply df_apply_Ret|].
    rewrite Hrows, sort_values_perm. simpl.
    clear. revert distances. generalize (report_columns rep).
    intros columns. induction records as [|r rs IH]; intros [|d ds]; simpl;
      try reflexivity.
    now rewrite IH.
Qed.

End ReportBuilder.

(** C3: the defect.  A longitude that is present and is not a number
    does not give a row with a null distance: [pd.notna] holds of the text
    'abc', [float()] raises [ValueError] inside the row function, and the
    handler of the function reports it.  The whole report is lost, the row
    of Station A with it, and no file is written. *)
Lemma create_data_report_bad_coordinate_fails :
  @pd_notna reference_platform (dict_get Samples.station_bad_lon "longitude")
  = Ret true /\
  files (@create_data_report reference_platform Samples.visualizer
           [Samples.station_a; Samples.station_bad_lon] "aqi_report.csv"
           Samples.empty_world).2 = ∅ /\
  stdout (@create_data_report reference_platform Samples.visualizer
            [Samples.station_a; Samples.station_bad_lon] "aqi_report.csv"
            Samples.empty_world).2
  = [MsgReportFailed ValueError].
Proof. repeat split; vm_compute; reflexivity. Qed.

(** X25 at three records, the second without coordinates: the distances
    are 5.15, null and 296.18. *)
Lemma create_data_report_distances_witness :
  exists (rep : report) (distances : list pyval),
    files (@create_data_report reference_platform Samples.visualizer
             [Samples.station_a; Samples.station_no_coords; Samples.station_b]
             "aqi_report.csv" Samples.empty_world).2
      !! "outputs/aqi_report.csv" = Some (CsvDoc rep) /\
    (@distance_of_row reference_platform
       (pd_DataFrame [Samples.station_a; Samples.station_no_coords; Samples.station_b]))
      <$> [Samples.station_a; Samples.station_no_coords; Samples.station_b]
    = [Ret (PFloat (F64.of_decimal 515 (-2))); Ret PNone;
       Ret (PFloat (F64.of_decimal 29618 (-2)))] /\
    Forall2 (fun row v =>
               @distance_of_row reference_platform
                 (pd_DataFrame
                    [Samples.station_a; Samples.station_no_coords; Samples.station_b])
                 row = Ret v)
      [Samples.station_a; Samples.station_no_coords; Samples.station_b] distances /\
    report_rows rep
    ≡ₚ zip_with (output_row (report_columns rep))
         [Samples.station_a; Samples.station_no_coords; Samples.station_b] distances.
Proof.
  eexists.
  assert (Hrep :
    files (@create_data_report reference_platform Samples.visualizer
             [Samples.station_a; Samples.station_no_coords; Samples.station_b]
             "aqi_report.csv" Samples.empty_world).2
      !! "outputs/aqi_report.csv" = Some (CsvDoc ?[rep]))
    by (vm_compute; reflexivity).
  destruct (proj2 (proj2 (proj2 (@create_data_report_distances reference_platform
              Samples.visualizer
              [Samples.station_a; Samples.station_no_coords; Samples.station_b]
              "aqi_report.csv" Samples.empty_world))) _ eq_refl Hrep)
    as (distances & Hrows & Hperm).
  exists distances. split; [exact Hrep|]. split; [vm_compute; reflexivity|].
  split; [exact Hrows | exact Hperm].
Defined.

(** C6 at the same records in another order: the report lists 5.15,
    296.18 and the row without a distance, in this order. *)
Lemma create_data_report_sorted_witness :
  exists rep : report,
    files (@create_data_report reference_platform Samples.visualizer
             [Samples.station_b; Samples.station_no_coords; Samples.station_a]
             "aqi_report.csv" Samples.empty_world).2
      !! "outputs/aqi_report.csv" = Some (CsvDoc rep) /\
    row_distance <$> report_rows rep
    = [Some (F64.of_decimal 515 (-2)); Some (F64.of_decimal 29618 (-2)); None] /\
    rows_sorted_nulls_last (report_rows rep).
Proof.
  eexists. split; [vm_compute; reflexivity|]. split; [vm_compute; reflexivity|].
  apply (@create_data_report_sorted reference_platform Samples.visualizer
           [Samples.station_b; Samples.station_no_coords; Samples.station_a]
           "aqi_report.csv" Samples.empty_world);
    vm_compute; reflexivity.
Defined.

(** ** StationDataSource *)

Section Fetch.

Lemma fetch_body_files self limit net w :
  files (fetch_body self limit net w).2 = files w /\
  dirs (fetch_body self limit net w).2 = dirs w.
Proof.
  unfold fetch_body.
  destruct (_ ≫= _) as [data|e]; [|split; reflexivity].
  destruct data as [| | | | |l|d]; try (split; reflexivity).
  destruct (truthy (dict_get d "success")); [|split; reflexivity].
  destruct (py_len _); split; reflexivity.
Qed.

Lemma fetch_aqi_data_files self limit net w :
  files (fetch_aqi_data self limit net w).2 = files w /\
  dirs (fetch_aqi_data self limit net w).2 = dirs w.
Proof.
  unfold fetch_aqi_data.
  pose proof (fetch_body_files self limit net (print MsgFetching w)) as [Hf Hd].
  destruct (fetch_body self limit net (print MsgFetching w)) as [[r|e] w1];
    simpl in *; [now split|].
  destruct e; simpl; now split.
Qed.




End Fetch.

(** C5: the code breaks the claim.  On the answer
    [{"success": true, "records": null}] the call [len(records)] raises
    [TypeError] inside the [try], no handler catches it, and
    [fetch_aqi_data] raises to its caller. *)
Lemma fetch_aqi_data_raises_on_null_records :
  fetch_aqi_data Samples.fetcher 1000 (Samples.answers Samples.null_records_envelope)
    Samples.empty_world
  = (Raise TypeError, print MsgFetching Samples.empty_world).
Proof. vm_compute. reflexivity. Qed.

(** The envelope [{"success": false, "message": "x"}] yields "no data". *)
Example fetch_aqi_data_failure_envelope :
  fetch_aqi_data Samples.fetcher 1000 (Samples.answers Samples.failure_envelope)
    Samples.empty_world
  = (Ret None,
     print (MsgApiError (PStr "x")) (print MsgFetching Samples.empty_world)).
Proof. vm_compute. reflexivity. Qed.

(** ** Pipeline *)

Section Main.

Context `{Platform}.

(** C10: when the fetch succeeds with an empty list, [main] ends the run
    exactly as when the fetch fails: it prints that no data could be
    obtained and returns, and no file or directory is made. *)
Theorem main_empty_list_ends_run key net w w1 fetched :
  key <> "" ->
  fetch_aqi_data {| api_key := key |} 1000 net (banner w) = (Ret fetched, w1) ->
  fetched = Some (PList []) \/ fetched = None ->
  main (Some key) net w = (Ret tt, print MsgNoData w1) /\
  files (print MsgNoData w1) = files w /\
  dirs (print MsgNoData w1) = dirs w.
Proof.
  intros Hkey Hfetch Hempty.
  pose proof (fetch_aqi_data_files {| api_key := key |} 1000 net (banner w)) as [Hf Hd].
  rewrite Hfetch in Hf, Hd. simpl in Hf, Hd.
  split; [|split; assumption].
  unfold main. fold (banner w).
  destruct key as [|c key]; [done|].
  rewrite Hfetch. destruct Hempty as [-> | ->]; reflexivity.
Qed.

End Main.

(** C10 at a server that answers with the empty list. *)
Lemma main_empty_list_ends_run_witness :
  exists w1,
    fetch_aqi_data {| api_key := "secret" |} 1000 (Samples.answers (PList []))
      (banner Samples.empty_world)
    = (Ret (Some (PList [])), w1) /\
    @main reference_platform (Some "secret") (Samples.answers (PList []))
      Samples.empty_world
    = (Ret tt, print MsgNoData w1) /\
    files (print MsgNoData w1) = ∅ /\
    dirs (print MsgNoData w1) = ∅.
Proof.
  eexists. split; [vm_compute; reflexivity|].
  apply (@main_empty_list_ends_run reference_platform "secret"
           (Samples.answers (PList [])) Samples.empty_world _ (Some (PList []))).
  - discriminate.
  - vm_compute. reflexivity.
  - now left.
Defined.

(** ** Further properties *)


Section Further.

Context `{Platform}.


(** X4: [get_aqi_level] raises in one case only: the value is an
    integer too large for a float, and the exception is the
    [OverflowError] of [float()]. *)
Theorem get_aqi_level_raises_only_overflow (v : pyval) (e : exn) :
  get_aqi_level v = Raise e ->
  e = OverflowError /\ exists z : Z, v = PInt z /\ F64.is_inf (F64.of_Z z) = true.
Proof.
  unfold get_aqi_level.
  destruct (truthy v); [|discriminate].
  destruct v as [|b|z|f|s|l|d]; simpl; try discriminate.
  - destruct (F64.is_inf (F64.of_Z z)) eqn:Hinf; [|discriminate].
    simpl. intros [= <-]. eauto.
  - destruct (float_of_str s); discriminate.
Qed.

End Further.

(** X4 at the integer 10 ^ 400. *)
Lemma get_aqi_level_raises_only_overflow_witness :
  @get_aqi_level reference_platform (PInt (10 ^ 400)) = Raise OverflowError /\
  exists z : Z, PInt (10 ^ 400) = PInt z /\ F64.is_inf (F64.of_Z z) = true.
Proof.
  assert (Hraise : @get_aqi_level reference_platform (PInt (10 ^ 400))
                   = Raise OverflowError) by (vm_compute; reflexivity).
  split; [exact Hraise|].
  exact (proj2 (@get_aqi_level_raises_only_overflow reference_platform
                  (PInt (10 ^ 400)) OverflowError Hraise)).
Defined.

(** The end-to-end scenario of the specification, on the reference
    platform: Station A (index 42) and Station B (index 120) give a map
    with two markers, A green and B red, and a report of two rows, A
    (5.15 km) before B (296.18 km). *)
Example end_to_end_scenario :
  (Samples.scenario_run).1 = Ret tt /\
  (fun mk => (popup_site_name (marker_popup mk), marker_color mk))
    <$> Samples.markers_written (Samples.scenario_run).2 "outputs/aqi_map.html"
  = [(PStr "Station B", "#ff4444"); (PStr "Station A", "#2ecc71")] /\
  (fun row => (row !! "sitename", row !! distance_column))
    <$> Samples.rows_written (Samples.scenario_run).2 "outputs/aqi_report.csv"
  = [(Some (PStr "Station A"), Some (PFloat (F64.of_decimal 515 (-2))));
     (Some (PStr "Station B"), Some (PFloat (F64.of_decimal 29618 (-2))))].
Proof. repeat split; vm_compute; reflexivity. Qed.

(** ** More of the classifier *)

Section ClassifierMore.

Context `{Platform}.

Lemma first_band_in_tiers (v : pynum) :
  default level_hazardous (first_band AQI_LEVELS v) ∈ all_tiers.
Proof.
  unfold AQI_LEVELS, all_tiers. cbn [first_band].
  repeat match goal with
         | |- context [if ?b then _ else _] => destruct b
         end; cbn [default from_option]; unfold id;
    repeat first [apply list_elem_of_here | apply list_elem_of_further].
Qed.

Lemma get_aqi_level_in_tiers (v : pyval) (tier : string * string) :
  get_aqi_level v = Ret tier -> tier ∈ all_tiers.
Proof.
  unfold get_aqi_level.
  destruct (truthy v).
  - destruct (py_float v) as [f|e]; cbn [fmap outcome_fmap].
    + intros Heq.
      replace tier with (default level_hazardous (first_band AQI_LEVELS (NFloat f)))
        by congruence.
      apply first_band_in_tiers.
    + destruct e; intros [= <-]; unfold all_tiers;
        repeat first [apply list_elem_of_here | apply list_elem_of_further].
  - intros Heq.
    replace tier with (default level_hazardous (first_band AQI_LEVELS (NInt 0)))
      by congruence.
    apply first_band_in_tiers.
Qed.


(** X5: [get_aqi_level] classifies a value by the float [float()] makes
    of it: whenever the value converts, and is truthy or converts to
    zero, its tier is the tier of that float.  An integer, a numeric
    string and the float they denote are classified alike. *)
Theorem get_aqi_level_through_float (v : pyval) (f : pyfloat) :
  py_float v = Ret f ->
  truthy v = true \/ F64.is_zero f = true ->
  get_aqi_level v = get_aqi_level (PFloat f).
Proof.
  intros Hf Hz. unfold get_aqi_level. rewrite Hf.
  change (truthy (PFloat f)) with (negb (F64.is_zero f)).
  change (py_float (PFloat f)) with (Ret f : outcome pyfloat).
  destruct (truthy v) eqn:Hv, (F64.is_zero f) eqn:Hzero; simpl; try reflexivity.
  - destruct f; try discriminate. reflexivity.
  - destruct Hz; discriminate.
Qed.

End ClassifierMore.

(** X5 at the string '42' and at the integer 42. *)
Lemma get_aqi_level_through_float_witness :
  @py_float reference_platform (PStr "42") = Ret (F64.of_Z 42) /\
  @get_aqi_level reference_platform (PStr "42")
  = @get_aqi_level reference_platform (PFloat (F64.of_Z 42)) /\
  @get_aqi_level reference_platform (PInt 42)
  = @get_aqi_level reference_platform (PFloat (F64.of_Z 42)).
Proof.
  split; [vm_compute; reflexivity|]. split.
  - apply (@get_aqi_level_through_float reference_platform (PStr "42"));
      [vm_compute; reflexivity | now left].
  - apply (@get_aqi_level_through_float reference_platform (PInt 42));
      [vm_compute; reflexivity | now left].
Defined.

(** ** More of the map renderer *)

Section MapRendererMore.

Context `{Platform}.

Lemma add_markers_Ret rs placed w ms w1 :
  add_markers rs placed w = (Ret ms, w1) ->
  ms = placed ++ omap marker_of rs /\
  stdout w1 = stdout w ++ omap skip_message rs /\
  files w1 = files w /\ dirs w1 = dirs w.
Proof.
  revert placed w. induction rs as [|r rs IH]; intros placed w; simpl.
  - intros [= <- <-]. now rewrite !app_nil_r.
  - unfold marker_of, skip_message.
    destruct (make_marker r) as [mk|e].
    + intros Hrun. destruct (IH _ _ Hrun) as (-> & -> & -> & ->).
      now rewrite <- app_assoc.
    + destruct e; try discriminate; intros Hrun;
        destruct (IH _ _ Hrun) as (-> & -> & -> & ->); simpl;
        now rewrite <- app_assoc.
Qed.


(** The world [create_map] leaves when it returns a path. *)
Lemma create_map_Some self records out w path w' :
  create_map self records out w = (Ret (Some path), w') ->
  path = path_join (output_dir self) out /\
  w' = {| stdout := stdout w
                    ++ MsgCreatingMap (length (List.filter is_valid_record records))
                       :: omap skip_message (List.filter is_valid_record records)
                    ++ [MsgMapSaved path];
          files := <[path := MapDoc (folium_Map
                      (omap marker_of (List.filter is_valid_record records)))]> (files w);
          dirs := dirs w |}.
Proof.
  unfold create_map.
  destruct (List.filter is_valid_record records) as [|v vs] eqn:Hf; [discriminate|].
  set (w1 := print _ w).
  destruct (add_markers (v :: vs) [] w1) as [[placed|e] w2] eqn:Ha; [|discriminate].
  apply add_markers_Ret in Ha as (-> & Hout & Hfiles & Hdirs).
  intros [= <- <-]. split; [reflexivity|].
  unfold print, write_file. cbn [stdout files dirs]. rewrite Hout, Hfiles, Hdirs.
  cbn [stdout files dirs w1 print app]. now rewrite <- !app_assoc.
Qed.

Lemma create_map_None self records out w w' :
  create_map self records out w = (Ret None, w') ->
  List.filter is_valid_record records = [] /\ w' = print MsgNoValidRecords w.
Proof.
  unfold create_map.
  destruct (List.filter is_valid_record records) as [|v vs]; [now intros [= <-]|].
  destruct (add_markers _ _ _) as [[placed|e] w2]; discriminate.
Qed.


Lemma filter_nil_Forall (records : list record) :
  List.filter is_valid_record records = [] <->
  Forall (fun r => is_valid_record r = false) records.
Proof.
  induction records as [|r rs IH]; simpl.
  - split; [constructor|done].
  - destruct (is_valid_record r) eqn:Hr.
    + split; [discriminate|]. inversion 1; congruence.
    + rewrite IH. split; [now constructor|now inversion 1].
Qed.

(** X6: [create_map] returns [None] exactly when no record passes the
    validity filter; it then prints one line and writes nothing. *)
Theorem create_map_none_iff self records out w :
  ((create_map self records out w).1 = Ret None <->
   Forall (fun r => is_valid_record r = false) records) /\
  ((create_map self records out w).1 = Ret None ->
   (create_map self records out w).2 = print MsgNoValidRecords w).
Proof.
  rewrite <- filter_nil_Forall.
  destruct (create_map self records out w) as [res w'] eqn:Hrun. cbn [fst snd].
  split; [split|].
  - intros ->. now apply create_map_None in Hrun.
  - intros Hnil. revert Hrun. unfold create_map. rewrite Hnil. now intros [= <- _].
  - intros ->. now apply create_map_None in Hrun.
Qed.

(** X7: when [create_map] returns a path, the path is
    [output_dir/output_file]; the document written there is the fixed
    frame (centre (23.5, 121), zoom 7, OpenStreetMap, legend) holding, in
    the order of the input, one marker for each valid record whose marker
    can be built; and the lines printed are the count of valid records,
    one line for each record skipped, and the path. *)
Theorem create_map_document self records out w path w' :
  create_map self records out w = (Ret (Some path), w') ->
  let valid_records := List.filter is_valid_record records in
  path = path_join (output_dir self) out /\
  files w' = <[path := MapDoc (folium_Map (omap marker_of valid_records))]> (files w) /\
  stdout w' = stdout w ++ MsgCreatingMap (length valid_records)
                :: omap skip_message valid_records ++ [MsgMapSaved path] /\
  dirs w' = dirs w.
Proof.
  intros Hrun valid_records. destruct (create_map_Some _ _ _ _ _ _ Hrun) as [Hpath ->].
  done.
Qed.

Lemma make_marker_Ret r mk :
  make_marker r = Ret mk ->
  exists lat_v lon_v level,
    r !! "latitude" = Some lat_v /\ r !! "longitude" = Some lon_v /\
    py_float lat_v = Ret (marker_location mk).1 /\
    py_float lon_v = Ret (marker_location mk).2 /\
    get_aqi_level (dict_get_default r "aqi" (PStr "N/A")) = Ret (level, marker_color mk) /\
    marker_fillColor mk = marker_color mk /\
    popup_color (marker_popup mk) = marker_color mk /\
    popup_level (marker_popup mk) = level /\
    popup_aqi (marker_popup mk) = dict_get_default r "aqi" (PStr "N/A") /\
    popup_site_name (marker_popup mk) = dict_get_default r "sitename" (PStr "未知測站").
Proof.
  unfold make_marker, dict_getitem.
  destruct (r !! "latitude") as [lat_v|] eqn:Hlat; [|discriminate].
  cbn [mbind outcome_bind].
  destruct (py_float lat_v) as [lat|e] eqn:Hflat; [|discriminate].
  cbn [mbind outcome_bind].
  destruct (r !! "longitude") as [lon_v|] eqn:Hlon; [|discriminate].
  cbn [mbind outcome_bind].
  destruct (py_float lon_v) as [lon|e] eqn:Hflon; [|discriminate].
  cbn [mbind outcome_bind].
  destruct (get_aqi_level _) as [[level color]|e] eqn:Haqi; [|discriminate].
  cbn [mbind outcome_bind].
  destruct (folium_validate_location lat lon) as [[]|e]; [|discriminate].
  cbn [mbind outcome_bind].
  intros [= <-]. exists lat_v, lon_v, level. cbn. done.
Qed.

(** X8: every marker of a map [create_map] writes comes from a record
    of the input: it stands at the floats of the record's latitude and
    longitude, its panel names the record's station and shows the
    record's index ('N/A' when the record has none), and its colour, its
    fill colour and the colour and label of the panel are those of the
    tier [get_aqi_level] gives that index, one of the five tiers. *)
Theorem create_map_marker_provenance self records out w path w' :
  create_map self records out w = (Ret (Some path), w') ->
  exists m : folium_map,
    files w' !! path = Some (MapDoc m) /\
    forall mk, mk ∈ map_markers m ->
      exists r lat_v lon_v level,
        r ∈ records /\
        r !! "latitude" = Some lat_v /\ r !! "longitude" = Some lon_v /\
        py_float lat_v = Ret (marker_location mk).1 /\
        py_float lon_v = Ret (marker_location mk).2 /\
        r !! "sitename" = Some (popup_site_name (marker_popup mk)) /\
        popup_aqi (marker_popup mk) = dict_get_default r "aqi" (PStr "N/A") /\
        get_aqi_level (popup_aqi (marker_popup mk)) = Ret (level, marker_color mk) /\
        (level, marker_color mk) ∈ all_tiers /\
        popup_level (marker_popup mk) = level /\
        popup_color (marker_popup mk) = marker_color mk /\
        marker_fillColor mk = marker_color mk.
Proof.
  intros Hrun. destruct (create_map_Some _ _ _ _ _ _ Hrun) as (_ & ->).
  eexists. split; [apply lookup_insert_eq|].
  intros mk Hmk. cbn [map_markers folium_Map] in Hmk.
  apply list_elem_of_omap in Hmk as (r & Hin & Hmk).
  apply list_elem_of_In, List.filter_In in Hin as [Hin Hvalid].
  unfold marker_of in Hmk. destruct (make_marker r) as [mk'|e] eqn:Hm; [|discriminate].
  injection Hmk as ->.
  destruct (make_marker_Ret r mk Hm)
    as (lat_v & lon_v & level & Hlat & Hlon & Hflat & Hflon & Haqi & Hfill & Hcol & Hlev
        & Hpaqi & Hsite).
  exists r, lat_v, lon_v, level. rewrite Hpaqi.
  repeat split; try done.
  - now apply list_elem_of_In.
  - rewrite Hsite. unfold is_valid_record, dict_get in Hvalid. unfold dict_get_default.
    destruct (r !! "sitename"); [done|]. simpl in Hvalid. now rewrite andb_false_r in Hvalid.
  - now apply get_aqi_level_in_tiers in Haqi.
Qed.






End MapRendererMore.


(** X7 at three records, the second with the longitude 'abc': the lines
    printed are the count 3, the record skipped and the path. *)
Lemma create_map_document_witness :
  exists w' : world,
    @create_map reference_platform Samples.visualizer
      [Samples.station_a; Samples.station_bad_lon; Samples.station_b]
      "aqi_map.html" Samples.empty_world
    = (Ret (Some "outputs/aqi_map.html"), w') /\
    stdout w'
    = [MsgCreatingMap 3; MsgSkipInvalid (PStr "Unknown") ValueError;
       MsgMapSaved "outputs/aqi_map.html"] /\
    dirs w' = ∅.
Proof.
  eexists. split; [vm_compute; reflexivity|].
  destruct (@create_map_document reference_platform Samples.visualizer
              [Samples.station_a; Samples.station_bad_lon; Samples.station_b]
              "aqi_map.html" Samples.empty_world "outputs/aqi_map.html" _
              ltac:(vm_compute; reflexivity)) as (_ & _ & Hout & Hdirs).
  split; [exact Hout | exact Hdirs].
Defined.

(** X8 at a station without an index: its marker is grey. *)
Lemma create_map_marker_provenance_witness :
  exists (w' : world) (m : folium_map),
    @create_map reference_platform Samples.visualizer [Samples.station_no_aqi]
      "aqi_map.html" Samples.empty_world
    = (Ret (Some "outputs/aqi_map.html"), w') /\
    files w' !! "outputs/aqi_map.html" = Some (MapDoc m) /\
    (marker_color <$> map_markers m) = ["#95a5a6"] /\
    forall mk, mk ∈ map_markers m ->
      exists r lat_v lon_v level,
        r ∈ [Samples.station_no_aqi] /\
        r !! "latitude" = Some lat_v /\ r !! "longitude" = Some lon_v /\
        @py_float reference_platform lat_v = Ret (marker_location mk).1 /\
        @py_float reference_platform lon_v = Ret (marker_location mk).2 /\
        r !! "sitename" = Some (popup_site_name (marker_popup mk)) /\
        popup_aqi (marker_popup mk) = dict_get_default r "aqi" (PStr "N/A") /\
        @get_aqi_level reference_platform (popup_aqi (marker_popup mk))
        = Ret (level, marker_color mk) /\
        (level, marker_color mk) ∈ all_tiers /\
        popup_level (marker_popup mk) = level /\
        popup_color (marker_popup mk) = marker_color mk /\
        marker_fillColor mk = marker_color mk.
Proof.
  eexists.
  destruct (@create_map_marker_provenance reference_platform Samples.visualizer
              [Samples.station_no_aqi] "aqi_map.html" Samples.empty_world
              "outputs/aqi_map.html" _ ltac:(vm_compute; reflexivity))
    as (m & Hm & Hmarkers).
  exists m. split; [vm_compute; reflexivity|]. split; [exact Hm|].
  split; [|exact Hmarkers].
  apply (f_equal (fun a => match a with
                           | Some (MapDoc d) => marker_color <$> map_markers d
                           | _ => []
                           end)) in Hm.
  vm_compute in Hm. symmetry. exact Hm.
Defined.


(** ** More of the report builder *)

Section ReportMore.

Context `{Platform}.

Lemma build_report_columns records rep :
  build_report records = Ret rep ->
  report_columns rep
  = List.filter
      (fun col =>
         bool_decide (col ∈ ({[distance_column]} ∪ ⋃ (dom <$> records) : gset string)))
      report_column_order.
Proof.
  unfold build_report. destruct (bool_decide _); [discriminate|].
  set (df := pd_DataFrame records).
  change (df_rows df) with records.
  destruct (df_apply (distance_of_row df) records) as [distances|e]; [|discriminate].
  cbn [mbind outcome_bind].
  set (df' := df_setitem df distance_column distances).
  set (available := List.filter _ report_column_order).
  set (sorted := sort_values _).
  intros Heq.
  replace rep with {| report_columns := available; report_rows := df_rows sorted |}
    by congruence.
  reflexivity.
Qed.

Lemma column_occurs (records : list record) (col : string) :
  col ∈ (⋃ (dom <$> records) : gset string) <->
  exists r, r ∈ records /\ is_Some (r !! col).
Proof.
  rewrite elem_of_union_list. split.
  - intros (X & HX & Hcol). apply list_elem_of_fmap in HX as (r & -> & Hr).
    exists r. split; [done|]. now apply elem_of_dom.
  - intros (r & Hr & Hcol). exists (dom r). split.
    + apply list_elem_of_fmap. eauto.
    + now apply elem_of_dom.
Qed.

(** The rows of the report: the records, each with its distance, cut
    down to the header and sorted. *)
Lemma build_report_rows records rep :
  build_report records = Ret rep ->
  exists distances,
    Forall2 (fun row v => distance_of_row (pd_DataFrame records) row = Ret v)
      records distances /\
    report_rows rep
    = df_rows (sort_values
        {| df_columns := list_to_set (report_columns rep);
           df_rows := zip_with (output_row (report_columns rep)) records distances |}).
Proof.
  intros Hb. destruct (build_report_Ret _ _ Hb) as (distances & Happly & Hrows).
  exists distances. split; [now apply df_apply_Ret|].
  rewrite Hrows. unfold df_select, df_setitem.
  cbn [df_rows df_columns pd_DataFrame].
  assert (Hzip : forall columns (rs : list record) (ds : list pyval),
    ((fun row : record => filter (fun kv => kv.1 ∈ columns) row)
       <$> zip_with (fun row v => <[distance_column := v]> row) rs ds)
    = zip_with (output_row columns) rs ds).
  { clear. intros columns rs. induction rs as [|r rs IH]; intros [|d ds];
      cbn [zip_with fmap list_fmap]; try reflexivity.
    f_equal. apply IH. }
  now rewrite Hzip.
Qed.

Lemma filter_sublist {A} (f : A -> bool) (l : list A) : List.filter f l `sublist_of` l.
Proof.
  induction l as [|a l IH]; simpl; [constructor|].
  destruct (f a); now constructor.
Qed.

Lemma distance_column_listed : distance_column ∈ report_column_order.
Proof.
  unfold report_column_order.
  repeat first [apply list_elem_of_here | apply list_elem_of_further].
Qed.

Lemma zip_with_elem {A B C} (f : A -> B -> C) (l : list A) (k : list B) (c : C) :
  c ∈ zip_with f l k ->
  exists i a b, l !! i = Some a /\ k !! i = Some b /\ c = f a b.
Proof.
  intros Hc. apply list_elem_of_lookup in Hc as [i Hi].
  apply lookup_zip_with_Some in Hi as (a & b & -> & Ha & Hb). eauto 6.
Qed.

(** X10: the header of a report [create_data_report] writes is the
    fixed column order cut down to the distance column and the keys that
    occur in some record; every row has an entry for the distance column,
    and no row has an entry outside the header. *)
Theorem create_data_report_header self records out w rep :
  files w !! path_join (output_dir self) out = None ->
  files (create_data_report self records out w).2 !! path_join (output_dir self) out
  = Some (CsvDoc rep) ->
  report_columns rep `sublist_of` report_column_order /\
  (forall col, col ∈ report_columns rep <->
     col ∈ report_column_order /\
     (col = distance_column \/ exists r, r ∈ records /\ is_Some (r !! col))) /\
  (forall row, row ∈ report_rows rep ->
     is_Some (row !! distance_column) /\
     forall key, is_Some (row !! key) -> key ∈ report_columns rep).
Proof.
  intros Hfresh Hrep.
  pose proof (create_data_report_written _ _ _ _ _ Hfresh Hrep) as Hb.
  pose proof (build_report_columns _ _ Hb) as Hcols.
  assert (Hchar : forall col, col ∈ report_columns rep <->
     col ∈ report_column_order /\
     (col = distance_column \/ exists r, r ∈ records /\ is_Some (r !! col))).
  { intros col. rewrite Hcols, list_elem_of_In, List.filter_In, <- list_elem_of_In.
    rewrite bool_decide_eq_true, elem_of_union, elem_of_singleton, column_occurs. done. }
  split; [rewrite Hcols; apply filter_sublist|]. split; [exact Hchar|].
  intros row Hrow.
  destruct (build_report_rows _ _ Hb) as (distances & _ & Hrows).
  rewrite Hrows in Hrow.
  assert (Hin : row ∈ zip_with (output_row (report_columns rep)) records distances).
  { eapply elem_of_Permutation_proper; [|exact Hrow].
    symmetry. apply (sort_values_perm {| df_columns := _; df_rows := _ |}). }
  apply zip_with_elem in Hin as (i & r & v & _ & _ & ->).
  unfold output_row. split.
  - exists v. apply map_lookup_filter_Some. split; [apply lookup_insert_eq|].
    cbn. apply Hchar. split; [apply distance_column_listed | now left].
  - intros key [x Hx]. apply map_lookup_filter_Some in Hx as [_ Hx]. exact Hx.
Qed.

Lemma no_columns_iff (records : list record) :
  df_columns (pd_DataFrame records) = ∅ <-> Forall (fun r : record => r = ∅) records.
Proof.
  cbn [df_columns pd_DataFrame]. rewrite empty_union_list_L, Forall_fmap.
  apply Forall_iff. intros r. unfold compose. apply dom_empty_iff_L.
Qed.

Lemma build_report_no_latitude records :
  df_columns (pd_DataFrame records) <> ∅ ->
  (forall r, r ∈ records -> r !! "latitude" = None) ->
  build_report records = Raise KeyError.
Proof.
  intros Hcols Hnone.
  assert (Hne : records <> []) by (intros ->; now apply Hcols).
  rewrite build_report_frame by assumption.
  destruct records as [|r rs]; [done|].
  set (df := pd_DataFrame (r :: rs)).
  assert (Hrow : distance_of_row df r = Raise KeyError).
  { unfold distance_of_row, both_notna, row_getitem.
    rewrite (bool_decide_eq_false_2 ("latitude" ∈ df_columns df)); [reflexivity|].
    subst df. cbn [df_columns pd_DataFrame]. rewrite column_occurs.
    intros (r' & Hr' & [x Hx]). rewrite (Hnone r' Hr') in Hx. discriminate. }
  cbn zeta. cbn [df_apply]. rewrite Hrow. reflexivity.
Qed.

(** X11: when no record has the key 'latitude' (an answer that spells
    its keys otherwise, say), [create_data_report] makes no report: the
    failure is printed and no file is written.  Where some record has a
    key, the row function runs and [row['latitude']] raises [KeyError] on
    the first row; where no record has any key (and on the empty list) the
    frame has no columns, the row function is not run, and the assignment
    of the column raises [ValueError]. *)
Theorem create_data_report_needs_latitude self records out w :
  (forall r, r ∈ records -> r !! "latitude" = None) ->
  exists e,
    create_data_report self records out w = (Ret tt, print (MsgReportFailed e) w) /\
    ((exists r : record, r ∈ records /\ r <> ∅) -> e = KeyError) /\
    (Forall (fun r : record => r = ∅) records -> e = ValueError).
Proof.
  intros Hnone. unfold create_data_report.
  destruct (decide (df_columns (pd_DataFrame records) = ∅)) as [Hcols|Hcols].
  - exists ValueError. rewrite build_report_empty_frame by now right.
    split; [reflexivity|]. split; [|reflexivity].
    intros (r & Hin & Hr). apply no_columns_iff in Hcols.
    rewrite Forall_forall in Hcols. now destruct (Hr (Hcols r Hin)).
  - exists KeyError. rewrite (build_report_no_latitude records Hcols Hnone).
    split; [reflexivity|]. split; [reflexivity|].
    intros Hall. now apply no_columns_iff in Hall.
Qed.



Lemma first_row_item_Ret rep key v :
  first_row_item rep key = Ret v ->
  exists row rest,
    report_rows rep = row :: rest /\ key ∈ report_columns rep /\
    v = default (PFloat F64.nan) (row !! key).
Proof.
  unfold first_row_item. destruct (report_rows rep) as [|row rest]; [discriminate|].
  destruct (bool_decide (key ∈ report_columns rep)) eqn:Hk; [|discriminate].
  apply bool_decide_eq_true in Hk. intros [= <-]. eauto.
Qed.

Lemma output_row_distance columns r v :
  distance_column ∈ columns ->
  output_row columns r v !! distance_column = Some v.
Proof.
  intros Hc. unfold output_row. apply map_lookup_filter_Some.
  split; [apply lookup_insert_eq | exact Hc].
Qed.

Lemma output_row_other columns r v key :
  key ∈ columns -> key <> distance_column ->
  output_row columns r v !! key = r !! key.
Proof.
  intros Hc Hne. unfold output_row, record in *.
  destruct (r !! key) as [x|] eqn:Hx.
  - apply map_lookup_filter_Some. split; [|exact Hc].
    now rewrite lookup_insert_ne.
  - apply map_lookup_filter_None. left. now rewrite lookup_insert_ne.
Qed.

Lemma row_distance_Some row d :
  row_distance row = Some d <->
  row !! distance_column = Some (PFloat d) /\ F64.is_nan d = false.
Proof.
  unfold row_distance. split.
  - destruct (row !! distance_column) as [[]|]; try discriminate.
    destruct (F64.is_nan f) eqn:E; [discriminate|]. now intros [= <-].
  - intros [-> ->]. reflexivity.
Qed.

(** X13: when [create_data_report] prints its summary line, the station
    and the distance it names are those of one record of the input, and
    that distance is the least: no record has a smaller distance. *)
Theorem create_data_report_nearest self records out w site dist :
  stdout (create_data_report self records out w).2
  = stdout w ++ [MsgReportSaved (path_join (output_dir self) out); MsgNearest site dist] ->
  exists r,
    r ∈ records /\
    site = default (PFloat F64.nan) (r !! "sitename") /\
    distance_of_row (pd_DataFrame records) r = Ret dist /\
    forall r' d',
      r' ∈ records ->
      distance_of_row (pd_DataFrame records) r' = Ret (PFloat d') ->
      F64.is_nan d' = false ->
      exists d, dist = PFloat d /\ F64.leb d d' = true.
Proof.
  unfold create_data_report.
  destruct (build_report records) as [rep|e] eqn:Hb.
  2:{ cbn. intros Heq. apply app_inv_head in Heq. discriminate. }
  destruct (first_row_item rep "sitename") as [site'|e] eqn:Hsite; cbn [mbind outcome_bind].
  2:{ cbn. rewrite <- app_assoc. intros Heq. apply app_inv_head in Heq. discriminate. }
  destruct (first_row_item rep distance_column) as [dist'|e] eqn:Hdist;
    cbn [mbind outcome_bind].
  2:{ cbn. rewrite <- app_assoc. intros Heq. apply app_inv_head in Heq. discriminate. }
  cbn. rewrite <- app_assoc. intros Heq. apply app_inv_head in Heq.
  injection Heq as -> ->.
  apply first_row_item_Ret in Hsite as (row & rest & Hrows & Hsitecol & ->).
  apply first_row_item_Ret in Hdist as (row' & rest' & Hrows' & Hdistcol & ->).
  rewrite Hrows in Hrows'. injection Hrows' as <- <-.
  destruct (build_report_rows _ _ Hb) as (distances & Hd & Hsorted).
  set (cols := report_columns rep) in *.
  set (df := {| df_columns := list_to_set cols;
                df_rows := zip_with (output_row cols) records distances |}) in *.
  pose proof (sort_values_sorted df) as Hord.
  pose proof (sort_values_perm df) as Hperm.
  rewrite <- Hsorted in Hord, Hperm. cbn [df_rows df] in Hperm.
  assert (Hrow : row ∈ zip_with (output_row cols) records distances).
  { rewrite <- Hperm, Hrows. now left. }
  apply zip_with_elem in Hrow as (i & r & v & Hr & Hv & Hrowv).
  exists r. split; [eapply list_elem_of_lookup_2; exact Hr|].
  split; [rewrite Hrowv, output_row_other; done|].
  split.
  { rewrite Hrowv, output_row_distance by done. cbn [default].
    exact (Forall2_lookup_lr _ _ _ _ _ _ Hd Hr Hv). }
  intros r' d' Hr' Hd' Hnan.
  apply list_elem_of_lookup in Hr' as [i' Hi'].
  destruct (Forall2_lookup_l _ _ _ _ _ Hd Hi') as (v' & Hv' & Hdv').
  rewrite Hd' in Hdv'. injection Hdv' as <-.
  assert (Hin' : output_row cols r' (PFloat d') ∈ report_rows rep).
  { rewrite Hperm. apply list_elem_of_lookup. exists i'.
    apply lookup_zip_with_Some. eauto. }
  assert (Hdist' : row_distance (output_row cols r' (PFloat d')) = Some d').
  { apply row_distance_Some. split; [now apply output_row_distance|done]. }
  apply list_elem_of_lookup in Hin' as [j Hj].
  destruct j as [|j].
  - rewrite Hrows in Hj. injection Hj as Hj.
    exists d'. split.
    + rewrite Hj, output_row_distance by done. reflexivity.
    + destruct (F64Facts.leb_total d' d' Hnan Hnan); assumption.
  - assert (H0 : report_rows rep !! 0%nat = Some row) by now rewrite Hrows.
    specialize (Hord 0%nat (S j) _ _ ltac:(lia) H0 Hj).
    rewrite Hdist' in Hord.
    destruct (row_distance row) as [d0|] eqn:Hd0; [|done].
    exists d0. split; [|exact Hord].
    apply row_distance_Some in Hd0 as [-> _]. reflexivity.
Qed.

End ReportMore.

(** X10 at the two stations of the scenario: the header has the six
    columns that occur, in the fixed order. *)
Lemma create_data_report_header_witness :
  exists rep : report,
    files (@create_data_report reference_platform Samples.visualizer
             [Samples.station_b; Samples.station_a] "aqi_report.csv"
             Samples.empty_world).2
      !! "outputs/aqi_report.csv" = Some (CsvDoc rep) /\
    report_columns rep
    = ["sitename"; "county"; "aqi"; "latitude"; "longitude"; distance_column] /\
    report_columns rep `sublist_of` report_column_order.
Proof.
  eexists. split; [vm_compute; reflexivity|]. split; [vm_compute; reflexivity|].
  apply (@create_data_report_header reference_platform Samples.visualizer
           [Samples.station_b; Samples.station_a] "aqi_report.csv" Samples.empty_world);
    vm_compute; reflexivity.
Defined.

(** X11 at a record whose keys are spelt with capitals, and at a record
    without keys. *)
Lemma create_data_report_needs_latitude_witness :
  @create_data_report reference_platform Samples.visualizer [Samples.station_capitals]
    "aqi_report.csv" Samples.empty_world
  = (Ret tt, print (MsgReportFailed KeyError) Samples.empty_world) /\
  @create_data_report reference_platform Samples.visualizer [∅]
    "aqi_report.csv" Samples.empty_world
  = (Ret tt, print (MsgReportFailed ValueError) Samples.empty_world).
Proof.
  split.
  - destruct (@create_data_report_needs_latitude reference_platform Samples.visualizer
                [Samples.station_capitals] "aqi_report.csv" Samples.empty_world)
      as (e & Hrun & Hkey & _).
    + intros r Hr. apply list_elem_of_singleton in Hr as ->. vm_compute. reflexivity.
    + rewrite Hrun, Hkey; [reflexivity|].
      exists Samples.station_capitals. split; [apply list_elem_of_here|].
      intros Hempty. apply (f_equal (fun d : record => d !! "SiteName")) in Hempty.
      vm_compute in Hempty. discriminate.
  - destruct (@create_data_report_needs_latitude reference_platform Samples.visualizer
                [∅] "aqi_report.csv" Samples.empty_world)
      as (e & Hrun & _ & Hnone).
    + intros r Hr. apply list_elem_of_singleton in Hr as ->. reflexivity.
    + rewrite Hrun, Hnone; [reflexivity|]. now repeat constructor.
Defined.


(** X13 at Station B, a station without coordinates and Station A: the
    summary names Station A, at 5.15 km. *)
Lemma create_data_report_nearest_witness :
  stdout (@create_data_report reference_platform Samples.visualizer
            [Samples.station_b; Samples.station_no_coords; Samples.station_a]
            "aqi_report.csv" Samples.empty_world).2
  = [MsgReportSaved "outputs/aqi_report.csv";
     MsgNearest (PStr "Station A") (PFloat (F64.of_decimal 515 (-2)))] /\
  exists r,
    r ∈ [Samples.station_b; Samples.station_no_coords; Samples.station_a] /\
    PStr "Station A" = default (PFloat F64.nan) (r !! "sitename").
Proof.
  assert (Hout :
    stdout (@create_data_report reference_platform Samples.visualizer
              [Samples.station_b; Samples.station_no_coords; Samples.station_a]
              "aqi_report.csv" Samples.empty_world).2
    = [MsgReportSaved "outputs/aqi_report.csv";
       MsgNearest (PStr "Station A") (PFloat (F64.of_decimal 515 (-2)))])
    by (vm_compute; reflexivity).
  split; [exact Hout|].
  destruct (@create_data_report_nearest reference_platform Samples.visualizer
              [Samples.station_b; Samples.station_no_coords; Samples.station_a]
              "aqi_report.csv" Samples.empty_world _ _ Hout) as (r & Hr & Hsite & _).
  exists r. split; [exact Hr | exact Hsite].
Defined.

(** ** More of the data source *)

Section FetchMore.




End FetchMore.

(** [len] of a text counts code points, not bytes: the two characters of
    '危害' take six bytes. *)
Example py_len_code_points :
  py_len (PStr "危害") = Ret 2%nat /\ String.length "危害" = 6%nat /\
  py_len (PStr "N/A") = Ret 3%nat.
Proof. repeat split; reflexivity. Qed.

(** ** Paths *)

(** The paths of [main], and what [pathlib] makes of a trailing slash, an
    empty file name, a file name with a root, and repeated slashes. *)
Example path_join_pathlib :
  path_join (Path "outputs") "aqi_map.html" = "outputs/aqi_map.html" /\
  path_join (Path "outputs") "aqi_report.csv" = "outputs/aqi_report.csv" /\
  path_join (Path "outputs/") "aqi_map.html" = "outputs/aqi_map.html" /\
  path_join (Path "outputs") EmptyString = "outputs" /\
  path_join (Path "outputs") "/tmp/aqi_map.html" = "/tmp/aqi_map.html" /\
  path_join (Path "outputs") "maps//aqi_map.html" = "outputs/maps/aqi_map.html" /\
  Path EmptyString = ".".
Proof. repeat split; vm_compute; reflexivity. Qed.

(** ** More of the pipeline *)

Section MainMore.

Context `{Platform}.

Lemma extends_within_refl paths w : extends_within paths w w.
Proof. repeat split; done. Qed.

Lemma extends_within_trans paths w1 w2 w3 :
  extends_within paths w1 w2 -> extends_within paths w2 w3 -> extends_within paths w1 w3.
Proof.
  intros (Ho & Hd & Hf) (Ho' & Hd' & Hf'). split; [etrans; eassumption|].
  split; [congruence|]. intros p Hp. rewrite Hf', Hf; done.
Qed.

Lemma extends_within_mono paths paths' w w' :
  paths ⊆ paths' -> extends_within paths w w' -> extends_within paths' w w'.
Proof.
  intros Hsub (Ho & Hd & Hf). repeat split; try done.
  intros p Hp. apply Hf. intros Hin. apply Hp, Hsub, Hin.
Qed.

Lemma extends_within_nil paths w w' :
  extends_within [] w w' -> extends_within paths w w'.
Proof. apply extends_within_mono. intros p Hp. inversion Hp. Qed.

Lemma extends_within_l p q w w' :
  extends_within [p] w w' -> extends_within [p; q] w w'.
Proof.
  apply extends_within_mono. intros x Hx. apply list_elem_of_singleton in Hx as ->.
  now left.
Qed.

Lemma extends_within_r p q w w' :
  extends_within [q] w w' -> extends_within [p; q] w w'.
Proof.
  apply extends_within_mono. intros x Hx. apply list_elem_of_singleton in Hx as ->.
  right. now left.
Qed.

Lemma not_elem_of_pair (p a b : string) : p <> a -> p <> b -> p ∉ [a; b].
Proof.
  intros Ha Hb Hin. apply elem_of_cons in Hin as [->|Hin]; [done|].
  apply list_elem_of_singleton in Hin as ->. done.
Qed.

Lemma print_extends paths m w : extends_within paths w (print m w).
Proof. repeat split; try done. cbn. now apply prefix_app_r. Qed.

Lemma write_file_extends path a w : extends_within [path] w (write_file path a w).
Proof.
  repeat split; try done. intros p Hp. cbn.
  apply lookup_insert_ne. intros ->. apply Hp. now left.
Qed.

Lemma add_markers_extends rs placed w :
  extends_within [] w (add_markers rs placed w).2.
Proof.
  revert placed w. induction rs as [|r rs IH]; intros placed w; cbn [add_markers].
  - apply extends_within_refl.
  - destruct (make_marker r) as [mk|e]; [apply IH|].
    destruct e; try apply extends_within_refl;
      (eapply extends_within_trans; [apply print_extends | apply IH]).
Qed.

Lemma create_map_extends self records out w :
  extends_within [path_join (output_dir self) out] w (create_map self records out w).2.
Proof.
  unfold create_map.
  destruct (List.filter is_valid_record records) as [|v vs]; [apply print_extends|].
  set (w1 := print _ w).
  pose proof (add_markers_extends (v :: vs) [] w1) as Hadd.
  destruct (add_markers (v :: vs) [] w1) as [[placed|e] w2]; cbn [snd] in *.
  - eapply extends_within_trans; [apply print_extends|].
    eapply extends_within_trans; [apply extends_within_nil; exact Hadd|].
    eapply extends_within_trans; [apply write_file_extends | apply print_extends].
  - eapply extends_within_trans; [apply print_extends|].
    apply extends_within_nil. exact Hadd.
Qed.

Lemma create_data_report_extends self records out w :
  extends_within [path_join (output_dir self) out] w
    (create_data_report self records out w).2.
Proof.
  unfold create_data_report.
  destruct (build_report records) as [rep|e]; [|apply print_extends].
  assert (Hw : extends_within [path_join (output_dir self) out] w
                 (print (MsgReportSaved (path_join (output_dir self) out))
                    (write_file (path_join (output_dir self) out) (CsvDoc rep) w))).
  { eapply extends_within_trans; [apply write_file_extends | apply print_extends]. }
  destruct (_ ≫= _) as [[site dist]|e]; cbn [snd];
    (eapply extends_within_trans; [exact Hw | apply print_extends]).
Qed.

Lemma fetch_aqi_data_extends self limit net w :
  extends_within [] w (fetch_aqi_data self limit net w).2.
Proof.
  pose proof (fetch_aqi_data_files self limit net w) as [Hf Hd].
  split; [|split; [exact Hd | intros p _; now rewrite Hf]].
  unfold fetch_aqi_data, fetch_body.
  assert (Hp : forall l, stdout w `prefix_of` stdout w ++ l) by (intros; now apply prefix_app_r).
  destruct (_ ≫= _) as [data|e].
  2:{ destruct e; cbn; rewrite <- ?app_assoc; apply Hp. }
  destruct data as [| | | | |l|d]; cbn; rewrite <- ?app_assoc; try apply Hp.
  destruct (truthy (dict_get d "success")); cbn; rewrite <- ?app_assoc; try apply Hp.
  destruct (py_len _) as [n|e]; [|destruct e]; cbn; rewrite <- ?app_assoc; apply Hp.
Qed.

(** The constructor at outputs: it raises when outputs is a regular
    file, and otherwise leaves a world in which outputs is a directory. *)
Lemma AQIMapVisualizer_init_outputs w :
  match AQIMapVisualizer_init "outputs" w with
  | (Ret vis, w') =>
      vis = {| output_dir := "outputs" |} /\
      ("outputs" ∈ dirs w \/ files w !! "outputs" = None) /\
      stdout w' = stdout w /\ files w' = files w /\ dirs w' = {["outputs"]} ∪ dirs w
  | (Raise e, w') =>
      e = FileExistsError /\ w' = w /\
      ~ "outputs" ∈ dirs w /\ is_Some (files w !! "outputs")
  end.
Proof.
  unfold AQIMapVisualizer_init, Path_mkdir.
  change (Path "outputs") with "outputs".
  change (path_ancestors "outputs") with (@nil string). cbn [walk].
  unfold is_dir, is_file. change (path_parts "outputs") with ["outputs"].
  rewrite (bool_decide_eq_false_2 (["outputs"] = [])) by discriminate.
  rewrite orb_false_r.
  destruct (bool_decide_reflect ("outputs" ∈ dirs w)) as [Hdir|Hdir].
  - split; [reflexivity|]. split; [now left|]. repeat split.
    symmetry. apply subseteq_union_1_L. now apply singleton_subseteq_l.
  - destruct (bool_decide_reflect (is_Some (files w !! "outputs"))) as [Hfile|Hfile].
    + done.
    + split; [reflexivity|]. split; [|done].
      right. destruct (files w !! "outputs"); [|done]. now destruct Hfile.
Qed.

(** X14: whatever the key, the network and the outcome, [main] only
    adds lines to the output, leaves every file other than
    outputs/aqi_map.html and outputs/aqi_report.csv as it was, and makes
    no directory other than outputs. *)
Theorem main_touches_only_outputs env_key net w :
  let w' := (main env_key net w).2 in
  stdout w `prefix_of` stdout w' /\
  (forall p, p <> "outputs/aqi_map.html" -> p <> "outputs/aqi_report.csv" ->
     files w' !! p = files w !! p) /\
  (dirs w' = dirs w \/ dirs w' = {["outputs"]} ∪ dirs w).
Proof.
  set (paths := ["outputs/aqi_map.html"; "outputs/aqi_report.csv"]).
  assert (Hgoal : forall w',
    (extends_within paths w w' \/
     exists w1 w2,
       extends_within paths w w1 /\
       (stdout w2 = stdout w1 /\ files w2 = files w1 /\ dirs w2 = {["outputs"]} ∪ dirs w1) /\
       extends_within paths w2 w') ->
    stdout w `prefix_of` stdout w' /\
    (forall p, p <> "outputs/aqi_map.html" -> p <> "outputs/aqi_report.csv" ->
       files w' !! p = files w !! p) /\
    (dirs w' = dirs w \/ dirs w' = {["outputs"]} ∪ dirs w)).
  { intros w' [(Ho & Hd & Hf)|
                 (w1 & w2 & (Ho & Hd & Hf) & (Hs2 & Hf2 & Hd2) & (Ho' & Hd' & Hf'))].
    - split; [exact Ho|]. split; [|now left].
      intros p H1 H2. apply Hf. now apply not_elem_of_pair.
    - split; [etrans; [exact Ho | rewrite <- Hs2; exact Ho']|]. split.
      + intros p H1 H2. rewrite Hf', Hf2, <- Hf; [done|now apply not_elem_of_pair..].
      + right. rewrite Hd', Hd2. now rewrite Hd. }
  intros w'. apply Hgoal. subst w'. clear Hgoal.
  assert (Hbanner : extends_within paths w (banner w)).
  { unfold banner. repeat (eapply extends_within_trans; [|apply print_extends]).
    apply extends_within_refl. }
  unfold main. fold (banner w).
  assert (Hmissing : extends_within paths w
                       (print MsgMissingKeyHint (print MsgMissingKey (banner w)))).
  { repeat (eapply extends_within_trans; [|apply print_extends]).
    apply extends_within_refl. }
  destruct env_key as [[|c key]|]; [now left| |now left].
  set (fetcher := {| api_key := String c key |}).
  pose proof (fetch_aqi_data_extends fetcher 1000 net (banner w)) as Hfetch.
  destruct (fetch_aqi_data fetcher 1000 net (banner w)) as [[fetched|e] w1]; cbn [snd] in *.
  2:{ left. eapply extends_within_trans; [exact Hbanner|].
      apply extends_within_nil. exact Hfetch. }
  assert (Hw1 : extends_within paths w w1).
  { eapply extends_within_trans; [exact Hbanner|].
    apply extends_within_nil. exact Hfetch. }
  destruct (negb (truthy (default PNone fetched))).
  { left. eapply extends_within_trans; [exact Hw1 | apply print_extends]. }
  pose proof (AQIMapVisualizer_init_outputs w1) as Hinit.
  destruct (AQIMapVisualizer_init "outputs" w1) as [[vis|e] w1'].
  2:{ destruct Hinit as (_ & -> & _). now left. }
  destruct Hinit as (-> & _ & Hinit).
  right. exists w1, w1'. split; [exact Hw1|]. split; [exact Hinit|].
  destruct (as_records (default PNone fetched)) as [rs|e]; [|apply extends_within_refl].
  set (vis := {| output_dir := "outputs" |}).
  pose proof (create_map_extends vis rs "aqi_map.html" w1') as Hmap.
  destruct (create_map vis rs "aqi_map.html" w1') as [[map_file|e] w2];
    cbn [snd] in *.
  2:{ apply extends_within_l. exact Hmap. }
  pose proof (create_data_report_extends vis rs "aqi_report.csv" w2) as Hrep.
  destruct (create_data_report vis rs "aqi_report.csv" w2) as [res w3]; cbn [snd] in *.
  assert (Hw3 : extends_within paths w1' w3).
  { eapply extends_within_trans;
      [apply extends_within_l; exact Hmap | apply extends_within_r; exact Hrep]. }
  destruct map_file as [path|];
    repeat (eapply extends_within_trans; [|apply print_extends]); exact Hw3.
Qed.




End MainMore.


(** A run in a directory where outputs is a regular file: the constructor
    raises, after the fetch and before any record is read. *)
Example main_outputs_is_a_file :
  (@main reference_platform (Some "secret")
     (Samples.answers (PList [PDict Samples.station_a])) Samples.blocked_world).1
  = Raise FileExistsError.
Proof. vm_compute. reflexivity. Qed.


(** ** Start-up *)

Section StartupFacts.

Import Startup.

Variable pip_install : string -> gset string -> option (gset string).

(** What one turn of the loop does. *)
Lemma ensure_package_cases module_name package_name st :
  ((module_name ∈ importable st) /\
   ensure_package pip_install module_name package_name st
   = (Completed, say (MsgInstalled package_name) st)) \/
  (~ module_name ∈ importable st /\
   exists res st',
     ensure_package pip_install module_name package_name st = (res, st') /\
     pip_calls st' = pip_calls st ++ [package_name] /\
     match res with
     | Completed =>
         pip_install package_name (importable st) = Some (importable st') /\
         printed st' = printed st ++ [MsgInstalling package_name; MsgInstallDone package_name]
     | Raised e =>
         e = CalledProcessError package_name /\
         pip_install package_name (importable st) = None /\
         importable st' = importable st /\
         printed st' = printed st ++ [MsgInstalling package_name]
     end).
Proof.
  unfold ensure_package, check_call_pip.
  destruct (bool_decide (module_name ∈ importable st)) eqn:Hin.
  - left. apply bool_decide_eq_true in Hin. done.
  - right. apply bool_decide_eq_false in Hin. split; [done|]. cbn.
    destruct (pip_install package_name (importable st)) as [modules|] eqn:Hpip.
    + eexists _, _. split; [reflexivity|]. cbn. rewrite <- app_assoc. done.
    + eexists _, _. split; [reflexivity|]. cbn. done.
Qed.

(** The packages [setup_loop] runs pip for are packages of the table, in
    the order of the table, each at most once; a package whose module
    imported at the start and kept importing is not among them. *)
Lemma setup_loop_calls packages st :
  exists calls,
    pip_calls (setup_loop pip_install packages st).2 = pip_calls st ++ calls /\
    calls `sublist_of` packages.*2.
Proof.
  revert st. induction packages as [|[module_name package_name] rest IH]; intros st.
  - exists []. cbn. now rewrite app_nil_r.
  - cbn [setup_loop fmap list_fmap snd].
    destruct (ensure_package_cases module_name package_name st)
      as [[_ ->]|(_ & res & st' & -> & Hcalls & Hres)].
    + destruct (IH (say (MsgInstalled package_name) st)) as (calls & -> & Hsub).
      exists calls. split; [done|]. now constructor.
    + destruct res as [|e].
      * destruct (IH st') as (calls & -> & Hsub).
        exists (package_name :: calls). rewrite Hcalls, <- app_assoc.
        split; [done|]. now constructor.
      * exists [package_name]. cbn. split; [done|].
        constructor. apply sublist_nil_l.
Qed.

(** A failure of [setup_loop] is the failure of the last pip command it ran. *)
Lemma setup_loop_raises packages st e :
  (setup_loop pip_install packages st).1 = Raised e ->
  exists package_name,
    e = CalledProcessError package_name /\
    last (pip_calls (setup_loop pip_install packages st).2) = Some package_name /\
    package_name ∈ packages.*2 /\
    last (printed (setup_loop pip_install packages st).2) = Some (MsgInstalling package_name).
Proof.
  revert st. induction packages as [|[module_name package_name] rest IH]; intros st.
  - discriminate.
  - cbn [setup_loop fmap list_fmap snd].
    destruct (ensure_package_cases module_name package_name st)
      as [[_ ->]|(_ & res & st' & -> & Hcalls & Hres)].
    + intros Hr. destruct (IH _ Hr) as (p & ? & ? & ? & ?).
      exists p. repeat split; try done. now right.
    + destruct res as [|e'].
      * intros Hr. destruct (IH _ Hr) as (p & ? & ? & ? & ?).
        exists p. repeat split; try done. now right.
      * cbn. intros [= <-]. destruct Hres as (-> & _ & _ & Hout).
        exists package_name. rewrite Hcalls, Hout, !last_snoc.
        repeat split; try done. now left.
Qed.

(** With every module of the table importable, nothing is installed. *)
Lemma setup_loop_nothing_to_do packages st :
  (forall module_name, module_name ∈ packages.*1 -> module_name ∈ importable st) ->
  setup_loop pip_install packages st
  = (Completed,
     {| importable := importable st; pip_calls := pip_calls st;
        printed := printed st ++ (MsgInstalled <$> packages.*2) |}).
Proof.
  revert st. induction packages as [|[module_name package_name] rest IH]; intros st Hall.
  - cbn. rewrite app_nil_r. now destruct st.
  - cbn [setup_loop fmap list_fmap fst snd].
    unfold ensure_package. rewrite bool_decide_eq_true_2 by (apply Hall; now left).
    rewrite IH.
    + cbn. now rewrite <- app_assoc.
    + intros m Hm. cbn. apply Hall. now right.
Qed.

(** X17: [setup_packages] runs pip only for packages of its table, in
    the order of the table and each at most once; when the four modules
    import it installs nothing; and when it raises, the exception is the
    failure of the pip command it ran last, announced and not reported
    done. *)
Theorem setup_packages_pip_calls st :
  let res := (setup_packages pip_install st).1 in
  let st' := (setup_packages pip_install st).2 in
  (exists calls,
     pip_calls st' = pip_calls st ++ calls /\
     calls `sublist_of` ["requests"; "python-dotenv"; "folium"; "pandas"]) /\
  ((forall module_name,
      module_name ∈ ["requests"; "dotenv"; "folium"; "pandas"] ->
      module_name ∈ importable st) ->
   res = Completed /\ importable st' = importable st /\ pip_calls st' = pip_calls st) /\
  (forall e, res = Raised e ->
     exists package_name,
       e = CalledProcessError package_name /\
       last (pip_calls st') = Some package_name /\
       last (printed st') = Some (MsgInstalling package_name)).
Proof.
  intros res st'. subst res st'. unfold setup_packages. split; [|split].
  - apply (setup_loop_calls required_packages st).
  - intros Hall. now rewrite (setup_loop_nothing_to_do required_packages st Hall).
  - intros e He. destruct (setup_loop_raises _ _ _ He) as (p & ? & ? & ? & ?).
    exists p. done.
Qed.

Lemma setup_loop_app packages rest st :
  setup_loop pip_install (packages ++ rest) st
  = match setup_loop pip_install packages st with
    | (Completed, st1) => setup_loop pip_install rest st1
    | (Raised e, st1) => (Raised e, st1)
    end.
Proof.
  revert st. induction packages as [|[m p] packages IH]; intros st; [reflexivity|].
  cbn [app setup_loop].
  destruct (ensure_package pip_install m p st) as [[|e] st1]; [apply IH|reflexivity].
Qed.

Lemma setup_loop_installs packages st :
  pip_installs pip_install ->
  (forall entry, entry ∈ packages -> entry ∈ required_packages) ->
  exists st',
    setup_loop pip_install packages st = (Completed, st') /\
    importable st ⊆ importable st' /\
    forall module_name, module_name ∈ packages.*1 -> module_name ∈ importable st'.
Proof.
  intros Hpip. revert st.
  induction packages as [|[module_name package_name] rest IH]; intros st Hsub.
  - exists st. cbn. split; [done|]. split; [done|]. intros m Hm. inversion Hm.
  - cbn [setup_loop fmap list_fmap fst].
    assert (Hrest : forall entry, entry ∈ rest -> entry ∈ required_packages)
      by (intros entry Hentry; apply Hsub; now right).
    destruct (ensure_package_cases module_name package_name st)
      as [[Hin ->]|(_ & res & st1 & -> & _ & Hres)].
    + destruct (IH (say (MsgInstalled package_name) st) Hrest) as (st' & -> & Hmono & Hall).
      exists st'. split; [done|]. split; [exact Hmono|].
      intros m Hm. apply elem_of_cons in Hm as [->|Hm]; [|now apply Hall].
      apply Hmono. exact Hin.
    + destruct (Hpip module_name package_name (importable st)) as (ms & Hms & Hm & Hmono0);
        [apply Hsub; now left|].
      destruct res as [|e]; [|destruct Hres as (_ & Hnone & _); congruence].
      destruct Hres as [Hsome _]. rewrite Hms in Hsome. injection Hsome as Hsome.
      destruct (IH st1 Hrest) as (st' & -> & Hmono & Hall).
      exists st'. split; [done|]. split; [rewrite <- Hmono, <- Hsome; exact Hmono0|].
      intros m Hm'. apply elem_of_cons in Hm' as [->|Hm']; [|now apply Hall].
      apply Hmono. now rewrite <- Hsome.
Qed.

(** X18: [import requests] and [from dotenv import load_dotenv] stand
    before the call of [setup_packages]: when either module is missing,
    loading main.py raises [ImportError] with nothing installed, and in
    no run is pip called for a package other than folium and pandas. *)
Theorem load_main_installs_only_folium_pandas st :
  (exists calls,
     pip_calls (load_main pip_install st).2 = pip_calls st ++ calls /\
     calls `sublist_of` ["folium"; "pandas"]) /\
  (forall module_name,
     module_name ∈ ["requests"; "dotenv"] -> module_name ∉ importable st ->
     exists missing,
       missing ∈ ["requests"; "dotenv"] /\
       load_main pip_install st = (Raised (ImportError missing), st)).
Proof.
  unfold load_main, import_module.
  destruct (bool_decide ("requests" ∈ importable st)) eqn:Hreq.
  2:{ split.
      - exists []. cbn. rewrite app_nil_r. split; [done|apply sublist_nil_l].
      - intros m _ _. exists "requests". split; [now left|done]. }
  destruct (bool_decide ("dotenv" ∈ importable st)) eqn:Hdot.
  2:{ split.
      - exists []. cbn. rewrite app_nil_r. split; [done|apply sublist_nil_l].
      - intros m _ _. exists "dotenv". split; [right; now left|done]. }
  apply bool_decide_eq_true in Hreq, Hdot.
  split.
  2:{ intros m Hm Hnot. apply elem_of_cons in Hm as [->|Hm]; [done|].
      apply list_elem_of_singleton in Hm as ->. done. }
  unfold setup_packages.
  set (rest := [("folium", "folium"); ("pandas", "pandas")]).
  change required_packages
    with ([("requests", "requests"); ("dotenv", "python-dotenv")] ++ rest).
  rewrite setup_loop_app, setup_loop_nothing_to_do.
  2:{ intros m Hm. apply elem_of_cons in Hm as [->|Hm]; [done|].
      apply list_elem_of_singleton in Hm as ->. done. }
  set (st2 := {| importable := importable st |}).
  destruct (setup_loop_calls rest st2) as (calls & Hcalls & Hsub).
  exists calls. split; [|exact Hsub].
  destruct (setup_loop pip_install rest st2) as [[|e] st3]; cbn [snd] in *; [|exact Hcalls].
  destruct (bool_decide _); exact Hcalls.
Qed.

(** X19: with a pip that installs what it is asked for, main.py loads
    exactly when requests and dotenv import beforehand, and the four
    modules import once it has loaded. *)
Theorem load_main_completes_iff st :
  pip_installs pip_install ->
  ((load_main pip_install st).1 = Completed <->
   "requests" ∈ importable st /\ "dotenv" ∈ importable st) /\
  ((load_main pip_install st).1 = Completed ->
   forall module_name,
     module_name ∈ ["requests"; "dotenv"; "folium"; "pandas"] ->
     module_name ∈ importable (load_main pip_install st).2).
Proof.
  intros Hpip. unfold load_main, import_module.
  destruct (bool_decide ("requests" ∈ importable st)) eqn:Hreq.
  2:{ apply bool_decide_eq_false in Hreq. cbn. split; [|discriminate].
      split; [discriminate|]. now intros [? _]. }
  destruct (bool_decide ("dotenv" ∈ importable st)) eqn:Hdot.
  2:{ apply bool_decide_eq_false in Hdot. cbn. split; [|discriminate].
      split; [discriminate|]. now intros [_ ?]. }
  apply bool_decide_eq_true in Hreq, Hdot.
  destruct (setup_loop_installs required_packages st Hpip ltac:(done))
    as (st' & Hrun & _ & Hall).
  unfold setup_packages. rewrite Hrun.
  rewrite !bool_decide_eq_true_2
    by (apply Hall; cbn; rewrite !elem_of_cons; auto 6).
  cbn. split; [done|]. intros _. exact Hall.
Qed.

End StartupFacts.

Lemma pip_all_installs : Startup.pip_installs Samples.pip_all.
Proof.
  intros m p ms Hin. exists (ms ∪ list_to_set Startup.required_packages.*1).
  split; [reflexivity|]. split; [|apply union_subseteq_l].
  apply elem_of_union_r, elem_of_list_to_set, list_elem_of_fmap. exists (m, p). done.
Qed.

(** X19 at an interpreter with requests and python-dotenv installed:
    main.py loads after one call of pip, for folium. *)
Lemma load_main_completes_iff_witness :
  Startup.pip_installs Samples.pip_all /\
  (Startup.load_main Samples.pip_all Samples.fresh_env).1 = Startup.Completed /\
  Startup.pip_calls (Startup.load_main Samples.pip_all Samples.fresh_env).2
  = ["folium"].
Proof.
  split; [exact pip_all_installs|]. split; [|vm_compute; reflexivity].
  apply (proj1 (load_main_completes_iff Samples.pip_all Samples.fresh_env
                  pip_all_installs)).
  split; apply (bool_decide_unpack _); vm_compute; exact I.
Defined.

(** ** The project scripts *)

Section ProjectFiles.

Import SetupGithub.

Lemma path_exists_true name h :
  path_exists name h = true <-> is_Some (entries h !! name).
Proof. unfold path_exists. apply bool_decide_eq_true. Qed.

Lemma path_exists_false name h :
  path_exists name h = false <-> entries h !! name = None.
Proof.
  unfold path_exists. rewrite bool_decide_eq_false, <- eq_None_not_Some. done.
Qed.

(** One step of [create_project_files]. *)
Lemma create_step name text msg h :
  let h' := if path_exists name h then h else print msg (write_text name text h) in
  entries h' = entries h ∪ {[name := File text]} /\
  stdout h' = stdout h ++ (if path_exists name h then [] else [msg]) /\
  forall other, other <> name -> path_exists other h' = path_exists other h.
Proof.
  intros h'. subst h'. destruct (path_exists name h) eqn:Hex.
  - apply path_exists_true in Hex as [e He].
    split; [|split; [now rewrite app_nil_r|done]].
    apply map_eq. intros i. rewrite lookup_union.
    destruct (decide (i = name)) as [->|Hne].
    + rewrite He, lookup_singleton_eq. done.
    + rewrite lookup_singleton_ne by done. now destruct (entries h !! i).
  - apply path_exists_false in Hex.
    split; [|split; [done|]].
    + cbn. apply map_eq. intros i. rewrite lookup_union.
      destruct (decide (i = name)) as [->|Hne].
      * rewrite Hex, lookup_insert_eq, lookup_singleton_eq. done.
      * rewrite lookup_insert_ne, lookup_singleton_ne by done.
        now destruct (entries h !! i).
    + intros other Hne. unfold path_exists. cbn.
      now rewrite lookup_insert_ne.
Qed.

Lemma create_project_files_run h :
  create_project_files h
  = {| entries := entries h ∪ project_files;
       stdout := stdout h
                 ++ omap (fun '(name, msg) =>
                            if path_exists name h then None else Some msg)
                      creation_lines |}.
Proof.
  enough (Hrun : entries (create_project_files h) = entries h ∪ project_files /\
                 stdout (create_project_files h)
                 = stdout h ++ omap (fun '(name, msg) =>
                                       if path_exists name h then None else Some msg)
                                 creation_lines)
    by (destruct Hrun as [He Ho]; destruct (create_project_files h) as [e o];
        cbn in *; now subst).
  unfold create_project_files.
  pose proof (create_step ".gitignore" gitignore_content "✓ .gitignore 已創建" h)
    as (He1 & Ho1 & Hx1).
  set (h1 := if path_exists ".gitignore" h then h else _) in *.
  pose proof (create_step "README.md" readme_content "✓ README.md 已創建" h1)
    as (He2 & Ho2 & Hx2).
  set (h2 := if path_exists "README.md" h1 then h1 else _) in *.
  pose proof (create_step "requirements.txt" req_content "✓ requirements.txt 已創建" h2)
    as (He3 & Ho3 & Hx3).
  set (h3 := if path_exists "requirements.txt" h2 then h2 else _) in *.
  split.
  - rewrite He3, He2, He1. unfold project_files. cbn [list_to_map foldr uncurry fst snd].
    rewrite <- !(assoc_L (∪)). f_equal.
  - rewrite Ho3, Ho2, Ho1. cbn [omap list_omap creation_lines].
    rewrite (Hx2 "requirements.txt"), (Hx1 "requirements.txt"), (Hx1 "README.md") by done.
    rewrite <- !app_assoc.
    destruct (path_exists ".gitignore" h), (path_exists "README.md" h),
      (path_exists "requirements.txt" h); reflexivity.
Qed.

(** X20: [create_project_files] fills the gaps and nothing else: the
    directory it leaves is the one it found with .gitignore, README.md and
    requirements.txt added where they were missing; no entry that existed
    is changed; and it prints one line for each file it made, in that
    order. *)
Theorem create_project_files_fills_gaps h :
  entries (create_project_files h) = entries h ∪ project_files /\
  (forall name e,
     entries h !! name = Some e -> entries (create_project_files h) !! name = Some e) /\
  stdout (create_project_files h)
  = stdout h ++ omap (fun '(name, msg) => if path_exists name h then None else Some msg)
                  creation_lines.
Proof.
  rewrite create_project_files_run. cbn [entries stdout].
  split; [reflexivity|]. split; [|reflexivity].
  intros name e He. now apply lookup_union_Some_l.
Qed.

Lemma print_setup_instructions_entries h :
  entries (print_setup_instructions h) = entries h.
Proof.
  unfold print_setup_instructions. generalize setup_instructions.
  intros l. revert h. induction l as [|s l IH]; intros h; [done|].
  cbn [foldl]. now rewrite IH.
Qed.

Lemma project_files_provided name :
  name ∈ creation_lines.*1 -> is_Some (project_files !! name).
Proof.
  cbn. rewrite !elem_of_cons, elem_of_nil.
  intros [-> | [-> | [-> | []]]]; vm_compute; eauto.
Qed.

(** X21: the script of setup_github.py can be run again: a second run
    leaves the directory as the first one left it, and
    [create_project_files] after itself changes and prints nothing. *)
Theorem script_second_run h :
  entries (script (script h)) = entries (script h) /\
  create_project_files (create_project_files h) = create_project_files h.
Proof.
  assert (Hidem : forall h0,
            create_project_files (create_project_files h0) = create_project_files h0).
  { intros h0. rewrite (create_project_files_run (create_project_files h0)).
    assert (Hex : forall name, name ∈ creation_lines.*1 ->
              path_exists name (create_project_files h0) = true).
    { intros name Hname. apply path_exists_true.
      rewrite create_project_files_run. cbn [entries]. rewrite lookup_union.
      destruct (project_files_provided name Hname) as [e ->].
      destruct (entries h0 !! name); cbn; eauto. }
    cbn [omap list_omap creation_lines].
    rewrite !Hex by (cbn; rewrite !elem_of_cons; auto).
    assert (He : entries (create_project_files h0) ∪ project_files
                 = entries (create_project_files h0)).
    { rewrite create_project_files_run. cbn [entries].
      rewrite <- (assoc_L (∪)). now rewrite (idemp_L (∪)). }
    rewrite He, app_nil_r. now destruct (create_project_files h0). }
  split; [|apply Hidem].
  unfold script. rewrite !print_setup_instructions_entries.
  set (h1 := print _ (print _ (print _ h))).
  set (h2 := print _ (print _ (print _ (print_setup_instructions (create_project_files h1))))).
  rewrite (create_project_files_run h2), (create_project_files_run h1). cbn [entries].
  subst h2. cbn [entries print]. rewrite print_setup_instructions_entries.
  rewrite (create_project_files_run h1). cbn [entries].
  rewrite <- (assoc_L (∪)). now rewrite (idemp_L (∪)).
Qed.

End ProjectFiles.

Section GitRepo.

Import GithubSetup.

Variable git : list string -> gmap string entry -> process * gmap string entry.
Variable str_strip : string -> string.

Ltac elem_false H :=
  repeat (apply elem_of_cons in H as [H|H]; [discriminate|]); inversion H.

(** What one call of [subprocess.run] does. *)
Lemma subprocess_run_spec argv h :
  let h' := (subprocess_run git argv h).2 in
  commands h' = commands h ++ [argv] /\ stdout h' = stdout h /\
  match (subprocess_run git argv h).1 with
  | Returned output => exists d, git argv (entries h) = (Exit 0 output, d)
  | Raised (CalledProcessError argv' returncode) =>
      argv' = argv /\ returncode <> 0 /\
      exists output d, git argv (entries h) = (Exit returncode output, d)
  | Raised FileNotFoundError => exists d, git argv (entries h) = (NotFound, d)
  end.
Proof.
  unfold subprocess_run. destruct (git argv (entries h)) as [[[|c|c] output|] d]; cbn;
    repeat split; eauto.
Qed.

Lemma configure_user_spec h :
  let res := (configure_user git h).1 in
  let h' := (configure_user git h).2 in
  (commands h' = commands h ++ [git_config_email] \/
   commands h' = commands h ++ [git_config_email; git_config_name]) /\
  stdout h `prefix_of` stdout h' /\
  (forall e, res = Raised e -> e = FileNotFoundError /\ git_missing git).
Proof.
  unfold configure_user.
  pose proof (subprocess_run_spec git_config_email h) as (Hc1 & Ho1 & Hr1).
  destruct (subprocess_run git git_config_email h) as [[out1|e1] h1]; cbn [fst snd] in *.
  2:{ destruct e1 as [a c|]; cbn; (split; [now left|]); (split; [now rewrite Ho1|]).
      - discriminate.
      - intros e [= <-]. split; [done|]. destruct Hr1 as [d Hd].
        exists git_config_email, (entries h). now rewrite Hd. }
  pose proof (subprocess_run_spec git_config_name h1) as (Hc2 & Ho2 & Hr2).
  destruct (subprocess_run git git_config_name h1) as [[out2|e2] h2]; cbn [fst snd] in *.
  2:{ destruct e2 as [a c|]; cbn; (split; [right; now rewrite Hc2, Hc1, <- app_assoc|]);
        (split; [now rewrite Ho2, Ho1|]).
      - discriminate.
      - intros e [= <-]. split; [done|]. destruct Hr2 as [d Hd].
        exists git_config_name, (entries h1). now rewrite Hd. }
  cbn. split; [right; now rewrite Hc2, Hc1, <- app_assoc|].
  split; [rewrite Ho2, Ho1; now apply prefix_app_r|discriminate].
Qed.

Lemma init_repo_spec h :
  let res := (init_repo git h).1 in
  let h' := (init_repo git h).2 in
  ((is_Some (entries h !! ".git") /\ commands h' = commands h) \/
   (entries h !! ".git" = None /\
    exists rest, commands h' = commands h ++ git_init :: rest /\
                 rest `sublist_of` [git_config_email; git_config_name])) /\
  stdout h `prefix_of` stdout h' /\
  (forall e, res = Raised e ->
     (e = FileNotFoundError /\ git_missing git) \/
     (entries h !! ".git" = None /\
      exists returncode, e = CalledProcessError git_init returncode /\ returncode <> 0)).
Proof.
  unfold init_repo, path_exists.
  destruct (bool_decide (is_Some (entries h !! ".git"))) eqn:Hgit.
  - apply bool_decide_eq_true in Hgit. cbn. split; [now left|].
    split; [now apply prefix_app_r|discriminate].
  - apply bool_decide_eq_false in Hgit. rewrite <- eq_None_not_Some in Hgit.
    set (h0 := print _ h).
    pose proof (subprocess_run_spec git_init h0) as (Hc1 & Ho1 & Hr1).
    destruct (subprocess_run git git_init h0) as [[out1|e1] h1]; cbn [fst snd] in *.
    2:{ split; [right; split; [done|]; exists []; split; [exact Hc1|apply sublist_nil_l]|].
        split; [rewrite Ho1; now apply prefix_app_r|].
        intros e [= <-]. destruct e1 as [a c|].
        - right. split; [done|]. destruct Hr1 as (-> & Hc0 & _). eauto.
        - left. split; [done|]. destruct Hr1 as [d Hd].
          exists git_init, (entries h0). now rewrite Hd. }
    set (h2 := print _ h1).
    pose proof (configure_user_spec h2) as (Hc2 & Ho2 & Hr2).
    split; [right; split; [done|]|split].
    + destruct Hc2 as [Hc2|Hc2]; rewrite Hc2; cbn [commands h2 print]; rewrite Hc1;
        rewrite <- app_assoc; eexists; (split; [reflexivity|]).
      * constructor. apply sublist_nil_l.
      * reflexivity.
    + etrans; [|exact Ho2]. cbn [stdout h2 print]. rewrite Ho1. cbn.
      rewrite <- app_assoc. now apply prefix_app_r.
    + intros e He. left. now apply Hr2.
Qed.

Lemma write_defaults_spec h :
  commands (write_defaults h) = commands h /\
  stdout h `prefix_of` stdout (write_defaults h) /\
  (forall name e, entries h !! name = Some e -> entries (write_defaults h) !! name = Some e).
Proof.
  unfold write_defaults, path_exists.
  destruct (bool_decide (is_Some (entries h !! ".gitignore"))) eqn:H1.
  - destruct (bool_decide (is_Some (entries h !! "README.md"))) eqn:H2.
    + done.
    + apply bool_decide_eq_false in H2. rewrite <- eq_None_not_Some in H2.
      cbn. split; [done|]. split; [now apply prefix_app_r|].
      intros name e He. rewrite lookup_insert_ne; [done|]. intros <-. congruence.
  - apply bool_decide_eq_false in H1. rewrite <- eq_None_not_Some in H1.
    cbn [entries print write_text].
    destruct (bool_decide (is_Some (<[".gitignore":=_]> (entries h) !! "README.md"))) eqn:H2.
    + cbn. split; [done|]. split; [now apply prefix_app_r|].
      intros name e He. rewrite lookup_insert_ne; [done|]. intros <-. congruence.
    + apply bool_decide_eq_false in H2. rewrite <- eq_None_not_Some in H2.
      rewrite lookup_insert_ne in H2 by done.
      cbn. split; [done|]. split; [rewrite <- app_assoc; now apply prefix_app_r|].
      intros name e He. rewrite !lookup_insert_ne; [done|intros <-; congruence..].
Qed.

Lemma stage_spec h :
  let res := (stage git h).1 in
  let h' := (stage git h).2 in
  commands h' = commands h ++ [git_add] /\
  stdout h `prefix_of` stdout h' /\
  (forall e, res = Raised e -> e = FileNotFoundError /\ git_missing git) /\
  (res = Returned false ->
   exists returncode output d,
     returncode <> 0 /\ git git_add (entries h) = (Exit returncode output, d) /\
     last (stdout h') = Some (AddFailed (CalledProcessError git_add returncode))) /\
  (res = Returned true <->
   exists output d, git git_add (entries h) = (Exit 0 output, d)).
Proof.
  unfold stage. set (h0 := print _ h).
  pose proof (subprocess_run_spec git_add h0) as (Hc & Ho & Hr).
  destruct (subprocess_run git git_add h0) as [[out|e] h1]; cbn [fst snd] in *.
  - cbn. split; [exact Hc|]. split; [rewrite Ho; cbn; rewrite <- app_assoc; now apply prefix_app_r|].
    split; [discriminate|]. split; [discriminate|]. split; [|done].
    intros _. destruct Hr as [d Hd]. eauto.
  - destruct e as [a c|]; cbn.
    + destruct Hr as (-> & Hc0 & output & d & Hd).
      split; [exact Hc|]. split; [rewrite Ho; cbn; rewrite <- app_assoc; now apply prefix_app_r|].
      split; [discriminate|]. split.
      * intros _. exists c, output, d. split; [done|]. split; [exact Hd|].
        now rewrite last_snoc.
      * split; [discriminate|]. intros (output' & d' & Hd'). cbn in Hd. congruence.
    + destruct Hr as [d Hd].
      split; [exact Hc|]. split; [rewrite Ho; now apply prefix_app_r|].
      split; [|split; [discriminate|]].
      * intros e [= <-]. split; [done|]. exists git_add, (entries h0). now rewrite Hd.
      * split; [discriminate|]. intros (output' & d' & Hd'). cbn in Hd. congruence.
Qed.

Lemma commit_changes_spec h :
  let res := (commit_changes git str_strip h).1 in
  let h' := (commit_changes git str_strip h).2 in
  (commands h' = commands h ++ [git_status] \/
   (commands h' = commands h ++ [git_status; git_commit] /\
    exists output d, git git_status (entries h) = (Exit 0 output, d) /\
                     str_strip output <> EmptyString)) /\
  stdout h `prefix_of` stdout h' /\
  (forall e, res = Raised e -> e = FileNotFoundError /\ git_missing git).
Proof.
  unfold commit_changes.
  pose proof (subprocess_run_spec git_status h) as (Hc1 & Ho1 & Hr1).
  destruct (subprocess_run git git_status h) as [[out1|e1] h1]; cbn [fst snd] in *.
  2:{ destruct e1 as [a c|]; cbn; (split; [now left|]).
      - split; [rewrite Ho1; now apply prefix_app_r|discriminate].
      - split; [now rewrite Ho1|]. intros e [= <-]. split; [done|].
        destruct Hr1 as [d Hd]. exists git_status, (entries h). now rewrite Hd. }
  destruct (String.eqb (str_strip out1) EmptyString) eqn:Hblank; cbn [negb].
  { cbn. split; [now left|]. split; [rewrite Ho1; now apply prefix_app_r|discriminate]. }
  apply String.eqb_neq in Hblank.
  set (h2 := print _ h1).
  pose proof (subprocess_run_spec git_commit h2) as (Hc2 & Ho2 & Hr2).
  assert (Hcmds : commands (subprocess_run git git_commit h2).2
                  = commands h ++ [git_status; git_commit]).
  { rewrite Hc2. cbn [commands h2 print]. now rewrite Hc1, <- app_assoc. }
  assert (Hout : stdout h `prefix_of` stdout (subprocess_run git git_commit h2).2).
  { rewrite Ho2. cbn [stdout h2 print]. rewrite Ho1. now apply prefix_app_r. }
  destruct Hr1 as [d Hd].
  destruct (subprocess_run git git_commit h2) as [[out2|e2] h3]; cbn [fst snd] in *.
  - cbn. split; [right; split; [exact Hcmds|eauto]|].
    split; [|discriminate]. etrans; [exact Hout|]. now apply prefix_app_r.
  - destruct e2 as [a c|]; cbn; (split; [right; split; [exact Hcmds|eauto]|]).
    + split; [|discriminate]. etrans; [exact Hout|]. now apply prefix_app_r.
    + split; [exact Hout|]. intros e [= <-]. split; [done|].
      destruct Hr2 as [d' Hd']. exists git_commit, (entries h2). now rewrite Hd'.
Qed.

Lemma print_lines_spec (lines : list string) h :
  let h' := foldl (fun h s => print (Text s) h) h lines in
  commands h' = commands h /\ entries h' = entries h /\
  stdout h' = stdout h ++ (Text <$> lines).
Proof.
  revert h. induction lines as [|s lines IH]; intros h; cbn [foldl fmap list_fmap].
  - now rewrite app_nil_r.
  - destruct (IH (print (Text s) h)) as (-> & -> & ->). cbn. now rewrite <- app_assoc.
Qed.

(** The commands of a run: those of the [if] on .git, then a prefix of
    add, status, commit. *)
Lemma setup_git_repo_trace repo_name h :
  let res := (setup_git_repo git str_strip repo_name h).1 in
  let h' := (setup_git_repo git str_strip repo_name h).2 in
  exists first rest,
    commands h' = commands h ++ first ++ rest /\
    ((is_Some (entries h !! ".git") /\ first = []) \/
     (entries h !! ".git" = None /\
      exists config, first = git_init :: config /\
                     config `sublist_of` [git_config_email; git_config_name])) /\
    (rest = [] \/ rest = [git_add] \/ rest = [git_add; git_status] \/
     rest = [git_add; git_status; git_commit]) /\
    (forall e, res = Raised e ->
       (e = FileNotFoundError /\ git_missing git) \/
       (entries h !! ".git" = None /\
        exists returncode, e = CalledProcessError git_init returncode /\ returncode <> 0)) /\
    (res = Returned false ->
     rest = [git_add] /\
     exists returncode output d d',
       returncode <> 0 /\ git git_add d = (Exit returncode output, d')) /\
    (res = Returned true ->
     (rest = [git_add; git_status] \/ rest = [git_add; git_status; git_commit]) /\
     exists printed, stdout h' = printed ++ (Text <$> push_instructions repo_name)).
Proof.
  unfold setup_git_repo.
  set (h0 := print _ (print _ (print _ h))).
  assert (Hc0 : commands h0 = commands h) by reflexivity.
  assert (He0 : entries h0 = entries h) by reflexivity.
  pose proof (init_repo_spec h0) as (Hinit & _ & Hraise1).
  rewrite He0, Hc0 in Hinit.
  assert (Hfirst : exists first,
            commands (init_repo git h0).2 = commands h ++ first /\
            ((is_Some (entries h !! ".git") /\ first = []) \/
             (entries h !! ".git" = None /\
              exists config, first = git_init :: config /\
                             config `sublist_of` [git_config_email; git_config_name]))).
  { destruct Hinit as [[Hgit Hc]|(Hgit & config & Hc & Hsub)].
    - exists []. rewrite app_nil_r. split; [done|]. now left.
    - exists (git_init :: config). split; [done|]. right. eauto. }
  clear Hinit. destruct Hfirst as (first & Hc1 & Hfirst).
  destruct (init_repo git h0) as [[[]|e1] h1]; cbn [fst snd] in *.
  2:{ exists first, []. rewrite app_nil_r. split; [done|]. split; [done|].
      split; [now left|]. split; [intros e [= <-]; rewrite <- He0; now apply Hraise1|].
      split; discriminate. }
  pose proof (write_defaults_spec h1) as (Hc2 & _ & _).
  pose proof (stage_spec (write_defaults h1)) as (Hc3 & _ & Hraise3 & Hfalse3 & _).
  rewrite Hc2, Hc1 in Hc3.
  destruct (stage git (write_defaults h1)) as [[[|]|e3] h3]; cbn [fst snd] in *.
  3:{ exists first, [git_add]. rewrite Hc3, <- app_assoc. split; [done|]. split; [done|].
      split; [auto|]. split; [intros e [= <-]; left; now apply Hraise3|].
      split; discriminate. }
  2:{ exists first, [git_add]. rewrite Hc3, <- app_assoc. split; [done|]. split; [done|].
      split; [auto|]. split; [discriminate|]. split; [|discriminate].
      intros _. split; [done|].
      destruct (Hfalse3 eq_refl) as (c & output & d & Hne & Hd & _). eauto 6. }
  pose proof (commit_changes_spec h3) as (Hc4 & _ & Hraise4).
  assert (Hrest : exists rest,
            commands (commit_changes git str_strip h3).2 = commands h ++ first ++ rest /\
            (rest = [git_add; git_status] \/ rest = [git_add; git_status; git_commit])).
  { destruct Hc4 as [Hc4|[Hc4 _]]; rewrite Hc4, Hc3, <- !app_assoc; eexists;
      (split; [reflexivity|]); auto. }
  clear Hc4. destruct Hrest as (rest & Hc4 & Hrest).
  destruct (commit_changes git str_strip h3) as [[[]|e4] h4]; cbn [fst snd] in *.
  - destruct (print_lines_spec (push_instructions repo_name) h4) as (Hc5 & _ & Ho5).
    exists first, rest. rewrite Hc5. split; [done|]. split; [done|].
    split; [destruct Hrest; auto|]. split; [discriminate|]. split; [discriminate|].
    intros _. split; [done|]. eauto.
  - exists first, rest. split; [done|]. split; [done|].
    split; [destruct Hrest; auto|]. split; [intros e [= <-]; left; now apply Hraise4|].
    split; discriminate.
Qed.

(** X22: the commands [setup_git_repo] gives to git are among init,
    the two config commands, add, status and commit, in this order and
    each at most once (so it never pushes and never adds a remote); init
    is given exactly when there is no .git entry; and status comes only
    after add, commit only after status. *)
Theorem setup_git_repo_commands repo_name h :
  exists cmds,
    commands (setup_git_repo git str_strip repo_name h).2 = commands h ++ cmds /\
    cmds `sublist_of` git_commands /\
    (git_init ∈ cmds <-> entries h !! ".git" = None) /\
    (git_status ∈ cmds -> git_add ∈ cmds) /\
    (git_commit ∈ cmds -> git_status ∈ cmds).
Proof.
  destruct (setup_git_repo_trace repo_name h)
    as (first & rest & Hc & Hfirst & Hrest & _).
  exists (first ++ rest). split; [exact Hc|].
  assert (Hrest_sub : rest `sublist_of` [git_add; git_status; git_commit]).
  { destruct Hrest as [-> | [-> | [-> | ->]]]; repeat constructor. }
  assert (Hrest_init : git_init ∉ rest).
  { intros Hin. destruct Hrest as [-> | [-> | [-> | ->]]]; elem_false Hin. }
  assert (Hstatus : git_status ∈ rest -> git_add ∈ rest).
  { destruct Hrest as [-> | [-> | [-> | ->]]]; intros Hin;
      first [now left | elem_false Hin]. }
  assert (Hcommit : git_commit ∈ rest -> git_status ∈ rest).
  { destruct Hrest as [-> | [-> | [-> | ->]]]; intros Hin;
      first [right; now left | elem_false Hin]. }
  destruct Hfirst as [[Hgit ->]|(Hgit & config & -> & Hsub)].
  - cbn [app]. split; [|split; [|split; assumption]].
    + unfold git_commands. do 3 apply sublist_cons. exact Hrest_sub.
    + split; [done|]. intros Hnone. rewrite Hnone in Hgit. now destruct Hgit.
  - assert (Hconfig : forall c, c ∈ config -> c = git_config_email \/ c = git_config_name).
    { intros c Hin. eapply elem_of_sublist in Hin; [|exact Hsub].
      apply elem_of_cons in Hin as [->|Hin]; [now left|].
      apply list_elem_of_singleton in Hin as ->. now right. }
    split; [|split; [|split]].
    + unfold git_commands. cbn [app]. apply sublist_skip.
      apply (sublist_app _ [git_config_email; git_config_name]); assumption.
    + split; [done|]. intros _. now left.
    + intros Hin. cbn [app] in Hin. apply elem_of_cons in Hin as [?|Hin]; [discriminate|].
      apply elem_of_app in Hin as [Hin|Hin].
      * destruct (Hconfig _ Hin); discriminate.
      * right. apply elem_of_app. right. now apply Hstatus.
    + intros Hin. cbn [app] in Hin. apply elem_of_cons in Hin as [?|Hin]; [discriminate|].
      apply elem_of_app in Hin as [Hin|Hin].
      * destruct (Hconfig _ Hin); discriminate.
      * right. apply elem_of_app. right. now apply Hcommit.
Qed.

(** X23: when [setup_git_repo] returns [False], [git add .] has
    exited with a non-zero status and is the last command it gave; when it
    returns [True], it has asked git for the status, and the push
    instructions are the last lines it printed. *)
Theorem setup_git_repo_result repo_name h :
  let res := (setup_git_repo git str_strip repo_name h).1 in
  let h' := (setup_git_repo git str_strip repo_name h).2 in
  (res = Returned false ->
   last (commands h') = Some git_add /\
   exists returncode output d d',
     returncode <> 0 /\ git git_add d = (Exit returncode output, d')) /\
  (res = Returned true ->
   git_status ∈ commands h' /\
   exists printed, stdout h' = printed ++ (Text <$> push_instructions repo_name)).
Proof.
  destruct (setup_git_repo_trace repo_name h)
    as (first & rest & Hc & _ & _ & _ & Hfalse & Htrue).
  split.
  - intros Hres. destruct (Hfalse Hres) as [-> Hexit]. split; [|exact Hexit].
    rewrite Hc, !app_assoc. apply last_snoc.
  - intros Hres. destruct (Htrue Hres) as [Hrest Hout]. split; [|exact Hout].
    rewrite Hc. apply elem_of_app. right. apply elem_of_app. right.
    destruct Hrest as [->| ->]; right; now left.
Qed.

(** X24: in a directory that is a repository already, with git
    installed and [git add .] succeeding, [setup_git_repo] returns [True]
    whatever becomes of [git status] and [git commit]: a commit that
    fails is printed and passed over. *)
Theorem setup_git_repo_true_without_commit repo_name h :
  is_Some (entries h !! ".git") ->
  (forall argv d, (git argv d).1 <> NotFound) ->
  (forall d, exists output, (git git_add d).1 = Exit 0 output) ->
  (setup_git_repo git str_strip repo_name h).1 = Returned true.
Proof.
  intros Hgit Hfound Hadd.
  destruct (setup_git_repo_trace repo_name h)
    as (first & rest & _ & _ & _ & Hraise & Hfalse & _).
  destruct (setup_git_repo git str_strip repo_name h) as [[[|]|e] h']; cbn [fst] in *.
  - reflexivity.
  - destruct (Hfalse eq_refl) as (_ & c & output & d & d' & Hne & Hd).
    destruct (Hadd d) as [output' Hd']. rewrite Hd in Hd'. cbn in Hd'. congruence.
  - destruct (Hraise e eq_refl) as [[_ (argv & d & Hd)]|[Hnone _]].
    + now destruct (Hfound argv d).
    + rewrite Hnone in Hgit. now destruct Hgit.
Qed.

End GitRepo.

(** X24 at a git whose commit fails: the three commands are given and
    the result is [True]. *)
Lemma setup_git_repo_true_without_commit_witness :
  (GithubSetup.setup_git_repo Samples.git_failing_commit Samples.ascii_strip
     "aqi-analysis" Samples.repository).1 = GithubSetup.Returned true /\
  GithubSetup.commands
    (GithubSetup.setup_git_repo Samples.git_failing_commit Samples.ascii_strip
       "aqi-analysis" Samples.repository).2
  = [GithubSetup.git_add; GithubSetup.git_status; GithubSetup.git_commit].
Proof.
  split; [|vm_compute; reflexivity].
  apply (setup_git_repo_true_without_commit Samples.git_failing_commit
           Samples.ascii_strip "aqi-analysis" Samples.repository).
  - exists Directory. reflexivity.
  - intros argv d. unfold Samples.git_failing_commit.
    repeat destruct (bool_decide _); discriminate.
  - intros d. exists EmptyString. reflexivity.
Defined.
